(** * Pacing, quota, scheduling and outreach workflow of the LinkedIn
      automation bot: a shallow embedding of the Go sources and the
      properties of its specification.

    Conventions of the embedding.
    - A Go [int] / [int64] is a [Z]; where the source does arithmetic on
      configuration values the 64-bit wrap-around is written out ([wrap64]).
    - A [time.Time] is a [Z]: nanoseconds since the Unix epoch, read on the
      wall clock of a location with a fixed offset, so that every calendar
      day has 24 hours.  The clock of the database (CURRENT_TIMESTAMP) and
      the instants compared with its timestamps are those of UTC; the
      scheduler reads the wall clock of the host; the two statistics,
      which set a local date and a local time against the UTC texts of the
      database, take the instant and the offset of the host's zone.
    - A [float64] is a [spec_float] at precision 53 / emax 1024, the
      IEEE 754 binary64 operations of [SpecFloat].
    - Every reading of [time.Now()] or of the database's CURRENT_TIMESTAMP,
      every answer of the browser, and the driver's error of every storage
      call that returns an [error], is an input of the function that makes
      the call: [None] is Go's nil error.  So is the error of each
      [Scan] of [GetTodayStats] and [GetHourlyStats], which the code
      ignores: the count it would have filled in stays 0.
    - The database is the list of rows of each table, oldest first.
    - The lines a phase writes to the logrus logger are kept, in a
      structured form, for the phase loop and the announcement of a send.
    - The pacing sleeps inside the two phases change no state and are left
      out of them; [RandomDelay] is modelled on its own, and so are the
      click counter, the idle breaks and the keys of [HumanType].  The
      search keeps its pacing calls and its click, for their panics.
    - A panic of the runtime ([rand.Intn] on an empty range, a slice bound
      out of range, [MustInfo]) is the result [None] or [Panicked].
    - The table profiles is not part of the store: what [SaveProfile] and
      [GetProfileByURL] answer is an input of the caller.  Outside the two
      phases the lines of the process logger are dropped. *)

From Stdlib Require Import ZArith List String Ascii Bool Lia DecimalString.
From Stdlib Require Import Floats.SpecFloat.
Import ListNotations.
Local Open Scope string_scope.
Local Open Scope list_scope.
Local Open Scope Z_scope.

(** ** Go values *)

(** Result of a fallible call: Go's [(v, err)] with [err == nil] or not. *)
Inductive result (A : Type) : Type :=
| Ok (v : A)
| Err (msg : string).
Arguments Ok {A} v.
Arguments Err {A} msg.

(** Signed 64-bit wrap-around of Go's [int] and [int64]. *)
Definition wrap64 (z : Z) : Z := (z + 2 ^ 63) mod 2 ^ 64 - 2 ^ 63.

Definition MaxInt64 : Z := 2 ^ 63 - 1.
Definition MinInt64 : Z := - 2 ^ 63.

Definition int_range (z : Z) : Prop := MinInt64 <= z <= MaxInt64.

(** [fmt.Errorf("<prefix>: %w", err)]. *)
Definition wrap_err (prefix msg : string) : string := prefix ++ ": " ++ msg.

(** ** package time *)
Module gotime.

Definition Nanosecond : Z := 1.
Definition Millisecond : Z := 1000000.
Definition Second : Z := 1000000000.
Definition Hour : Z := 3600 * Second.
Definition Day : Z := 24 * Hour.

(** [t.Add(d)]. *)
Definition Add (t d : Z) : Z := t + d.

(** [t.After(u)]. *)
Definition After (t u : Z) : bool := u <? t.

(** [t.Sub(u)]: a Duration, saturated at the ends of int64. *)
Definition Sub (t u : Z) : Z :=
  let d := t - u in
  if d <? MinInt64 then MinInt64
  else if MaxInt64 <? d then MaxInt64
  else d.

(** [time.Since(t)] with the clock reading [now]. *)
Definition Since (now t : Z) : Z := Sub now t.

(** Midnight that opens the calendar day of [t]. *)
Definition midnight (t : Z) : Z := t - t mod Day.

(** Number of the calendar day of [t], counted from 1970-01-01. *)
Definition day_number (t : Z) : Z := t / Day.

(** [t.Hour()], in 0..23. *)
Definition HourOf (t : Z) : Z := (t mod Day) / Hour.

(** [t.Weekday()]: Sunday = 0 .. Saturday = 6; 1970-01-01 was a Thursday. *)
Definition Weekday (t : Z) : Z := (day_number t + 4) mod 7.

(** [Weekday.String()]. *)
Definition WeekdayString (d : Z) : string :=
  match d with
  | 0 => "Sunday" | 1 => "Monday" | 2 => "Tuesday" | 3 => "Wednesday"
  | 4 => "Thursday" | 5 => "Friday" | 6 => "Saturday"
  | _ => "%!Weekday(" ++ ")"
  end.

(** [time.Date(t.Year(), t.Month(), t.Day(), hour, 0, 0, 0, t.Location())]:
    the given hour counted from the midnight of [t]'s day ([time.Date]
    normalises an hour outside 0..23 into the neighbouring days). *)
Definition DateAtHour (t hour : Z) : Z := midnight t + hour * Hour.

(** The date [DATE(sent_at)] / [Format("2006-01-02")] of two instants agree. *)
Definition same_date (t u : Z) : bool := day_number t =? day_number u.

(** *** float64 arithmetic of [Duration.Hours] *)

Definition float64 : Type := spec_float.
Definition prec : Z := 53.
Definition emax : Z := 1024.

(** Conversion [float64(n)] of an integer, rounded to nearest even. *)
Definition float64_of_int (n : Z) : float64 := binary_normalize prec emax n 0 false.

Definition f64add : float64 -> float64 -> float64 := SFadd prec emax.
Definition f64div : float64 -> float64 -> float64 := SFdiv prec emax.
Definition f64lt : float64 -> float64 -> bool := SFltb.

(** [func (d Duration) Hours() float64]:
    hour := d / Hour; nsec := d % Hour;
    return float64(hour) + float64(nsec)/(60*60*1e9)
    (Go's [/] and [%] truncate toward zero). *)
Definition Hours (d : Z) : float64 :=
  let hour := Z.quot d Hour in
  let nsec := Z.rem d Hour in
  f64add (float64_of_int hour)
         (f64div (float64_of_int nsec) (float64_of_int (60 * 60 * 1000000000))).

(** *** Further functions of package time *)

Definition Minute : Z := 60 * Second.

(** [time.Until(t)] with the clock reading [now]. *)
Definition Until (now t : Z) : Z := Sub t now.

(** [t.Unix()]: the whole seconds since the epoch. *)
Definition Unix (t : Z) : Z := t / Second.

End gotime.

(** ** package strings *)
Module strings.

Definition lower_ascii (c : ascii) : ascii :=
  let n := nat_of_ascii c in
  if (65 <=? n)%nat && (n <=? 90)%nat then ascii_of_nat (n + 32) else c.

(** [strings.ToLower] on ASCII text. *)
Fixpoint ToLower (s : string) : string :=
  match s with
  | EmptyString => EmptyString
  | String c s' => String (lower_ascii c) (ToLower s')
  end.

(** *** Splitting and replacing *)

(** [unicode.IsSpace] at the head of a string of UTF-8 bytes: the number of
    bytes of the white space character the string starts with, 0 when it
    starts with none.  White space is U+0009..U+000D, U+0020, U+0085,
    U+00A0, U+1680, U+2000..U+200A, U+2028, U+2029, U+202F, U+205F and
    U+3000; the first byte of each of their encodings is no continuation
    byte, so that it always stands at the start of a character. *)
Definition space_width (s : string) : nat :=
  match s with
  | EmptyString => 0
  | String c0 s1 =>
    let b0 := nat_of_ascii c0 in
    if ((9 <=? b0) && (b0 <=? 13) || (b0 =? 32))%nat then 1
    else
      match s1 with
      | EmptyString => 0
      | String c1 s2 =>
        let b1 := nat_of_ascii c1 in
        if ((b0 =? 194) && ((b1 =? 133) || (b1 =? 160)))%nat then 2
        else
          match s2 with
          | EmptyString => 0
          | String c2 _ =>
            let b2 := nat_of_ascii c2 in
            if ((b0 =? 225) && (b1 =? 154) && (b2 =? 128))%nat then 3
            else if ((b0 =? 226) && (b1 =? 128)
                     && ((128 <=? b2) && (b2 <=? 138)
                         || (b2 =? 168) || (b2 =? 169) || (b2 =? 175)))%nat then 3
            else if ((b0 =? 226) && (b1 =? 129) && (b2 =? 159))%nat then 3
            else if ((b0 =? 227) && (b1 =? 128) && (b2 =? 128))%nat then 3
            else 0
          end
      end
  end%nat.

(** The word collected so far, as a list of fields. *)
Definition flush (word : string) : list string :=
  match word with
  | EmptyString => []
  | _ => [word]
  end.

(** The scan of [strings.Fields]: [skip] bytes of a white space character
    are still to be passed over, [word] is the field being collected. *)
Fixpoint fields_from (skip : nat) (word : string) (s : string) : list string :=
  match s with
  | EmptyString => flush word
  | String c rest =>
    match skip with
    | S k => fields_from k word rest
    | O =>
      match space_width s with
      | O => fields_from 0 (word ++ String c EmptyString)%string rest
      | S k => flush word ++ fields_from k EmptyString rest
      end
    end
  end.

(** [strings.Fields(s)]. *)
Definition Fields (s : string) : list string := fields_from 0 EmptyString s.

(** The scan of [strings.ReplaceAll]: [skip] bytes of a match are still to
    be passed over. *)
Fixpoint replace_from (skip : nat) (old new : string) (s : string) : string :=
  match s with
  | EmptyString => EmptyString
  | String c rest =>
    match skip with
    | S k => replace_from k old new rest
    | O =>
      if String.prefix old s
      then (new ++ replace_from (String.length old - 1) old new rest)%string
      else String c (replace_from 0 old new rest)
    end
  end.

(** [strings.ReplaceAll(s, old, new)] for an [old] that is not empty, as
    it is at every call: the matches from left to right, without overlap. *)
Definition ReplaceAll (s old new : string) : string := replace_from 0 old new s.

(** [strings.Split(s, sep)] for a separator [sep] of one byte: never empty. *)
Fixpoint Split (s : string) (sep : ascii) : list string :=
  match s with
  | EmptyString => [EmptyString]
  | String c rest =>
    if Ascii.eqb c sep then EmptyString :: Split rest sep
    else
      match Split rest sep with
      | [] => [String c EmptyString]
      | part :: parts => String c part :: parts
      end
  end.

(** [strings.TrimSuffix(s, suffix)] for a [suffix] of one byte. *)
Fixpoint TrimSuffix (s : string) (suffix : ascii) : string :=
  match s with
  | EmptyString => EmptyString
  | String c EmptyString => if Ascii.eqb c suffix then EmptyString else s
  | String c rest => String c (TrimSuffix rest suffix)
  end.

End strings.

(** ** package math/rand *)
Module rand.

(** [rand.Intn(n)]: panics when [n <= 0], otherwise a number of the half
    open interval [0, n).  [src] is the draw of the random source. *)
Definition Intn (n : Z) (src : Z) : option Z :=
  if n <=? 0 then None else Some (src mod n).

End rand.

(** ** package config *)
Module config.

Record ViewportConfig := { Width : Z; Height : Z }.

Record BrowserConfig := {
  Headless : bool;
  Viewport : ViewportConfig;
  UserAgents : list string
}.

Record DelayConfig := { Min : Z; Max : Z }.

Record IdleBreakConfig := {
  MinDurationSeconds : Z;
  MaxDurationSeconds : Z;
  FrequencyActions : Z
}.

Record StealthConfig := {
  EnableMouseMovement : bool;
  EnableRandomScrolling : bool;
  EnableHumanTyping : bool;
  EnableMouseHovering : bool;
  EnableIdleBreaks : bool;
  ActionDelay : DelayConfig;
  ScrollDelay : DelayConfig;
  TypingDelay : DelayConfig;
  ThinkTime : DelayConfig;
  IdleBreak : IdleBreakConfig
}.

Record RateLimit := { PerHour : Z; PerDay : Z }.

Record RateLimitsConfig := {
  Connections : RateLimit;
  Messages : RateLimit;
  Searches : RateLimit
}.

Record ConnectionConfig := {
  SendNote : bool;
  NoteTemplates : list string;
  NoteMaxLength : Z
}.

Record MessagingConfig := {
  Enabled : bool;
  DelayAfterConnectionHours : Z;
  Templates : list string;
  FollowUpEnabled : bool
}.

Record ActiveHoursConfig := { Start : Z; End_ : Z }.

Record SchedulingConfig := {
  ActiveHours : ActiveHoursConfig;
  ActiveDays : list string;
  Timezone : string
}.

Record StorageConfig := { DatabasePath : string; CookiePath : string }.

Record LinkedInCredentials := { Email : string; Password : string }.

(** The sections of config.yaml the modelled functions read; the search
    targets and the logging options are left out. *)
Record Config := {
  Browser : BrowserConfig;
  Stealth : StealthConfig;
  RateLimits : RateLimitsConfig;
  Connection : ConnectionConfig;
  Messaging : MessagingConfig;
  Scheduling : SchedulingConfig;
  Storage : StorageConfig;
  LinkedIn : LinkedInCredentials
}.

(** [func (c *Config) Validate() error]; [None] is the nil error. *)
Definition Validate (c : Config) : option string :=
  if (Width (Viewport (Browser c)) <=? 0) || (Height (Viewport (Browser c)) <=? 0)
  then Some "invalid viewport dimensions"
  else if (List.length (UserAgents (Browser c)) =? 0)%nat
  then Some "at least one user agent must be specified"
  else if PerDay (Connections (RateLimits c)) <=? 0
  then Some "connections per day must be positive"
  else if String.eqb (DatabasePath (Storage c)) ""
  then Some "database path must be specified"
  else None.

(** The environment [Load] reads: the variables that are set and not empty
    ([os.Getenv] gives the empty string for both), the integer ones
    already through [strconv.Atoi] ([None] when unset or not a number). *)
Record Env := {
  LINKEDIN_EMAIL : string;
  LINKEDIN_PASSWORD : string;
  HEADLESS : string;
  DB_PATH : string;
  MAX_CONNECTIONS_PER_DAY : option Z;
  MAX_MESSAGES_PER_DAY : option Z
}.

Definition set_Headless (b : bool) (c : Config) : Config :=
  {| Browser := {| Headless := b; Viewport := Viewport (Browser c);
                   UserAgents := UserAgents (Browser c) |};
     Stealth := Stealth c; RateLimits := RateLimits c;
     Connection := Connection c; Messaging := Messaging c;
     Scheduling := Scheduling c; Storage := Storage c; LinkedIn := LinkedIn c |}.

Definition set_DatabasePath (p : string) (c : Config) : Config :=
  {| Browser := Browser c; Stealth := Stealth c; RateLimits := RateLimits c;
     Connection := Connection c; Messaging := Messaging c;
     Scheduling := Scheduling c;
     Storage := {| DatabasePath := p; CookiePath := CookiePath (Storage c) |};
     LinkedIn := LinkedIn c |}.

Definition set_RateLimits (r : RateLimitsConfig) (c : Config) : Config :=
  {| Browser := Browser c; Stealth := Stealth c; RateLimits := r;
     Connection := Connection c; Messaging := Messaging c;
     Scheduling := Scheduling c; Storage := Storage c; LinkedIn := LinkedIn c |}.

Definition set_LinkedIn (l : LinkedInCredentials) (c : Config) : Config :=
  {| Browser := Browser c; Stealth := Stealth c; RateLimits := RateLimits c;
     Connection := Connection c; Messaging := Messaging c;
     Scheduling := Scheduling c; Storage := Storage c; LinkedIn := l |}.

(** [func Load()] (a Config or an error), from the point where config.yaml has
    been read and unmarshalled into [yaml] ([Err] when that failed). *)
Definition Load (yaml : result Config) (env : Env) : result Config :=
  match yaml with
  | Err e => Err e
  | Ok cfg =>
    let cfg := set_LinkedIn {| Email := LINKEDIN_EMAIL env;
                               Password := LINKEDIN_PASSWORD env |} cfg in
    if String.eqb (Email (LinkedIn cfg)) "" || String.eqb (Password (LinkedIn cfg)) ""
    then Err "LINKEDIN_EMAIL and LINKEDIN_PASSWORD must be set"
    else
      let cfg := if String.eqb (HEADLESS env) "" then cfg
                 else set_Headless (String.eqb (HEADLESS env) "true") cfg in
      let cfg := if String.eqb (DB_PATH env) "" then cfg
                 else set_DatabasePath (DB_PATH env) cfg in
      let cfg := match MAX_CONNECTIONS_PER_DAY env with
                 | Some n =>
                   set_RateLimits
                     {| Connections := {| PerHour := PerHour (Connections (RateLimits cfg));
                                          PerDay := n |};
                        Messages := Messages (RateLimits cfg);
                        Searches := Searches (RateLimits cfg) |} cfg
                 | None => cfg
                 end in
      let cfg := match MAX_MESSAGES_PER_DAY env with
                 | Some n =>
                   set_RateLimits
                     {| Connections := Connections (RateLimits cfg);
                        Messages := {| PerHour := PerHour (Messages (RateLimits cfg));
                                       PerDay := n |};
                        Searches := Searches (RateLimits cfg) |} cfg
                 | None => cfg
                 end in
      match Validate cfg with
      | Some e => Err (wrap_err "invalid configuration" e)
      | None => Ok cfg
      end
  end.

End config.

(** ** package stealth *)
Module stealth.
Import config.

(** The [switch delayType] of [RandomDelay]: the band the delay is drawn from. *)
Definition delay_band (cfg : Config) (delayType : string) : Z * Z :=
  if String.eqb delayType "action" then
    (Min (ActionDelay (Stealth cfg)), Max (ActionDelay (Stealth cfg)))
  else if String.eqb delayType "scroll" then
    (Min (ScrollDelay (Stealth cfg)), Max (ScrollDelay (Stealth cfg)))
  else if String.eqb delayType "typing" then
    (Min (TypingDelay (Stealth cfg)), Max (TypingDelay (Stealth cfg)))
  else if String.eqb delayType "think" then
    (Min (ThinkTime (Stealth cfg)), Max (ThinkTime (Stealth cfg)))
  else (1000, 3000).

(** [func (s *Stealth) RandomDelay(delayType string)]: the Duration handed
    to [time.Sleep], in nanoseconds; [None] when [rand.Intn] panics. *)
Definition RandomDelay (cfg : Config) (delayType : string) (src : Z) : option Z :=
  let '(min, max) := delay_band cfg delayType in
  match rand.Intn (wrap64 (wrap64 (max - min) + 1)) src with
  | None => None
  | Some r =>
    let delay := wrap64 (min + r) in
    Some (wrap64 (delay * gotime.Millisecond))
  end.

(** [time.Sleep(d)]: how long the caller is blocked; a negative or zero
    duration returns at once. *)
Definition Sleep (d : Z) : Z := Z.max 0 d.

(** *** Clicks, idle breaks and typing *)

(** A call that returns, returns an error, or panics. *)
Inductive outcome (A : Type) : Type :=
| Done (a : A)
| Failed (e : string)
| Panicked.
Arguments Done {A} a.
Arguments Failed {A} e.
Arguments Panicked {A}.

(** [func (s *Stealth) MaybeIdleBreak()] on the counter [actionCount]: the
    counter it leaves and the Duration it slept, if it took a break; [None]
    when [rand.Intn] panics. *)
Definition MaybeIdleBreak (cfg : Config) (src : Z) (actionCount : Z)
  : option (Z * option Z) :=
  if negb (EnableIdleBreaks (Stealth cfg)) then Some (actionCount, None)
  else if FrequencyActions (IdleBreak (Stealth cfg)) <=? actionCount then
    match rand.Intn (wrap64 (MaxDurationSeconds (IdleBreak (Stealth cfg))
                             - MinDurationSeconds (IdleBreak (Stealth cfg)))) src with
    | None => None
    | Some r =>
      let duration := wrap64 (MinDurationSeconds (IdleBreak (Stealth cfg)) + r) in
      Some (0, Some (wrap64 (duration * gotime.Second)))
    end
  else Some (actionCount, None).

(** What the browser answers during one [HumanClick], and the draw of the
    idle break: the error of [element.Shape()], the number of coordinates
    of each quad of the shape, the error of [element.Click]. *)
Record Click := {
  shape_err : option string;
  quads : list nat;
  click_err : option string;
  break_src : Z
}.

(** [func (s *Stealth) HumanClick(element *rod.Element) error] on the
    counter [actionCount]; the mouse movement and the pause before the
    click change nothing and are left out. *)
Definition HumanClick (cfg : Config) (w : Click) (actionCount : Z)
  : outcome (Z * option Z) :=
  match shape_err w with
  | Some e => Failed (wrap_err "failed to get element shape" e)
  | None =>
    match quads w with
    | [] => Failed "element has no quads"
    | quad :: _ =>
      if (quad <? 6)%nat then Panicked
      else
        match click_err w with
        | Some e => Failed (wrap_err "failed to click" e)
        | None =>
          let actionCount := wrap64 (actionCount + 1) in
          match MaybeIdleBreak cfg (break_src w) actionCount with
          | None => Panicked
          | Some r => Done r
          end
        end
    end
  end.

(** A character of a string as [range] decodes it: the code point and the
    number of bytes it takes. *)
Record Rune := { code : Z; size : Z }.

(** [len(text)], in bytes. *)
Definition len (text : list Rune) : Z := fold_right (fun r n => size r + n) 0 text.

(** What reaches the page and the clock while a text is entered. *)
Inductive KeyEvent : Type :=
| Typed (key : Z)
| PressedBackspace
| Slept (d : Z)
| Inserted (text : list Rune).

(** The draws of one round of the typing loop. *)
Record KeyDraw := {
  typo : bool;
  wrong_src : Z;
  typo_delay_src : Z;
  back_delay_src : Z;
  key_delay_src : Z
}.

(** [s.cfg.Stealth.TypingDelay.Min + rand.Intn(Max - Min)], as the Duration
    in milliseconds that is slept. *)
Definition typing_delay (cfg : Config) (src : Z) : option Z :=
  match rand.Intn (wrap64 (Max (TypingDelay (Stealth cfg))
                           - Min (TypingDelay (Stealth cfg)))) src with
  | None => None
  | Some r => Some (wrap64 (wrap64 (Min (TypingDelay (Stealth cfg)) + r) * gotime.Millisecond))
  end.

(** The loop [for i, char := range text] of [HumanType]: [i] is the byte
    index of the next character, [k] the number of the round; [typo] says
    that [rand.Float64()] came out below 0.05.  The events are the calls of
    the keyboard and of [time.Sleep], in their order; what a call of the
    keyboard returns is dropped by the code.  [None] is a panic of
    [rand.Intn]. *)
Fixpoint type_loop (cfg : Config) (draws : nat -> KeyDraw) (length : Z)
         (i : Z) (k : nat) (text : list Rune) : option (list KeyEvent) :=
  match text with
  | [] => Some []
  | char :: rest =>
    let d := draws k in
    let mistake :=
      if typo d && (i <? length - 1) then
        match rand.Intn 26 (wrong_src d) with
        | None => None
        | Some r =>
          let wrongChar := 97 + r in
          match typing_delay cfg (typo_delay_src d) with
          | None => None
          | Some d1 =>
            match rand.Intn 100 (back_delay_src d) with
            | None => None
            | Some r2 =>
              Some [Typed wrongChar; Slept d1; PressedBackspace;
                    Slept ((100 + r2) * gotime.Millisecond)]
            end
          end
        end
      else Some [] in
    match mistake with
    | None => None
    | Some before =>
      match typing_delay cfg (key_delay_src d) with
      | None => None
      | Some delay =>
        match type_loop cfg draws length (i + size char) (S k) rest with
        | None => None
        | Some after => Some (before ++ [Typed (code char); Slept delay] ++ after)
        end
      end
    end
  end.

(** [func (s *Stealth) HumanType(element *rod.Element, text string) error]:
    the counter and the idle break of its click, and what it entered. *)
Definition HumanType (cfg : Config) (input_err : option string) (w : Click)
           (draws : nat -> KeyDraw) (text : list Rune) (actionCount : Z)
  : outcome (Z * option Z * list KeyEvent) :=
  if negb (EnableHumanTyping (Stealth cfg)) then
    match input_err with
    | Some e => Failed e
    | None => Done (actionCount, None, [Inserted text])
    end
  else
    match HumanClick cfg w actionCount with
    | Failed e => Failed e
    | Panicked => Panicked
    | Done (actionCount, idle) =>
      match type_loop cfg draws (len text) 0 O text with
      | None => Panicked
      | Some events => Done (actionCount, idle, events)
      end
    end.

(** The draws of one [RandomScroll]: that of [rand.Intn(4)] for the number
    of scrolls, and those of the delay after each scroll. *)
Record Scroll := { scrolls_src : Z; scroll_delay_src : nat -> Z }.

(** The loop of [RandomScroll] with [n] scrolls left, the [i]-th being the
    next: the Durations of their delays; [None] when [RandomDelay]
    panics. *)
Fixpoint scroll_loop (cfg : Config) (draws : nat -> Z) (n i : nat) : option (list Z) :=
  match n with
  | O => Some []
  | S n' =>
    match RandomDelay cfg "scroll" (draws i) with
    | None => None
    | Some d =>
      match scroll_loop cfg draws n' (S i) with
      | None => None
      | Some ds => Some (d :: ds)
      end
    end
  end.

(** [func (s *Stealth) RandomScroll(page *rod.Page) error]: the Durations
    slept after the scrolls, whose distances change nothing and are left
    out; [None] is a panic. *)
Definition RandomScroll (cfg : Config) (w : Scroll) : option (list Z) :=
  if negb (EnableRandomScrolling (Stealth cfg)) then Some []
  else
    match rand.Intn 4 (scrolls_src w) with
    | None => None
    | Some r => scroll_loop cfg (scroll_delay_src w) (Z.to_nat (2 + r)) O
    end.

End stealth.

(** ** package scheduler *)
Module scheduler.
Import config.

(** [func (s *Service) isActiveDay(t time.Time) bool]. *)
Definition isActiveDay (cfg : Config) (t : Z) : bool :=
  let currentDay := strings.ToLower (gotime.WeekdayString (gotime.Weekday t)) in
  existsb (fun day => String.eqb (strings.ToLower day) currentDay)
          (ActiveDays (Scheduling cfg)).

(** [func (s *Service) isActiveHour(t time.Time) bool]. *)
Definition isActiveHour (cfg : Config) (t : Z) : bool :=
  let currentHour := gotime.HourOf t in
  let start := Start (ActiveHours (Scheduling cfg)) in
  let end_ := End_ (ActiveHours (Scheduling cfg)) in
  if end_ <? start
  then (start <=? currentHour) || (currentHour <? end_)
  else (start <=? currentHour) && (currentHour <? end_).

(** [func (s *Service) ShouldRun() bool], [now] being its reading of the clock. *)
Definition ShouldRun (cfg : Config) (now : Z) : bool :=
  if negb (isActiveDay cfg now) then false
  else if negb (isActiveHour cfg now) then false
  else true.

(** The loop [for i := 0; i < 7; i++] of [GetNextRunTime], with [n] rounds
    left: [Some t] when the body returns [t], [None] when the loop runs out. *)
Fixpoint next_run_scan (cfg : Config) (now : Z) (n : nat) (next : Z) : option Z :=
  match n with
  | O => None
  | S n' =>
    if isActiveDay cfg next then
      let next := gotime.DateAtHour next (Start (ActiveHours (Scheduling cfg))) in
      if gotime.After next now then Some next
      else next_run_scan cfg now n' (gotime.Add next gotime.Day)
    else next_run_scan cfg now n' (gotime.Add next gotime.Day)
  end.

(** [func (s *Service) GetNextRunTime() time.Time]: [now] is the reading
    the function takes first, [now'] the one [ShouldRun] takes after it. *)
Definition GetNextRunTime (cfg : Config) (now now' : Z) : Z :=
  if ShouldRun cfg now' then now
  else
    match next_run_scan cfg now 7 now with
    | Some next => next
    | None =>
      let tomorrow := gotime.Add now gotime.Day in
      gotime.DateAtHour tomorrow (Start (ActiveHours (Scheduling cfg)))
    end.


(** [func (s *Service) IsBusinessHours() bool]. *)
Definition IsBusinessHours (now : Z) : bool :=
  let hour := gotime.HourOf now in
  if (gotime.Weekday now =? 6) || (gotime.Weekday now =? 0) then false
  else (9 <=? hour) && (hour <? 17).

(** [func (s *Service) GetTimeUntilNextActiveHour() time.Duration], with
    the clocks of [WaitUntilActiveHours]. *)
Definition GetTimeUntilNextActiveHour (cfg : Config) (now0 now1 now2 now3 : Z) : Z :=
  if ShouldRun cfg now0 then 0
  else
    let nextRun := GetNextRunTime cfg now1 now2 in
    gotime.Until now3 nextRun.

(** [func (s *Service) ShouldTakeBreak() bool]. *)
Definition ShouldTakeBreak (cfg : Config) (now : Z) : bool :=
  if gotime.HourOf now =? 12 then true
  else if wrap64 (End_ (ActiveHours (Scheduling cfg)) - 1) <=? gotime.HourOf now then true
  else false.

(** [func (s *Service) GetBreakDuration() time.Duration]: [now] is its first
    reading of the clock, [now_unix] the one of [time.Now().Unix()], the
    other four are those of [GetTimeUntilNextActiveHour]. *)
Definition GetBreakDuration (cfg : Config) (now now_unix now0 now1 now2 now3 : Z) : Z :=
  if gotime.HourOf now =? 12 then
    wrap64 (wrap64 (30 + Z.rem (gotime.Unix now_unix) 30) * gotime.Minute)
  else GetTimeUntilNextActiveHour cfg now0 now1 now2 now3.

End scheduler.

(** ** package storage *)
Module storage.

Module Profile.
Record t := {
  ID : Z;
  ProfileURL : string;
  Name : string;
  JobTitle : string;
  Company : string;
  Location : string;
  Keywords : string;
  DiscoveredAt : Z
}.
End Profile.

Module ConnectionRequest.
Record t := {
  ID : Z;
  ProfileID : Z;
  ProfileURL : string;
  SentAt : Z;
  Note : string;
  Status : string;            (* pending, accepted, rejected *)
  AcceptedAt : option Z       (* a nil pointer is None *)
}.
End ConnectionRequest.

Module Message.
Record t := {
  ID : Z;
  ProfileID : Z;
  ProfileURL : string;
  Content : string;
  SentAt : Z;
  Status : string             (* sent, failed *)
}.
End Message.

(** A row of the table activity_log. *)
Module Activity.
Record t := {
  ID : Z;
  ActionType : string;
  TargetURL : string;
  Outcome : string;
  ErrorMessage : string;
  CreatedAt : Z
}.
End Activity.

Record DailyStats := {
  ConnectionsSent : Z;
  MessagesSent : Z;
  SearchesPerformed : Z
}.

(** The database behind [*Storage]: the rows of its tables, oldest first. *)
Record Storage := {
  connection_requests : list ConnectionRequest.t;
  messages : list Message.t;
  activity_log : list Activity.t
}.

Definition empty : Storage :=
  {| connection_requests := []; messages := []; activity_log := [] |}.

(** SQLite's CURRENT_TIMESTAMP: the clock cut to whole seconds. *)
Definition CURRENT_TIMESTAMP (db_now : Z) : Z := db_now - db_now mod gotime.Second.

(** AUTOINCREMENT key of the next row of a table nothing is deleted from. *)
Definition next_id {A} (rows : list A) : Z := Z.of_nat (List.length rows) + 1.

(** [func (s *Storage) SaveConnectionRequest(req *ConnectionRequest) error]:
    INSERT INTO connection_requests (profile_id, profile_url, note, status);
    sent_at takes its default, accepted_at stays NULL. *)
Definition SaveConnectionRequest (st : Storage) (req : ConnectionRequest.t)
           (db_now : Z) (drv : option string) : Storage * option string :=
  match drv with
  | Some e => (st, Some e)
  | None =>
    let row := {| ConnectionRequest.ID := next_id (connection_requests st);
                  ConnectionRequest.ProfileID := ConnectionRequest.ProfileID req;
                  ConnectionRequest.ProfileURL := ConnectionRequest.ProfileURL req;
                  ConnectionRequest.SentAt := CURRENT_TIMESTAMP db_now;
                  ConnectionRequest.Note := ConnectionRequest.Note req;
                  ConnectionRequest.Status := ConnectionRequest.Status req;
                  ConnectionRequest.AcceptedAt := None |} in
    ({| connection_requests := connection_requests st ++ [row];
        messages := messages st;
        activity_log := activity_log st |}, None)
  end.

(** [func (s *Storage) SaveMessage(msg *Message) error]. *)
Definition SaveMessage (st : Storage) (msg : Message.t)
           (db_now : Z) (drv : option string) : Storage * option string :=
  match drv with
  | Some e => (st, Some e)
  | None =>
    let row := {| Message.ID := next_id (messages st);
                  Message.ProfileID := Message.ProfileID msg;
                  Message.ProfileURL := Message.ProfileURL msg;
                  Message.Content := Message.Content msg;
                  Message.SentAt := CURRENT_TIMESTAMP db_now;
                  Message.Status := Message.Status msg |} in
    ({| connection_requests := connection_requests st;
        messages := messages st ++ [row];
        activity_log := activity_log st |}, None)
  end.

(** SELECT COUNT( * ) FROM connection_requests WHERE profile_url = ? *)
Definition count_requests (st : Storage) (profileURL : string) : Z :=
  Z.of_nat (List.length
    (filter (fun r => String.eqb (ConnectionRequest.ProfileURL r) profileURL)
            (connection_requests st))).

(** [func (s *Storage) IsConnectionSent(profileURL string) (bool, error)]:
    when the query fails [count] keeps its zero value. *)
Definition IsConnectionSent (st : Storage) (profileURL : string)
           (drv : option string) : bool * option string :=
  match drv with
  | Some e => (false, Some e)
  | None => (0 <? count_requests st profileURL, None)
  end.

(** [func (s *Storage) IsMessageSent(profileURL string) (bool, error)]. *)
Definition IsMessageSent (st : Storage) (profileURL : string)
           (drv : option string) : bool * option string :=
  match drv with
  | Some e => (false, Some e)
  | None =>
    (existsb (fun m => String.eqb (Message.ProfileURL m) profileURL) (messages st), None)
  end.

(** ORDER BY accepted_at DESC: NULL sorts below every timestamp. *)
Definition accepted_at_geb (a b : option Z) : bool :=
  match a, b with
  | _, None => true
  | None, Some _ => false
  | Some x, Some y => y <=? x
  end.

Fixpoint insert_desc (c : ConnectionRequest.t) (l : list ConnectionRequest.t)
  : list ConnectionRequest.t :=
  match l with
  | [] => [c]
  | d :: l' =>
    if accepted_at_geb (ConnectionRequest.AcceptedAt d) (ConnectionRequest.AcceptedAt c)
    then d :: insert_desc c l'
    else c :: l
  end.

Definition order_by_accepted_at_desc (l : list ConnectionRequest.t)
  : list ConnectionRequest.t :=
  fold_right insert_desc [] (rev l).

(** The rows [GetAcceptedConnections] selects: status 'accepted' and no
    message row with the same profile_url (the LEFT JOIN with m.id IS NULL). *)
Definition accepted_not_messaged (st : Storage) (cr : ConnectionRequest.t) : bool :=
  String.eqb (ConnectionRequest.Status cr) "accepted"
  && negb (existsb (fun m => String.eqb (ConnectionRequest.ProfileURL cr) (Message.ProfileURL m))
                   (messages st)).

(** [func (s *Storage) GetAcceptedConnections() ([]ConnectionRequest, error)]. *)
Definition GetAcceptedConnections (st : Storage) (drv : option string)
  : result (list ConnectionRequest.t) :=
  match drv with
  | Some e => Err e
  | None => Ok (order_by_accepted_at_desc
                  (filter (accepted_not_messaged st) (connection_requests st)))
  end.

Definition count_if {A} (p : A -> bool) (rows : list A) : Z :=
  Z.of_nat (List.length (filter p rows)).

(** What one call of [GetTodayStats] or of [GetHourlyStats] meets: its
    reading of [time.Now()] (the instant, on the clock of UTC), the offset
    of the time zone of the host, east of UTC and in nanoseconds, and the
    errors of its two [QueryRow(...).Scan] calls. *)
Record StatsCall := {
  at_instant : Z;
  zone_offset : Z;
  connections_scan_err : option string;
  messages_scan_err : option string
}.

(** [time.Now()] as the wall clock of the host shows it. *)
Definition local_time (c : StatsCall) : Z := at_instant c + zone_offset c.

(** [s.db.QueryRow(...).Scan(&stats.X)] with its error dropped: after a
    failed query the field keeps the 0 it was declared with. *)
Definition scanned (err : option string) (count : Z) : Z :=
  match err with
  | Some _ => 0
  | None => count
  end.

(** [WHERE DATE(sent_at) = ?] with [time.Now().Format("2006-01-02")] for
    the parameter: the date of the row, which CURRENT_TIMESTAMP wrote in
    UTC, against the date on the wall clock of the host. *)
Definition on_local_date (c : StatsCall) (sent_at : Z) : bool :=
  gotime.same_date sent_at (local_time c).

(** [WHERE sent_at >= ?] with the [time.Time] value [hourAgo] for the
    parameter.  SQLite compares two texts: the column holds
    "YYYY-MM-DD HH:MM:SS", the UTC second CURRENT_TIMESTAMP wrote, and the
    driver writes the parameter as the wall clock of the host,
    "YYYY-MM-DD HH:MM:SS" followed by the fraction of the second and the
    zone.  The first 19 characters order as the seconds of the two clocks
    do, and when they agree the longer text of the parameter is the
    greater one: the row is selected when its second is after the second
    of [hourAgo] on the wall clock of the host. *)
Definition not_before_text (c : StatsCall) (hourAgo sent_at : Z) : bool :=
  (hourAgo + zone_offset c) / gotime.Second <? sent_at / gotime.Second.

(** [func (s *Storage) GetTodayStats() DailyStats]. *)
Definition GetTodayStats (st : Storage) (c : StatsCall) : DailyStats :=
  {| ConnectionsSent :=
       scanned (connections_scan_err c)
               (count_if (fun r => on_local_date c (ConnectionRequest.SentAt r))
                         (connection_requests st));
     MessagesSent :=
       scanned (messages_scan_err c)
               (count_if (fun m => on_local_date c (Message.SentAt m)) (messages st));
     SearchesPerformed := 0 |}.

(** [func (s *Storage) GetHourlyStats() DailyStats]. *)
Definition GetHourlyStats (st : Storage) (c : StatsCall) : DailyStats :=
  let hourAgo := gotime.Add (at_instant c) (-1 * gotime.Hour) in
  {| ConnectionsSent :=
       scanned (connections_scan_err c)
               (count_if (fun r => not_before_text c hourAgo (ConnectionRequest.SentAt r))
                         (connection_requests st));
     MessagesSent :=
       scanned (messages_scan_err c)
               (count_if (fun m => not_before_text c hourAgo (Message.SentAt m))
                         (messages st));
     SearchesPerformed := 0 |}.

(** [func (s *Storage) LogActivity(actionType, targetURL, outcome, errorMessage string) error]. *)
Definition LogActivity (st : Storage) (actionType targetURL outcome errorMessage : string)
           (db_now : Z) (drv : option string) : Storage * option string :=
  match drv with
  | Some e => (st, Some e)
  | None =>
    let row := {| Activity.ID := next_id (activity_log st);
                  Activity.ActionType := actionType;
                  Activity.TargetURL := targetURL;
                  Activity.Outcome := outcome;
                  Activity.ErrorMessage := errorMessage;
                  Activity.CreatedAt := CURRENT_TIMESTAMP db_now |} in
    ({| connection_requests := connection_requests st;
        messages := messages st;
        activity_log := activity_log st ++ [row] |}, None)
  end.

(** The UPDATE of [UpdateConnectionStatus] on one row:
    SET status = ?, accepted_at = CASE WHEN ? = 'accepted'
                                  THEN CURRENT_TIMESTAMP ELSE accepted_at END
    WHERE profile_url = ? *)
Definition update_row (profileURL status : string) (db_now : Z)
           (r : ConnectionRequest.t) : ConnectionRequest.t :=
  if String.eqb (ConnectionRequest.ProfileURL r) profileURL then
    {| ConnectionRequest.ID := ConnectionRequest.ID r;
       ConnectionRequest.ProfileID := ConnectionRequest.ProfileID r;
       ConnectionRequest.ProfileURL := ConnectionRequest.ProfileURL r;
       ConnectionRequest.SentAt := ConnectionRequest.SentAt r;
       ConnectionRequest.Note := ConnectionRequest.Note r;
       ConnectionRequest.Status := status;
       ConnectionRequest.AcceptedAt :=
         if String.eqb status "accepted"
         then Some (CURRENT_TIMESTAMP db_now)
         else ConnectionRequest.AcceptedAt r |}
  else r.

(** [func (s *Storage) UpdateConnectionStatus(profileURL, status string) error]. *)
Definition UpdateConnectionStatus (st : Storage) (profileURL status : string)
           (db_now : Z) (drv : option string) : Storage * option string :=
  match drv with
  | Some e => (st, Some e)
  | None =>
    ({| connection_requests := map (update_row profileURL status db_now) (connection_requests st);
        messages := messages st;
        activity_log := activity_log st |}, None)
  end.

End storage.

(** ** Calls that may fail, in sequence *)

(** [if err := f(); err != nil { return fmt.Errorf("<prefix>: %w", err) }]:
    the outcome of an external call, as the caller passes it on. *)
Definition or_fail (e : option string) (prefix : string) : option string :=
  option_map (wrap_err prefix) e.

(** Run [k] when nothing failed so far. *)
Definition and_then {S : Type} (r : S * option string) (k : S -> S * option string)
  : S * option string :=
  match r with
  | (s, None) => k s
  | (s, Some e) => (s, Some e)
  end.

Notation "r >>= k" := (and_then r k) (at level 50, left associativity).

(** ** package connect *)
Module connect.
Import config storage.

(** What happens around one profile of [SendConnectionRequests]. *)
Record World := {
  ctx_done : bool;                      (* <-ctx.Done() is ready *)
  now_today : StatsCall;                (* what GetTodayStats meets *)
  now_hour : StatsCall;                 (* what GetHourlyStats meets *)
  is_sent_err : option string;          (* IsConnectionSent's query *)
  navigate_err : option string;         (* s.browser.Navigate *)
  connect_button_err : option string;   (* s.findConnectButton *)
  click_connect_err : option string;    (* stealth.HumanClick(connectButton) *)
  add_note_err : option string;         (* s.addConnectionNote *)
  click_send_err : option string;       (* s.clickSendButton(page, stealth, false) *)
  send_now : Z;                         (* time.Now() of the request literal *)
  save_now : Z;                         (* CURRENT_TIMESTAMP of the INSERT *)
  save_err : option string;             (* SaveConnectionRequest's INSERT *)
  log_now : Z;                          (* CURRENT_TIMESTAMP of LogActivity *)
  log_err : option string               (* LogActivity's INSERT *)
}.

(** The lines the phase writes to the process logger (logrus). *)
Inductive LogLine :=
| LogStarting  (* Info "Starting to send connection requests..." *)
| LogCancelled  (* Info "Context cancelled, stopping connection requests" *)
| LogRateLimit  (* Warn "Rate limit reached for connections" *)
| LogCheckFailed (err : string)  (* Error "Failed to check connection status: %v" *)
| LogAlreadySent (url : string)  (* Debug "Connection already sent to %s, skipping" *)
| LogSending (url : string)  (* Info "Sending connection request to: %s" *)
| LogSendFailed (url err : string)  (* Error "Failed to send connection to %s: %v" *)
| LogSent (name : string) (sent total : Z)  (* Info "Connection request sent to %s (%d/%d)" *)
| LogTotal (sent : Z).  (* Info "Sent %d connection requests" *)

(** The service's store and what it has written to the logger. *)
Record State := { store : Storage; log : list LogLine }.

Definition write_log (l : LogLine) (s : State) : State :=
  {| store := store s; log := log s ++ [l] |}.

Definition with_store (st : Storage) (s : State) : State :=
  {| store := st; log := log s |}.

(** [func (s *Service) canSendConnection() bool]. *)
Definition canSendConnection (cfg : Config) (st : Storage)
           (now_today now_hour : StatsCall) : bool :=
  let dailyStats := GetTodayStats st now_today in
  if PerDay (Connections (RateLimits cfg)) <=? ConnectionsSent dailyStats then false
  else
    let hourlyStats := GetHourlyStats st now_hour in
    if PerHour (Connections (RateLimits cfg)) <=? ConnectionsSent hourlyStats then false
    else true.

(** The browser part of [sendConnectionRequest]: navigate, find and click
    Connect, then send with a note or, failing that or without one, without. *)
Definition browser_send (cfg : Config) (w : World) (st : Storage) : Storage * option string :=
  (st, or_fail (navigate_err w) "failed to navigate to profile")
  >>= (fun st => (st, or_fail (connect_button_err w) "connect button not found"))
  >>= (fun st => (st, or_fail (click_connect_err w) "failed to click connect"))
  >>= (fun st =>
         if SendNote (Connection cfg) then
           match add_note_err w with
           | Some _ => (st, or_fail (click_send_err w) "failed to send connection")
           | None => (st, None)
           end
         else (st, or_fail (click_send_err w) "failed to send connection")).

(** [func (s *Service) sendConnectionRequest(profile *storage.Profile) error]. *)
Definition sendConnectionRequest (cfg : Config) (w : World) (profile : Profile.t)
           (s : State) : State * option string :=
  let s := write_log (LogSending (Profile.ProfileURL profile)) s in
  let '(st, err) :=
    browser_send cfg w (store s)
    >>= (fun st =>
           let connectionReq :=
             {| ConnectionRequest.ID := 0;
                ConnectionRequest.ProfileID := Profile.ID profile;
                ConnectionRequest.ProfileURL := Profile.ProfileURL profile;
                ConnectionRequest.SentAt := send_now w;
                ConnectionRequest.Note := "";
                ConnectionRequest.Status := "pending";
                ConnectionRequest.AcceptedAt := None |} in
           let '(st, err) := SaveConnectionRequest st connectionReq (save_now w) (save_err w) in
           (st, or_fail err "failed to save connection request"))
    >>= (fun st =>
           let '(st, _) := LogActivity st "connection_request" (Profile.ProfileURL profile)
                                       "success" "" (log_now w) (log_err w) in
           (st, None)) in
  (with_store st s, err).

(** One round of the loop of [SendConnectionRequests]. *)
Inductive Flow := Continue | Break | Return (err : string).

Definition round (cfg : Config) (w : World) (total : Z) (profile : Profile.t)
           (s : State) (sent : Z) : State * Z * Flow :=
  if ctx_done w then
    (write_log LogCancelled s, sent, Return "context canceled")
  else if negb (canSendConnection cfg (store s) (now_today w) (now_hour w)) then
    (write_log LogRateLimit s, sent, Break)
  else
    let '(alreadySent, err) :=
      IsConnectionSent (store s) (Profile.ProfileURL profile) (is_sent_err w) in
    match err with
    | Some e => (write_log (LogCheckFailed e) s, sent, Continue)
    | None =>
      if alreadySent then
        (write_log (LogAlreadySent (Profile.ProfileURL profile)) s, sent, Continue)
      else
        match sendConnectionRequest cfg w profile s with
        | (s, Some e) =>
          let s := write_log (LogSendFailed (Profile.ProfileURL profile) e) s in
          let '(st, _) := LogActivity (store s) "connection_request"
                                      (Profile.ProfileURL profile) "failed" e
                                      (log_now w) (log_err w) in
          (with_store st s, sent, Continue)
        | (s, None) =>
          let sent := sent + 1 in
          (write_log (LogSent (Profile.Name profile) sent total) s, sent, Continue)
        end
    end.

(** The [for _, profile := range profiles] of [SendConnectionRequests]; the
    world of the round that handles the [i]-th profile is [w i]. *)
Fixpoint rounds (cfg : Config) (w : nat -> World) (total : Z) (i : nat)
         (profiles : list Profile.t) (s : State) (sent : Z) : State * Z * option string :=
  match profiles with
  | [] => (write_log (LogTotal sent) s, sent, None)
  | profile :: rest =>
    match round cfg (w i) total profile s sent with
    | (s, sent, Continue) => rounds cfg w total (S i) rest s sent
    | (s, sent, Break) => (write_log (LogTotal sent) s, sent, None)
    | (s, sent, Return e) => (s, sent, Some e)
    end
  end.

(** [func (s *Service) SendConnectionRequests(ctx, profiles) (int, error)]. *)
Definition SendConnectionRequests (cfg : Config) (w : nat -> World)
           (profiles : list Profile.t) (s : State) : State * Z * option string :=
  rounds cfg w (Z.of_nat (List.length profiles)) 0 profiles (write_log LogStarting s) 0.

(** [func extractFirstName(fullName string) string]. *)
Definition extractFirstName (fullName : string) : string :=
  match strings.Fields fullName with
  | first :: _ => first
  | [] => "there"
  end.

(** The template of [generateNote] with its placeholders replaced. *)
Definition fill_note (template : string) (profile : Profile.t) : string :=
  let firstName := extractFirstName (Profile.Name profile) in
  let note := strings.ReplaceAll template "{{FirstName}}" firstName in
  let note := strings.ReplaceAll note "{{Company}}" (Profile.Company profile) in
  let note := strings.ReplaceAll note "{{Field}}" (Profile.Keywords profile) in
  strings.ReplaceAll note "{{Topic}}" (Profile.JobTitle profile).

(** [func (s *Service) generateNote(profile *storage.Profile) string];
    [src] is the draw of the template, [None] the panic of a slice
    expression out of range. *)
Definition generateNote (cfg : Config) (src : Z) (profile : Profile.t) : option string :=
  match NoteTemplates (Connection cfg) with
  | [] => Some "Hi, I'd love to connect!"
  | templates =>
    match rand.Intn (Z.of_nat (List.length templates)) src with
    | None => None
    | Some i =>
      let template := nth (Z.to_nat i) templates EmptyString in
      let note := fill_note template profile in
      if NoteMaxLength (Connection cfg) <? Z.of_nat (String.length note) then
        let cut := wrap64 (NoteMaxLength (Connection cfg) - 3) in
        if (cut <? 0) || (Z.of_nat (String.length note) <? cut) then None
        else Some (String.substring 0 (Z.to_nat cut) note ++ "...")%string
      else Some note
    end
  end.

End connect.

(** ** package message *)
Module message.
Import config storage.

(** What happens around one connection of [SendMessages]. *)
Record World := {
  ctx_done : bool;                      (* <-ctx.Done() is ready *)
  now_today : StatsCall;                (* what GetTodayStats meets *)
  now_hour : StatsCall;                 (* what GetHourlyStats meets *)
  now_since : Z;                        (* time.Now() in time.Since *)
  navigate_err : option string;         (* s.browser.Navigate(messagingURL) *)
  message_box_err : option string;      (* WaitForElement ".msg-form__contenteditable" *)
  message_box_alt_err : option string;  (* WaitForElement "div[role='textbox']" *)
  messageContent : string;              (* s.generateMessage(conn) *)
  click_box_err : option string;        (* stealth.HumanClick(messageBox) *)
  type_err : option string;             (* stealth.HumanType *)
  send_button_err : option string;      (* s.findSendButton *)
  click_send_err : option string;       (* stealth.HumanClick(sendButton) *)
  send_now : Z;                         (* time.Now() of the message literal *)
  save_now : Z;                         (* CURRENT_TIMESTAMP of the INSERT *)
  save_err : option string;             (* SaveMessage's INSERT *)
  log_now : Z;                          (* CURRENT_TIMESTAMP of LogActivity *)
  log_err : option string               (* LogActivity's INSERT *)
}.

(** The lines the phase writes to the process logger (logrus). *)
Inductive LogLine :=
| LogDisabled  (* Info "Messaging is disabled in config" *)
| LogStarting  (* Info "Starting to send messages to accepted connections..." *)
| LogNone  (* Info "No accepted connections to message" *)
| LogFound (n : Z)  (* Info "Found %d accepted connections to message" *)
| LogCancelled  (* Info "Context cancelled, stopping messaging" *)
| LogRateLimit  (* Warn "Rate limit reached for messages" *)
| LogTooRecent (url : string)  (* Debug "Connection accepted too recently, skipping: %s" *)
| LogSending (url : string)  (* Info "Sending message to: %s" *)
| LogSendFailed (url err : string)  (* Error "Failed to send message to %s: %v" *)
| LogSent (sent total : Z)  (* Info "Message sent (%d/%d)" *)
| LogTotal (sent : Z).  (* Info "Sent %d messages" *)

Record State := { store : Storage; log : list LogLine }.

Definition write_log (l : LogLine) (s : State) : State :=
  {| store := store s; log := log s ++ [l] |}.

Definition with_store (st : Storage) (s : State) : State :=
  {| store := st; log := log s |}.

(** [func (s *Service) canSendMessage() bool]. *)
Definition canSendMessage (cfg : Config) (st : Storage)
           (now_today now_hour : StatsCall) : bool :=
  let dailyStats := GetTodayStats st now_today in
  if PerDay (Messages (RateLimits cfg)) <=? MessagesSent dailyStats then false
  else
    let hourlyStats := GetHourlyStats st now_hour in
    if PerHour (Messages (RateLimits cfg)) <=? MessagesSent hourlyStats then false
    else true.

(** The guard of [SendMessages] on a connection accepted at [acceptedAt]:
      hoursSinceAccepted := time.Since( *conn.AcceptedAt).Hours()
      if hoursSinceAccepted < float64(s.cfg.Messaging.DelayAfterConnectionHours)
    [true] when the connection is skipped as accepted too recently. *)
Definition accepted_too_recently (cfg : Config) (now acceptedAt : Z) : bool :=
  let hoursSinceAccepted := gotime.Hours (gotime.Since now acceptedAt) in
  gotime.f64lt hoursSinceAccepted
               (gotime.float64_of_int (DelayAfterConnectionHours (Messaging cfg))).

(** The browser part of [sendMessage]. *)
Definition browser_send (w : World) (st : Storage) : Storage * option string :=
  (st, or_fail (navigate_err w) "failed to navigate to messaging")
  >>= (fun st =>
         match message_box_err w with
         | Some _ => (st, or_fail (message_box_alt_err w) "message box not found")
         | None => (st, None)
         end)
  >>= (fun st => (st, or_fail (click_box_err w) "failed to click message box"))
  >>= (fun st => (st, or_fail (type_err w) "failed to type message"))
  >>= (fun st => (st, or_fail (send_button_err w) "send button not found"))
  >>= (fun st => (st, or_fail (click_send_err w) "failed to click send")).

(** [func (s *Service) sendMessage(conn *storage.ConnectionRequest) error]. *)
Definition sendMessage (w : World) (conn : ConnectionRequest.t)
           (s : State) : State * option string :=
  let s := write_log (LogSending (ConnectionRequest.ProfileURL conn)) s in
  let '(st, err) :=
    browser_send w (store s)
    >>= (fun st =>
           let msg :=
             {| Message.ID := 0;
                Message.ProfileID := ConnectionRequest.ProfileID conn;
                Message.ProfileURL := ConnectionRequest.ProfileURL conn;
                Message.Content := messageContent w;
                Message.SentAt := send_now w;
                Message.Status := "sent" |} in
           let '(st, err) := SaveMessage st msg (save_now w) (save_err w) in
           (st, or_fail err "failed to save message"))
    >>= (fun st =>
           let '(st, _) := LogActivity st "message" (ConnectionRequest.ProfileURL conn)
                                       "success" "" (log_now w) (log_err w) in
           (st, None)) in
  (with_store st s, err).

Inductive Flow := Continue | Break | Return (err : string).

(** What the loop does once the guards let a connection through:
    [sendMessage] and the bookkeeping of its outcome. *)
Definition send_and_count (w : World) (total : Z) (conn : ConnectionRequest.t)
           (s : State) (sent : Z) : State * Z * Flow :=
  match sendMessage w conn s with
  | (s, Some e) =>
    let s := write_log (LogSendFailed (ConnectionRequest.ProfileURL conn) e) s in
    let '(st, _) := LogActivity (store s) "message" (ConnectionRequest.ProfileURL conn)
                                "failed" e (log_now w) (log_err w) in
    (with_store st s, sent, Continue)
  | (s, None) =>
    let sent := sent + 1 in
    (write_log (LogSent sent total) s, sent, Continue)
  end.

(** One round of the loop of [SendMessages]. *)
Definition round (cfg : Config) (w : World) (total : Z) (conn : ConnectionRequest.t)
           (s : State) (sent : Z) : State * Z * Flow :=
  if ctx_done w then
    (write_log LogCancelled s, sent, Return "context canceled")
  else if negb (canSendMessage cfg (store s) (now_today w) (now_hour w)) then
    (write_log LogRateLimit s, sent, Break)
  else
    match ConnectionRequest.AcceptedAt conn with
    | Some acceptedAt =>
      if accepted_too_recently cfg (now_since w) acceptedAt then
        (write_log (LogTooRecent (ConnectionRequest.ProfileURL conn)) s, sent, Continue)
      else send_and_count w total conn s sent
    | None => send_and_count w total conn s sent
    end.

(** The [for _, conn := range connections] of [SendMessages]. *)
Fixpoint rounds (cfg : Config) (w : nat -> World) (total : Z) (i : nat)
         (connections : list ConnectionRequest.t) (s : State) (sent : Z)
  : State * Z * option string :=
  match connections with
  | [] => (write_log (LogTotal sent) s, sent, None)
  | conn :: rest =>
    match round cfg (w i) total conn s sent with
    | (s, sent, Continue) => rounds cfg w total (S i) rest s sent
    | (s, sent, Break) => (write_log (LogTotal sent) s, sent, None)
    | (s, sent, Return e) => (s, sent, Some e)
    end
  end.

(** [func (s *Service) SendMessages(ctx context.Context) (int, error)];
    [get_err] is the driver's answer to [GetAcceptedConnections]. *)
Definition SendMessages (cfg : Config) (get_err : option string) (w : nat -> World)
           (s : State) : State * Z * option string :=
  if negb (Enabled (Messaging cfg)) then (write_log LogDisabled s, 0, None)
  else
    let s := write_log LogStarting s in
    match GetAcceptedConnections (store s) get_err with
    | Err e => (s, 0, Some (wrap_err "failed to get accepted connections" e))
    | Ok connections =>
      if (List.length connections =? 0)%nat then (write_log LogNone s, 0, None)
      else
        let total := Z.of_nat (List.length connections) in
        rounds cfg w total 0 connections (write_log (LogFound total) s) 0
    end.

(** [func (s *Service) SendMessageToProfile(profileURL, message string) error]
    on the store [st].  [get_profile] is the answer of [GetProfileByURL]
    ([Ok None] when there is no such profile), [save_profile] the one of
    [SaveProfile]; the table profiles is not part of the modelled store,
    and the lines of the process logger are dropped. *)
Definition SendMessageToProfile (w : World) (get_profile : result (option Profile.t))
           (save_profile : Z * option string) (profileURL message : string)
           (st : Storage) : Storage * option string :=
  match get_profile with
  | Err e => (st, Some (wrap_err "failed to get profile" e))
  | Ok found =>
    let created :=
      match found with
      | Some profile => Ok (Profile.ID profile)
      | None =>
        match save_profile with
        | (_, Some e) => Err (wrap_err "failed to save profile" e)
        | (profileID, None) => Ok profileID
        end
      end in
    match created with
    | Err e => (st, Some e)
    | Ok profileID =>
      browser_send w st
      >>= (fun st =>
             let msg :=
               {| Message.ID := 0;
                  Message.ProfileID := profileID;
                  Message.ProfileURL := profileURL;
                  Message.Content := message;
                  Message.SentAt := send_now w;
                  Message.Status := "sent" |} in
             let '(st, err) := SaveMessage st msg (save_now w) (save_err w) in
             (st, or_fail err "failed to save message"))
      >>= (fun st =>
             let '(st, _) := LogActivity st "message" profileURL "success" ""
                                         (log_now w) (log_err w) in
             (st, None))
    end
  end.

(** [func (s *Service) getMessagingURL(profileURL string) string]. *)
Definition getMessagingURL (profileURL : string) : string :=
  let parts := strings.Split (strings.TrimSuffix profileURL "/") "/" in
  if (0 <? List.length parts)%nat then
    let username := nth (List.length parts - 1) parts EmptyString in
    ("https://www.linkedin.com/messaging/thread/new/?recipient=" ++ username)%string
  else profileURL.

End message.

(** ** package search *)
Module search.
Import config storage.

(** The section [search] of config.yaml, which only this package reads. *)
Record SearchTarget := { JobTitle : string; Location : string; Keywords : string }.

Record SearchConfig := {
  Targets : list SearchTarget;
  MaxResultsPerSearch : Z;
  PaginationLimit : Z
}.

(** [strings.Split(s, "?")[0]]: what precedes the first question mark. *)
Fixpoint before_query (s : string) : string :=
  match s with
  | EmptyString => EmptyString
  | String c rest => if Ascii.eqb c "?" then EmptyString else String c (before_query rest)
  end.

(** One card of a result page, as the browser and the store answer for
    it: the link and its href (a nil pointer is [None]), the trimmed texts
    of the name, job title and company ([EmptyString] where the element is
    missing), the clock, and what [SaveProfile] returns. *)
Record Card := {
  link_err : option string;
  href_err : option string;
  href : option string;
  name_text : string;
  job_title_text : string;
  company_text : string;
  discovered_now : Z;
  saved_id : Z;
  save_err : option string
}.

(** [func (s *Service) extractProfileFromElement(element, target)]. *)
Definition extractProfileFromElement (target : SearchTarget) (card : Card)
  : result Profile.t :=
  match link_err card with
  | Some e => Err (wrap_err "profile link not found" e)
  | None =>
    match href_err card, href card with
    | None, Some profileURL =>
      Ok {| Profile.ID := 0;
            Profile.ProfileURL := before_query profileURL;
            Profile.Name := name_text card;
            Profile.JobTitle := job_title_text card;
            Profile.Company := company_text card;
            Profile.Location := Location target;
            Profile.Keywords := Keywords target;
            Profile.DiscoveredAt := discovered_now card |}
    | Some e, _ => Err (wrap_err "failed to get profile URL" e)
    | None, None => Err (wrap_err "failed to get profile URL" "%!w(<nil>)")
    end
  end.

Definition with_ID (id : Z) (p : Profile.t) : Profile.t :=
  {| Profile.ID := id; Profile.ProfileURL := Profile.ProfileURL p;
     Profile.Name := Profile.Name p; Profile.JobTitle := Profile.JobTitle p;
     Profile.Company := Profile.Company p; Profile.Location := Profile.Location p;
     Profile.Keywords := Profile.Keywords p;
     Profile.DiscoveredAt := Profile.DiscoveredAt p |}.

(** One result page: the draws of [RandomScroll] and of the delay that
    follows it, the error of the query for the cards, the cards, what
    [goToNextPage] meets (the Next button, its attribute [disabled], the
    [HumanClick] on it), and the draw of the delay after the click. *)
Record Page := {
  scroll : stealth.Scroll;
  scroll_src : Z;
  elements_err : option string;
  elements : list Card;
  next_button_err : option string;
  next_disabled : bool;
  next_click : stealth.Click;
  action_src : Z
}.

(** [func (s *Service) extractProfilesFromPage(page, target)]. *)
Definition extractProfilesFromPage (target : SearchTarget) (page : Page)
  : result (list Profile.t) :=
  match elements_err page with
  | Some e => Err (wrap_err "failed to find search results" e)
  | None =>
    Ok (fold_left
          (fun profiles card =>
             match extractProfileFromElement target card with
             | Err _ => profiles
             | Ok profile =>
               match save_err card with
               | Some _ => profiles
               | None => profiles ++ [with_ID (saved_id card) profile]
               end
             end)
          (elements page) [])
  end.

(** [func (s *Service) goToNextPage(page, st) bool] on the counter
    [actionCount] of the stealth layer: its answer and the counter it
    leaves; [None] when [HumanClick] panics. *)
Definition goToNextPage (cfg : Config) (page : Page) (actionCount : Z)
  : option (bool * Z) :=
  match next_button_err page with
  | Some _ => Some (false, actionCount)
  | None =>
    if next_disabled page then Some (false, actionCount)
    else match stealth.HumanClick cfg (next_click page) actionCount with
         | stealth.Panicked => None
         | stealth.Failed _ => Some (false, actionCount)
         | stealth.Done (actionCount, _) => Some (true, actionCount)
         end
  end.

(** The pagination loop of [searchTarget] with [n] rounds left, page [i]
    being on screen: the profiles and the counter of the stealth layer.
    [None] is a panic: of [rand.Intn] in one of the pacing calls, of
    [HumanClick], or of a slice with a negative bound. *)
Fixpoint pages_loop (cfg : Config) (scfg : SearchConfig) (target : SearchTarget)
         (pages : nat -> Page) (n : nat) (i : nat) (profiles : list Profile.t)
         (actionCount : Z) : option (list Profile.t * Z) :=
  match n with
  | O => Some (profiles, actionCount)
  | S n' =>
    match stealth.RandomScroll cfg (scroll (pages i)) with
    | None => None
    | Some _ =>
      match stealth.RandomDelay cfg "scroll" (scroll_src (pages i)) with
      | None => None
      | Some _ =>
        match extractProfilesFromPage target (pages i) with
        | Err _ => Some (profiles, actionCount)
        | Ok pageProfiles =>
          let profiles := profiles ++ pageProfiles in
          if MaxResultsPerSearch scfg <=? Z.of_nat (List.length profiles) then
            if MaxResultsPerSearch scfg <? 0 then None
            else Some (firstn (Z.to_nat (MaxResultsPerSearch scfg)) profiles, actionCount)
          else
            match goToNextPage cfg (pages i) actionCount with
            | None => None
            | Some (false, actionCount) => Some (profiles, actionCount)
            | Some (true, actionCount) =>
              match stealth.RandomDelay cfg "action" (action_src (pages i)) with
              | None => None
              | Some _ => pages_loop cfg scfg target pages n' (S i) profiles actionCount
              end
            end
        end
      end
    end
  end.

(** What one target meets: the draw of the think time of
    [browser.Navigate], the error of its navigation and page load, the
    pages, and the draw of the think time [SearchProfiles] ends the target
    with. *)
Record TargetWorld := {
  think_src : Z;
  navigate_err : option string;
  pages : nat -> Page;
  between_src : Z
}.

(** [func (s *Service) searchTarget(ctx, target)] on the counter
    [actionCount] of the stealth layer: what it returns and the counter it
    leaves.  [browser.Navigate] starts with [RandomDelay("think")]; the
    sleeps change nothing else and only their panics are kept. *)
Definition searchTarget (cfg : Config) (scfg : SearchConfig) (w : TargetWorld)
           (target : SearchTarget) (actionCount : Z)
  : option (result (list Profile.t) * Z) :=
  match stealth.RandomDelay cfg "think" (think_src w) with
  | None => None
  | Some _ =>
    match navigate_err w with
    | Some e => Some (Err (wrap_err "failed to navigate to search" e), actionCount)
    | None =>
      match pages_loop cfg scfg target (pages w) (Z.to_nat (PaginationLimit scfg)) O []
                       actionCount with
      | None => None
      | Some (profiles, actionCount) => Some (Ok profiles, actionCount)
      end
    end
  end.

(** The deduplication loop of [SearchProfiles] over the profiles of one
    target; [seenURLs] is the set of keys of the map. *)
Fixpoint deduplicate (profiles : list Profile.t) (seenURLs : list string)
         (allProfiles : list Profile.t) : list string * list Profile.t :=
  match profiles with
  | [] => (seenURLs, allProfiles)
  | profile :: rest =>
    if existsb (String.eqb (Profile.ProfileURL profile)) seenURLs
    then deduplicate rest seenURLs allProfiles
    else deduplicate rest (Profile.ProfileURL profile :: seenURLs)
                     (allProfiles ++ [profile])
  end.

(** The loop [for _, target := range s.cfg.Search.Targets]; the world of
    the [i]-th target is [w i].  [None] is a panic, of the search of a
    target or of the [RandomDelay("think")] that follows it. *)
Fixpoint targets_loop (cfg : Config) (scfg : SearchConfig) (w : nat -> TargetWorld)
         (i : nat) (targets : list SearchTarget) (seenURLs : list string)
         (allProfiles : list Profile.t) (actionCount : Z) : option (list Profile.t) :=
  match targets with
  | [] => Some allProfiles
  | target :: rest =>
    match searchTarget cfg scfg (w i) target actionCount with
    | None => None
    | Some (Err _, actionCount) =>
      targets_loop cfg scfg w (S i) rest seenURLs allProfiles actionCount
    | Some (Ok profiles, actionCount) =>
      let '(seenURLs, allProfiles) := deduplicate profiles seenURLs allProfiles in
      match stealth.RandomDelay cfg "think" (between_src (w i)) with
      | None => None
      | Some _ => targets_loop cfg scfg w (S i) rest seenURLs allProfiles actionCount
      end
    end
  end.

(** [fmt.Sprintf("%d", n)]. *)
Definition itoa (n : Z) : string := DecimalString.NilZero.string_of_int (Z.to_int n).

(** [func (s *Service) SearchProfiles(ctx) ([]*storage.Profile, error)] on
    the store [st], the counter of the stealth layer being [actionCount]
    when it starts: the store it leaves and the two values it returns;
    [None] when it panics. *)
Definition SearchProfiles (cfg : Config) (scfg : SearchConfig) (w : nat -> TargetWorld)
           (log_now : Z) (log_err : option string) (st : Storage) (actionCount : Z)
  : option (Storage * list Profile.t * option string) :=
  match targets_loop cfg scfg w O (Targets scfg) [] [] actionCount with
  | None => None
  | Some allProfiles =>
    let '(st, _) :=
      LogActivity st "search" "" "success"
                  ("Found " ++ itoa (Z.of_nat (List.length allProfiles)) ++ " profiles")
                  log_now log_err in
    Some (st, allProfiles, None)
  end.

End search.

(** ** package auth *)
Module auth.
Import config storage.

(** [func (c *Context) LoadCookies(path string) error] of package browser:
    it logs the path and returns nil. *)
Definition LoadCookies (path : string) : option string := None.

(** What [isLoggedIn] finds on the page: the two elements it looks for,
    and the URL of the page ([None] when [MustInfo] panics). *)
Record Presence := {
  global_nav : bool;
  feed_identity_module : bool;
  current_url : option string
}.

(** [func (s *Service) isLoggedIn() bool]; [None] is the panic of [MustInfo]. *)
Definition isLoggedIn (p : Presence) : option bool :=
  if global_nav p then Some true
  else if feed_identity_module p then Some true
  else
    match current_url p with
    | None => None
    | Some currentURL => Some (String.eqb currentURL "https://www.linkedin.com/feed/")
    end.

(** What [checkLoginIssues] finds on the page. *)
Record Issues := {
  captcha : bool;
  pin : bool;
  challenge : bool;
  issue_url : option string;
  form_error : bool
}.

(** [func (s *Service) checkLoginIssues() error] on the store [st]; the
    screenshots are left out.  [None] is the panic of [MustInfo]. *)
Definition checkLoginIssues (i : Issues) (log_now : Z) (log_err : option string)
           (st : Storage) : option (Storage * option string) :=
  if captcha i then
    let '(st, _) := LogActivity st "login" "https://www.linkedin.com" "captcha"
                                "CAPTCHA detected" log_now log_err in
    Some (st, Some "CAPTCHA detected - manual intervention required")
  else if pin i then
    let '(st, _) := LogActivity st "login" "https://www.linkedin.com" "2fa"
                                "2FA verification required" log_now log_err in
    Some (st, Some "2FA verification required - manual intervention needed")
  else if challenge i then
    let '(st, _) := LogActivity st "login" "https://www.linkedin.com" "challenge"
                                "Security challenge detected" log_now log_err in
    Some (st, Some "security challenge detected - manual intervention required")
  else
    match issue_url i with
    | None => None
    | Some currentURL =>
      if (String.eqb currentURL "https://www.linkedin.com/login"
          || String.eqb currentURL "https://www.linkedin.com/uas/login-submit")
         && form_error i
      then
        let '(st, _) := LogActivity st "login" "https://www.linkedin.com" "failed"
                                    "Invalid credentials" log_now log_err in
        Some (st, Some "login failed - invalid credentials")
      else Some (st, None)
    end.

(** What one [Login] meets: the answers of the browser in the order of the
    calls, and the clock and the driver's error of the one [LogActivity]. *)
Record World := {
  feed_navigate_err : option string;    (* Navigate(".../feed/") *)
  session : Presence;                   (* the first isLoggedIn *)
  login_navigate_err : option string;   (* Navigate(".../login") *)
  username_err : option string;         (* WaitForElement("#username") *)
  email_type_err : option string;       (* HumanType(emailInput, Email) *)
  password_err : option string;         (* WaitForElement("#password") *)
  password_type_err : option string;    (* HumanType(passwordInput, Password) *)
  login_button_err : option string;     (* WaitForElement("button[type='submit']") *)
  login_click_err : option string;      (* HumanClick(loginButton) *)
  issues : Issues;                      (* checkLoginIssues *)
  landed : Presence;                    (* the second isLoggedIn *)
  log_now : Z;
  log_err : option string
}.

(** What a [Login] leaves: the store, the texts it typed into the page
    with [HumanType], oldest first, and its error. *)
Record Outcome := {
  store : Storage;
  typed : list string;
  err : option string
}.

Definition failed (st : Storage) (typed : list string) (prefix e : string) : option Outcome :=
  Some {| store := st; typed := typed; err := Some (wrap_err prefix e) |}.

(** The fresh login of [Login], from "No valid session found" on. *)
Definition fresh_login (cfg : Config) (w : World) (st : Storage) : option Outcome :=
  match login_navigate_err w with
  | Some e => failed st [] "failed to navigate to login page" e
  | None =>
  match username_err w with
  | Some e => failed st [] "email input not found" e
  | None =>
  match email_type_err w with
  | Some e => failed st [] "failed to enter email" e
  | None =>
  let typed := [Email (LinkedIn cfg)] in
  match password_err w with
  | Some e => failed st typed "password input not found" e
  | None =>
  match password_type_err w with
  | Some e => failed st typed "failed to enter password" e
  | None =>
  let typed := typed ++ [Password (LinkedIn cfg)] in
  match login_button_err w with
  | Some e => failed st typed "login button not found" e
  | None =>
  match login_click_err w with
  | Some e => failed st typed "failed to click login" e
  | None =>
  match checkLoginIssues (issues w) (log_now w) (log_err w) st with
  | None => None
  | Some (st, Some e) => Some {| store := st; typed := typed; err := Some e |}
  | Some (st, None) =>
    match isLoggedIn (landed w) with
    | None => None
    | Some false =>
      Some {| store := st; typed := typed; err := Some "login verification failed" |}
    | Some true =>
      let '(st, _) := LogActivity st "login" "https://www.linkedin.com" "success" ""
                                  (log_now w) (log_err w) in
      Some {| store := st; typed := typed; err := None |}
    end
  end end end end end end end end.

(** [func (s *Service) Login(ctx context.Context) error] on the store
    [st]; [None] is a panic. *)
Definition Login (cfg : Config) (w : World) (st : Storage) : option Outcome :=
  match LoadCookies (CookiePath (config.Storage cfg)) with
  | None =>
    match feed_navigate_err w with
    | None =>
      match isLoggedIn (session w) with
      | None => None
      | Some true => Some {| store := st; typed := []; err := None |}
      | Some false => fresh_login cfg w st
      end
    | Some _ => fresh_login cfg w st
    end
  | Some _ => fresh_login cfg w st
  end.

End auth.

(** ** package main *)
Module main.
Import config storage.

(** [func canProceed(store *storage.Storage, cfg *config.Config) bool]. *)
Definition canProceed (cfg : Config) (st : Storage) (now : StatsCall) : bool :=
  let stats := GetTodayStats st now in
  if PerDay (Connections (RateLimits cfg)) <=? ConnectionsSent stats then false
  else if PerDay (Messages (RateLimits cfg)) <=? MessagesSent stats then false
  else true.

(** What one run of the workflow meets in its three phases. *)
Record WorkflowWorld := {
  action_count : Z;                     (* the counter of the stealth layer *)
  search_world : nat -> search.TargetWorld;
  search_log_now : Z;
  search_log_err : option string;
  connect_world : nat -> connect.World;
  get_accepted_err : option string;
  message_world : nat -> message.World
}.

(** What a run leaves: the store, the two counts it logs, and its error. *)
Record Run := {
  store : Storage;
  sent : Z;
  messaged : Z;
  err : option string
}.

(** [func runWorkflow(ctx, searchSvc, connectSvc, messageSvc, store, cfg) error]
    on the store [st]; the lines of the process logger are dropped.  [None]
    when the search panics; [action_count] is the counter of the stealth
    layer when the search starts. *)
Definition runWorkflow (cfg : Config) (scfg : search.SearchConfig) (w : WorkflowWorld)
           (st : Storage) : option Run :=
  match search.SearchProfiles cfg scfg (search_world w) (search_log_now w)
                              (search_log_err w) st (action_count w) with
  | None => None
  | Some (st, _, Some e) =>
    Some {| store := st; sent := 0; messaged := 0;
            err := Some (wrap_err "search failed" e) |}
  | Some (st, profiles, None) =>
    match connect.SendConnectionRequests cfg (connect_world w) profiles
                                         {| connect.store := st; connect.log := [] |} with
    | (s, sent, Some e) =>
      Some {| store := connect.store s; sent := sent; messaged := 0;
              err := Some (wrap_err "connection requests failed" e) |}
    | (s, sent, None) =>
      match message.SendMessages cfg (get_accepted_err w) (message_world w)
                                 {| message.store := connect.store s;
                                    message.log := [] |} with
      | (s, messaged, Some e) =>
        Some {| store := message.store s; sent := sent; messaged := messaged;
                err := Some (wrap_err "messaging failed" e) |}
      | (s, messaged, None) =>
        Some {| store := message.store s; sent := sent; messaged := messaged;
                err := None |}
      end
    end
  end.

(** What one round of the loop of [main] meets: whether the context is
    done, the wall clock of [ShouldRun], what the [GetTodayStats] of
    [canProceed] meets, and the workflow. *)
Record LoopWorld := {
  ctx_done : bool;
  now_schedule : Z;
  now_stats : StatsCall;
  workflow : WorkflowWorld
}.

(** How a round of the loop ends: [main] returns, or sleeps and loops. *)
Inductive Step :=
| Shutdown
| SleepThenLoop (d : Z).

(** One round of [for { select { ... } }] in [main]; [None] is a panic. *)
Definition iteration (cfg : Config) (scfg : search.SearchConfig) (w : LoopWorld)
           (st : Storage) : option (Storage * Step) :=
  if ctx_done w then Some (st, Shutdown)
  else if negb (scheduler.ShouldRun cfg (now_schedule w)) then
    Some (st, SleepThenLoop (30 * gotime.Minute))
  else if negb (canProceed cfg st (now_stats w)) then
    Some (st, SleepThenLoop (1 * gotime.Hour))
  else
    match runWorkflow cfg scfg (workflow w) st with
    | None => None
    | Some run =>
      match err run with
      | Some _ => Some (store run, SleepThenLoop (5 * gotime.Minute))
      | None =>
        Some (store run,
              SleepThenLoop (wrap64 (MinDurationSeconds (IdleBreak (Stealth cfg))
                                     * gotime.Second)))
      end
    end.

End main.

(** * Properties *)

(** ** Example configuration and data used by the concrete checks *)
Module examples.
Import config storage.

Definition band (lo hi : Z) : DelayConfig := {| Min := lo; Max := hi |}.

Definition limits (connH connD msgH msgD : Z) : RateLimitsConfig :=
  {| Connections := {| PerHour := connH; PerDay := connD |};
     Messages := {| PerHour := msgH; PerDay := msgD |};
     Searches := {| PerHour := 5; PerDay := 30 |} |}.

(** A configuration in the shape of the repository's config.yaml, with the
    delay bands of its stealth guide; the rate limits, the delay after
    acceptance, the active days and the active hours are left open. *)
Definition cfg_with (rl : RateLimitsConfig) (delayHours : Z)
           (days : list string) (startHour endHour : Z) : Config :=
  {| Browser := {| Headless := false;
                   Viewport := {| Width := 1920; Height := 1080 |};
                   UserAgents := ["Mozilla/5.0"] |};
     Stealth := {| EnableMouseMovement := true; EnableRandomScrolling := true;
                   EnableHumanTyping := true; EnableMouseHovering := true;
                   EnableIdleBreaks := true;
                   ActionDelay := band 2000 5000; ScrollDelay := band 1000 3000;
                   TypingDelay := band 100 300; ThinkTime := band 3000 8000;
                   IdleBreak := {| MinDurationSeconds := 60; MaxDurationSeconds := 300;
                                   FrequencyActions := 20 |} |};
     RateLimits := rl;
     Connection := {| SendNote := false; NoteTemplates := []; NoteMaxLength := 300 |};
     Messaging := {| Enabled := true; DelayAfterConnectionHours := delayHours;
                     Templates := []; FollowUpEnabled := false |};
     Scheduling := {| ActiveHours := {| Start := startHour; End_ := endHour |};
                      ActiveDays := days; Timezone := "UTC" |};
     config.Storage := {| DatabasePath := "./data/linkedin.db";
                          CookiePath := "./data/cookies.json" |};
     LinkedIn := {| Email := "user@example.com"; Password := "secret" |} |}.

Definition weekdays : list string :=
  ["Monday"; "Tuesday"; "Wednesday"; "Thursday"; "Friday"].

Definition cfg (rl : RateLimitsConfig) : Config := cfg_with rl 24 weekdays 9 18.

(** Caps of 10 and 20 connections and of 10 and 50 messages per hour and day. *)
Definition cfg0 : Config := cfg (limits 10 20 10 50).

Definition profile (id : Z) (url name : string) : Profile.t :=
  {| Profile.ID := id; Profile.ProfileURL := url; Profile.Name := name;
     Profile.JobTitle := "Engineer"; Profile.Company := "Acme";
     Profile.Location := "Berlin"; Profile.Keywords := "robotics";
     Profile.DiscoveredAt := 0 |}.

Definition request (id : Z) (url status : string) (sentAt : Z) (acceptedAt : option Z)
  : ConnectionRequest.t :=
  {| ConnectionRequest.ID := id; ConnectionRequest.ProfileID := id;
     ConnectionRequest.ProfileURL := url; ConnectionRequest.SentAt := sentAt;
     ConnectionRequest.Note := ""; ConnectionRequest.Status := status;
     ConnectionRequest.AcceptedAt := acceptedAt |}.

Definition message_at (id : Z) (url : string) (sentAt : Z) : Message.t :=
  {| Message.ID := id; Message.ProfileID := id; Message.ProfileURL := url;
     Message.Content := "Thanks for connecting!"; Message.SentAt := sentAt;
     Message.Status := "sent" |}.

(** A store that holds [n] connection requests and [n] messages, all sent at [t]. *)
Definition store_with (n : nat) (t : Z) : Storage :=
  {| connection_requests := repeat (request 1 "https://www.linkedin.com/in/x/" "pending" t None)
                                   n;
     messages := repeat (message_at 1 "https://www.linkedin.com/in/x/" t) n;
     activity_log := [] |}.

(** 2024-01-02 (a Tuesday) 10:00:00 UTC, in nanoseconds. *)
Definition tuesday_10h : Z := (19724 * 24 + 10) * gotime.Hour.

(** A call of the statistics at the instant [t] on a host whose zone is
    UTC, with both count queries answered. *)
Definition on_utc_host (t : Z) : StatsCall :=
  {| at_instant := t; zone_offset := 0;
     connections_scan_err := None; messages_scan_err := None |}.

Definition url_jane : string := "https://www.linkedin.com/in/jane-doe/".
Definition url_bob : string := "https://www.linkedin.com/in/bob-roe/".
Definition jane : Profile.t := profile 1 url_jane "Jane Doe".
Definition bob : Profile.t := profile 2 url_bob "Bob Roe".

(** A round of the connection phase on Tuesday at 10:00 in which nothing
    fails, on a host whose zone is UTC. *)
Definition world_quiet : connect.World :=
  {| connect.ctx_done := false;
     connect.now_today := on_utc_host tuesday_10h;
     connect.now_hour := on_utc_host tuesday_10h;
     connect.is_sent_err := None; connect.navigate_err := None;
     connect.connect_button_err := None; connect.click_connect_err := None;
     connect.add_note_err := None; connect.click_send_err := None;
     connect.send_now := tuesday_10h; connect.save_now := tuesday_10h;
     connect.save_err := None; connect.log_now := tuesday_10h;
     connect.log_err := None |}.

(** A round in which the Connect button is not found. *)
Definition world_no_button : connect.World :=
  {| connect.ctx_done := false;
     connect.now_today := on_utc_host tuesday_10h;
     connect.now_hour := on_utc_host tuesday_10h;
     connect.is_sent_err := None; connect.navigate_err := None;
     connect.connect_button_err := Some "connect button not found with any selector";
     connect.click_connect_err := None; connect.add_note_err := None;
     connect.click_send_err := None;
     connect.send_now := tuesday_10h; connect.save_now := tuesday_10h;
     connect.save_err := None; connect.log_now := tuesday_10h;
     connect.log_err := None |}.

(** The connection service on an empty database. *)
Definition state_fresh : connect.State :=
  {| connect.store := storage.empty; connect.log := [] |}.

(** The connection service on a database that holds a pending request to Jane. *)
Definition state_jane_requested : connect.State :=
  {| connect.store :=
       {| connection_requests := [request 1 url_jane "pending" (tuesday_10h - gotime.Day) None];
          messages := []; activity_log := [] |};
     connect.log := [] |}.

(** A round of the message phase in which nothing fails, with every clock
    at [now], on a host whose zone is UTC. *)
Definition message_world (now : Z) : message.World :=
  {| message.ctx_done := false;
     message.now_today := on_utc_host now; message.now_hour := on_utc_host now;
     message.now_since := now;
     message.navigate_err := None; message.message_box_err := None;
     message.message_box_alt_err := None;
     message.messageContent := "Thanks for connecting! Looking forward to staying in touch.";
     message.click_box_err := None; message.type_err := None;
     message.send_button_err := None; message.click_send_err := None;
     message.send_now := now; message.save_now := now; message.save_err := None;
     message.log_now := now; message.log_err := None |}.


End examples.

(** A check that passes exactly below both caps fails exactly when a cap is reached. *)
Lemma blocked_iff_cap_reached (b : bool) (perHour lastHour perDay today : Z) :
  (b = true <-> lastHour < perHour /\ today < perDay) ->
  (b = false <-> perHour <= lastHour \/ perDay <= today).
Proof.
  intros Hb; destruct b; split; intros H.
  - discriminate.
  - assert (lastHour < perHour /\ today < perDay) by (now apply Hb). lia.
  - destruct (Z.le_gt_cases perHour lastHour); [now left|].
    destruct (Z.le_gt_cases perDay today); [now right|].
    assert (false = true) by (apply Hb; lia). discriminate.
  - reflexivity.
Qed.

(** ** Quota *)
Section Quota.
Import config storage.

Variable cfg : Config.
Variable st : Storage.
Variables now_today now_hour : StatsCall.

(** The counts the quota check is given: what the two queries of
    [GetTodayStats] and of [GetHourlyStats] deliver. *)
Definition connections_today : Z :=
  scanned (connections_scan_err now_today)
          (count_if (fun r => on_local_date now_today (ConnectionRequest.SentAt r))
                    (connection_requests st)).
Definition connections_last_hour : Z :=
  scanned (connections_scan_err now_hour)
          (count_if (fun r => not_before_text now_hour (at_instant now_hour - gotime.Hour)
                                              (ConnectionRequest.SentAt r))
                    (connection_requests st)).
Definition messages_today : Z :=
  scanned (messages_scan_err now_today)
          (count_if (fun m => on_local_date now_today (Message.SentAt m)) (messages st)).
Definition messages_last_hour : Z :=
  scanned (messages_scan_err now_hour)
          (count_if (fun m => not_before_text now_hour (at_instant now_hour - gotime.Hour)
                                              (Message.SentAt m))
                    (messages st)).

Lemma GetTodayStats_counts :
  ConnectionsSent (GetTodayStats st now_today) = connections_today
  /\ MessagesSent (GetTodayStats st now_today) = messages_today.
Proof. split; reflexivity. Qed.

Lemma GetHourlyStats_counts :
  ConnectionsSent (GetHourlyStats st now_hour) = connections_last_hour
  /\ MessagesSent (GetHourlyStats st now_hour) = messages_last_hour.
Proof.
  unfold GetHourlyStats, connections_last_hour, messages_last_hour, gotime.Add; cbn.
  replace (at_instant now_hour + -1 * gotime.Hour)
    with (at_instant now_hour - gotime.Hour) by lia.
  split; reflexivity.
Qed.

Lemma canSendConnection_true_iff :
  connect.canSendConnection cfg st now_today now_hour = true
  <-> connections_last_hour < PerHour (Connections (RateLimits cfg))
      /\ connections_today < PerDay (Connections (RateLimits cfg)).
Proof.
  unfold connect.canSendConnection.
  destruct GetTodayStats_counts as [-> _], GetHourlyStats_counts as [-> _].
  destruct (Z.leb_spec (PerDay (Connections (RateLimits cfg))) connections_today);
    destruct (Z.leb_spec (PerHour (Connections (RateLimits cfg))) connections_last_hour);
    split; intros; try discriminate; try lia; reflexivity.
Qed.

Lemma canSendMessage_true_iff :
  message.canSendMessage cfg st now_today now_hour = true
  <-> messages_last_hour < PerHour (Messages (RateLimits cfg))
      /\ messages_today < PerDay (Messages (RateLimits cfg)).
Proof.
  unfold message.canSendMessage.
  destruct GetTodayStats_counts as [_ ->], GetHourlyStats_counts as [_ ->].
  destruct (Z.leb_spec (PerDay (Messages (RateLimits cfg))) messages_today);
    destruct (Z.leb_spec (PerHour (Messages (RateLimits cfg))) messages_last_hour);
    split; intros; try discriminate; try lia; reflexivity.
Qed.

(** The quota check is decided by the counts its queries deliver: it
    answers [false] as soon as one of them has reached its cap, and [true]
    only when both are strictly below. *)
Lemma quota_check_follows_delivered_counts :
  (connect.canSendConnection cfg st now_today now_hour = false
   <-> PerHour (Connections (RateLimits cfg)) <= connections_last_hour
       \/ PerDay (Connections (RateLimits cfg)) <= connections_today)
  /\ (connect.canSendConnection cfg st now_today now_hour = true
      <-> connections_last_hour < PerHour (Connections (RateLimits cfg))
          /\ connections_today < PerDay (Connections (RateLimits cfg)))
  /\ (message.canSendMessage cfg st now_today now_hour = false
      <-> PerHour (Messages (RateLimits cfg)) <= messages_last_hour
          \/ PerDay (Messages (RateLimits cfg)) <= messages_today)
  /\ (message.canSendMessage cfg st now_today now_hour = true
      <-> messages_last_hour < PerHour (Messages (RateLimits cfg))
          /\ messages_today < PerDay (Messages (RateLimits cfg))).
Proof.
  pose proof canSendConnection_true_iff as Hc.
  pose proof canSendMessage_true_iff as Hm.
  split; [|split; [exact Hc|split; [|exact Hm]]].
  - apply blocked_iff_cap_reached, Hc.
  - apply blocked_iff_cap_reached, Hm.
Qed.

End Quota.

(** The counts the specification speaks of, read off the timestamps of the
    persisted rows at the instant [now]: the rows of the last hour, and the
    rows of the calendar day [now] lies in, on a clock [offset] east of
    UTC. *)
Definition spec_last_hour (sent_at : list Z) (now : Z) : Z :=
  storage.count_if (fun t => now - gotime.Hour <=? t) sent_at.
Definition spec_today (sent_at : list Z) (offset now : Z) : Z :=
  storage.count_if (fun t => gotime.same_date (t + offset) (now + offset)) sent_at.

Lemma count_if_map {A B} (f : A -> B) (p : B -> bool) (rows : list A) :
  storage.count_if p (map f rows) = storage.count_if (fun r => p (f r)) rows.
Proof.
  unfold storage.count_if. f_equal.
  induction rows as [|r rows IH]; [reflexivity|].
  cbn. destruct (p (f r)); cbn; now rewrite IH.
Qed.

Lemma count_if_ext {A} (p q : A -> bool) (rows : list A) :
  (forall r, p r = q r) -> storage.count_if p rows = storage.count_if q rows.
Proof. intros H. unfold storage.count_if. now rewrite (filter_ext p q H). Qed.

(** On a host whose zone is UTC and with both queries answered, the
    delivered counts are those of the rows: the rows of the UTC date of the
    call, and the rows whose second is after the second of one hour before
    the call. *)
Lemma delivered_counts_on_utc_host (st : storage.Storage) (t : Z) :
  connections_today st (examples.on_utc_host t)
  = spec_today (map storage.ConnectionRequest.SentAt (storage.connection_requests st)) 0 t
  /\ messages_today st (examples.on_utc_host t)
     = spec_today (map storage.Message.SentAt (storage.messages st)) 0 t
  /\ connections_last_hour st (examples.on_utc_host t)
     = storage.count_if
         (fun r => (t - gotime.Hour) / gotime.Second
                   <? storage.ConnectionRequest.SentAt r / gotime.Second)
         (storage.connection_requests st)
  /\ messages_last_hour st (examples.on_utc_host t)
     = storage.count_if
         (fun m => (t - gotime.Hour) / gotime.Second
                   <? storage.Message.SentAt m / gotime.Second)
         (storage.messages st).
Proof.
  unfold connections_today, messages_today, connections_last_hour, messages_last_hour,
    spec_today, storage.scanned, storage.on_local_date,
    storage.not_before_text, storage.local_time; cbn.
  rewrite !count_if_map.
  repeat split; apply count_if_ext; intros r; now rewrite ?Z.add_0_r.
Qed.

(** A call of the statistics at the instant [t] on a host whose wall clock
    is two hours ahead of UTC, with both count queries answered. *)
Definition on_host_east_of_utc (t : Z) : storage.StatsCall :=
  {| storage.at_instant := t; storage.zone_offset := 2 * gotime.Hour;
     storage.connections_scan_err := None; storage.messages_scan_err := None |}.

(** A call of the statistics at the instant [t] on a host whose zone is
    UTC, whose two count queries fail. *)
Definition on_locked_database (t : Z) : storage.StatsCall :=
  {| storage.at_instant := t; storage.zone_offset := 0;
     storage.connections_scan_err := Some "database is locked (5) (SQLITE_BUSY)";
     storage.messages_scan_err := Some "database is locked (5) (SQLITE_BUSY)" |}.

(** C1.  At the failing inputs.  The caps are 1 per hour and 1 per day, and
    the database holds one request and one message sent half an hour
    before the check: both counts of the specification have reached their
    caps.  On a host whose zone is UTC the check blocks.  On a host two
    hours ahead of UTC the hourly queries set the local text of one hour
    ago against the UTC texts of the rows and count nothing, and once the
    local date has moved on (Tuesday 23:00 UTC) the daily queries set
    Wednesday against the rows' Tuesday and count nothing either: the
    check answers [true] at the cap, for connections and for messages.  So
    it does on any host when the count queries fail, their error being
    dropped. *)
Theorem quota_check_misses_cap_off_utc_or_on_failed_query :
  let hourly := examples.cfg (examples.limits 1 20 1 50) in
  let daily := examples.cfg (examples.limits 10 1 10 1) in
  let t := examples.tuesday_10h in
  let late := examples.tuesday_10h + 13 * gotime.Hour in
  let rows (now : Z) := examples.store_with 1 (now - 30 * gotime.Minute) in
  let sent_at (now : Z) :=
      map storage.ConnectionRequest.SentAt (storage.connection_requests (rows now)) in
  (spec_last_hour (sent_at t) t = 1
   /\ connect.canSendConnection hourly (rows t)
        (examples.on_utc_host t) (examples.on_utc_host t) = false
   /\ message.canSendMessage hourly (rows t)
        (examples.on_utc_host t) (examples.on_utc_host t) = false
   /\ connect.canSendConnection hourly (rows t)
        (on_host_east_of_utc t) (on_host_east_of_utc t) = true
   /\ message.canSendMessage hourly (rows t)
        (on_host_east_of_utc t) (on_host_east_of_utc t) = true)
  /\ (spec_today (sent_at late) 0 late = 1
      /\ spec_today (sent_at late) (2 * gotime.Hour) late = 1
      /\ connect.canSendConnection daily (rows late)
           (examples.on_utc_host late) (examples.on_utc_host late) = false
      /\ message.canSendMessage daily (rows late)
           (examples.on_utc_host late) (examples.on_utc_host late) = false
      /\ connect.canSendConnection daily (rows late)
           (on_host_east_of_utc late) (on_host_east_of_utc late) = true
      /\ message.canSendMessage daily (rows late)
           (on_host_east_of_utc late) (on_host_east_of_utc late) = true)
  /\ (connect.canSendConnection hourly (rows t)
        (on_locked_database t) (on_locked_database t) = true
      /\ message.canSendMessage hourly (rows t)
           (on_locked_database t) (on_locked_database t) = true
      /\ connect.canSendConnection daily (rows t)
           (on_locked_database t) (on_locked_database t) = true
      /\ message.canSendMessage daily (rows t)
           (on_locked_database t) (on_locked_database t) = true).
Proof. repeat split; vm_compute; reflexivity. Qed.

(** The test of the specification on a host whose zone is UTC: caps 2 and
    0, 1, 2 persisted rows. *)
Example quota_caps_2_counts_0_1_2 :
  let c := examples.cfg (examples.limits 2 2 2 2) in
  let t := examples.tuesday_10h in
  let u := examples.on_utc_host t in
  map (fun n => connect.canSendConnection c (examples.store_with n t) u u) [0; 1; 2; 3]%nat
  = [true; true; false; false]
  /\ map (fun n => message.canSendMessage c (examples.store_with n t) u u) [0; 1; 2; 3]%nat
     = [true; true; false; false].
Proof. split; vm_compute; reflexivity. Qed.

(** Hourly boundary alone, on a host whose zone is UTC: two rows of today,
    sent two hours ago, leave the hourly count at 0 and the daily count at
    the cap 2; two rows sent 59 minutes ago are of the last hour. *)
Example quota_hourly_and_daily_boundaries :
  let t := examples.tuesday_10h in
  let u := examples.on_utc_host t in
  connect.canSendConnection (examples.cfg (examples.limits 2 3 2 3))
    (examples.store_with 2 (t - 2 * gotime.Hour)) u u = true
  /\ connect.canSendConnection (examples.cfg (examples.limits 2 2 2 2))
       (examples.store_with 2 (t - 2 * gotime.Hour)) u u = false
  /\ connect.canSendConnection (examples.cfg (examples.limits 2 3 2 3))
       (examples.store_with 2 (t - 59 * gotime.Minute)) u u = false.
Proof. repeat split; vm_compute; reflexivity. Qed.

(** ** Machine integers *)

Lemma wrap64_small (z : Z) : int_range z -> wrap64 z = z.
Proof.
  unfold int_range, wrap64, MinInt64, MaxInt64; intros H.
  rewrite Z.mod_small; lia.
Qed.

Lemma count_if_nonneg {A} (p : A -> bool) (rows : list A) : 0 <= storage.count_if p rows.
Proof. unfold storage.count_if; lia. Qed.

Lemma scanned_nonneg {A} (err : option string) (p : A -> bool) (rows : list A) :
  0 <= storage.scanned err (storage.count_if p rows).
Proof. destruct err; cbn; [lia|apply count_if_nonneg]. Qed.

(** ** Startup validation *)
Section Validation.
Import config.

(** What [Validate] does enforce: of the six caps, the daily one of connections. *)
Lemma Validate_accepts_iff (c : Config) :
  Validate c = None
  <-> 0 < Width (Viewport (Browser c)) /\ 0 < Height (Viewport (Browser c))
      /\ UserAgents (Browser c) <> []
      /\ 0 < PerDay (Connections (RateLimits c))
      /\ DatabasePath (config.Storage c) <> "".
Proof.
  unfold Validate.
  destruct (Z.leb_spec (Width (Viewport (Browser c))) 0);
    destruct (Z.leb_spec (Height (Viewport (Browser c))) 0); cbn [orb];
    try (split; [discriminate | lia]).
  destruct (UserAgents (Browser c)) as [|ua uas]; cbn [List.length Nat.eqb].
  { split; [discriminate | intros (_ & _ & Hua & _); now elim Hua]. }
  destruct (Z.leb_spec (PerDay (Connections (RateLimits c))) 0);
    try (split; [discriminate | lia]).
  destruct (String.eqb_spec (DatabasePath (config.Storage c)) "") as [E|E].
  { split; [discriminate | intros (_ & _ & _ & _ & Hp); now elim Hp]. }
  split; [intros _|reflexivity]. repeat split; try lia; try assumption; discriminate.
Qed.

(** The example configuration with the hourly cap of connections at 0. *)
Definition cfg_hourly_cap_zero : Config := examples.cfg (examples.limits 0 20 10 50).

Definition env_plain : Env :=
  {| LINKEDIN_EMAIL := "user@example.com"; LINKEDIN_PASSWORD := "secret";
     HEADLESS := ""; DB_PATH := "";
     MAX_CONNECTIONS_PER_DAY := None; MAX_MESSAGES_PER_DAY := None |}.

(** C8.  At the failing input: a configuration whose hourly cap of
    connections is 0 passes [Validate], [Load] returns it without error, and
    the cap is then enforced at run time, where [canSendConnection] answers
    [false] whatever the store holds.  The same happens to a daily cap of
    messages of 0 that comes from MAX_MESSAGES_PER_DAY. *)
Theorem zero_hourly_cap_passes_validation :
  Validate cfg_hourly_cap_zero = None
  /\ Load (Ok cfg_hourly_cap_zero) env_plain = Ok cfg_hourly_cap_zero
  /\ (forall st now_today now_hour,
         connect.canSendConnection cfg_hourly_cap_zero st now_today now_hour = false)
  /\ (exists c,
         Load (Ok examples.cfg0)
              {| LINKEDIN_EMAIL := "user@example.com"; LINKEDIN_PASSWORD := "secret";
                 HEADLESS := ""; DB_PATH := "";
                 MAX_CONNECTIONS_PER_DAY := None; MAX_MESSAGES_PER_DAY := Some 0 |} = Ok c
         /\ PerDay (Messages (RateLimits c)) = 0
         /\ forall st now_today now_hour,
             message.canSendMessage c st now_today now_hour = false).
Proof.
  split; [reflexivity|]. split; [reflexivity|]. split.
  - intros st t t'.
    destruct (connect.canSendConnection cfg_hourly_cap_zero st t t') eqn:E; [|reflexivity].
    apply canSendConnection_true_iff in E. destruct E as [E _]. cbn in E.
    pose proof (scanned_nonneg (storage.connections_scan_err t')
                  (fun r => storage.not_before_text
                              t' (storage.at_instant t' - gotime.Hour)
                              (storage.ConnectionRequest.SentAt r))
                  (storage.connection_requests st)).
    unfold connections_last_hour in E. lia.
  - eexists. split; [reflexivity|]. split; [reflexivity|].
    intros st t t'.
    match goal with |- ?b = false => destruct b eqn:E; [|reflexivity] end.
    apply canSendMessage_true_iff in E. destruct E as [_ E]. cbn in E.
    pose proof (scanned_nonneg (storage.messages_scan_err t)
                  (fun m => storage.on_local_date t (storage.Message.SentAt m))
                  (storage.messages st)).
    unfold messages_today in E. lia.
Qed.

End Validation.

(** ** Pacing delays *)
Section Delays.
Import config.

(** The four categories of the [switch] of [RandomDelay], each with the
    band the configuration holds for it; a band the file leaves out is
    the zero value, [0, 0]. *)
Definition configured_band (cfg : Config) (delayType : string) : option DelayConfig :=
  if String.eqb delayType "action" then Some (ActionDelay (Stealth cfg))
  else if String.eqb delayType "scroll" then Some (ScrollDelay (Stealth cfg))
  else if String.eqb delayType "typing" then Some (TypingDelay (Stealth cfg))
  else if String.eqb delayType "think" then Some (ThinkTime (Stealth cfg))
  else None.

(** The longest delay in milliseconds whose nanoseconds fit an int64. *)
Definition max_delay_ms : Z := 9223372036854.

Lemma delay_band_cases (cfg : Config) (delayType : string) :
  stealth.delay_band cfg delayType =
  match configured_band cfg delayType with
  | Some b => (Min b, Max b)
  | None => (1000, 3000)
  end.
Proof.
  unfold stealth.delay_band, configured_band.
  repeat match goal with |- context [String.eqb ?a ?b] => destruct (String.eqb a b) end;
    reflexivity.
Qed.

Lemma RandomDelay_in_range (cfg : Config) (delayType : string) (lo hi src : Z) :
  stealth.delay_band cfg delayType = (lo, hi) ->
  0 <= lo <= hi -> hi <= max_delay_ms ->
  stealth.RandomDelay cfg delayType src
  = Some ((lo + src mod (hi - lo + 1)) * gotime.Millisecond).
Proof.
  unfold stealth.RandomDelay, max_delay_ms; intros -> Hb Hhi.
  rewrite (wrap64_small (hi - lo)) by (unfold int_range, MinInt64, MaxInt64; lia).
  rewrite (wrap64_small (hi - lo + 1)) by (unfold int_range, MinInt64, MaxInt64; lia).
  unfold rand.Intn. destruct (Z.leb_spec (hi - lo + 1) 0); [lia|].
  pose proof (Z.mod_pos_bound src (hi - lo + 1) ltac:(lia)).
  rewrite (wrap64_small (lo + _)) by (unfold int_range, MinInt64, MaxInt64; lia).
  rewrite wrap64_small; [reflexivity|].
  unfold int_range, MinInt64, MaxInt64, gotime.Millisecond; lia.
Qed.

(** C7, as the code has it.  With a band [lo, hi] of milliseconds,
    0 <= lo <= hi <= 9223372036854 (the delays whose nanoseconds fit an
    int64), every call sleeps a whole number of milliseconds of the closed
    band, and every duration of the band is the one slept for exactly one
    value of [rand.Intn].  For each of the four categories of the switch
    (action, scroll, typing, think) the band is the one the configuration
    holds, so that a category the file leaves out has the band [0, 0] and
    returns at once.  Every other name is not a no-op: it takes the
    built-in band [1000, 3000] and blocks for at least one second. *)
Theorem RandomDelay_band_or_default (cfg : Config) (delayType : string) (lo hi : Z) :
  stealth.delay_band cfg delayType = (lo, hi) ->
  0 <= lo <= hi -> hi <= max_delay_ms ->
  (forall src, exists ms,
      lo <= ms <= hi
      /\ stealth.RandomDelay cfg delayType src = Some (ms * gotime.Millisecond)
      /\ stealth.Sleep (ms * gotime.Millisecond) = ms * gotime.Millisecond)
  /\ (forall ms, lo <= ms <= hi ->
      exists r, 0 <= r < hi - lo + 1
        /\ stealth.RandomDelay cfg delayType r = Some (ms * gotime.Millisecond)
        /\ forall r', 0 <= r' < hi - lo + 1 ->
             stealth.RandomDelay cfg delayType r' = Some (ms * gotime.Millisecond) -> r' = r)
  /\ (forall b, configured_band cfg delayType = Some b -> lo = Min b /\ hi = Max b)
  /\ (forall b, configured_band cfg delayType = Some b -> Max b = 0 ->
      forall src, stealth.RandomDelay cfg delayType src = Some 0
                  /\ stealth.Sleep 0 = 0)
  /\ (configured_band cfg delayType = None ->
      lo = 1000 /\ hi = 3000
      /\ forall src, exists d,
          stealth.RandomDelay cfg delayType src = Some d
          /\ 1000 * gotime.Millisecond <= stealth.Sleep d)
  /\ (configured_band cfg delayType = None
      <-> delayType <> "action" /\ delayType <> "scroll"
          /\ delayType <> "typing" /\ delayType <> "think").
Proof.
  intros Hband Hb Hhi.
  assert (Hin : forall src, exists ms,
      lo <= ms <= hi
      /\ stealth.RandomDelay cfg delayType src = Some (ms * gotime.Millisecond)
      /\ stealth.Sleep (ms * gotime.Millisecond) = ms * gotime.Millisecond).
  { intros src. exists (lo + src mod (hi - lo + 1)).
    pose proof (Z.mod_pos_bound src (hi - lo + 1) ltac:(lia)).
    split; [lia|]. split; [now apply RandomDelay_in_range|].
    unfold stealth.Sleep, gotime.Millisecond; lia. }
  split; [exact Hin|]. split; [|split; [|split; [|split]]].
  - intros ms Hms. exists (ms - lo). split; [lia|]. split.
    + rewrite (RandomDelay_in_range _ _ _ _ _ Hband Hb Hhi).
      rewrite Z.mod_small by lia. do 2 f_equal. lia.
    + intros r' Hr'. rewrite (RandomDelay_in_range _ _ _ _ _ Hband Hb Hhi).
      rewrite Z.mod_small by lia. unfold gotime.Millisecond. intros [= E]. lia.
  - intros b E. rewrite delay_band_cases, E in Hband. now injection Hband as <- <-.
  - intros b E Hzero src. rewrite delay_band_cases, E in Hband. injection Hband as <- <-.
    destruct (Hin src) as (ms & Hms & -> & _).
    assert (ms = 0) as -> by lia. split; reflexivity.
  - intros E. rewrite delay_band_cases, E in Hband. injection Hband as <- <-.
    split; [reflexivity|]. split; [reflexivity|].
    intros src. destruct (Hin src) as (ms & Hms & -> & Hs).
    eexists; split; [reflexivity|]. rewrite Hs. unfold gotime.Millisecond. lia.
  - unfold configured_band.
    destruct (String.eqb_spec delayType "action");
      [split; [discriminate | intros (H & _); now elim H]|].
    destruct (String.eqb_spec delayType "scroll");
      [split; [discriminate | intros (_ & H & _); now elim H]|].
    destruct (String.eqb_spec delayType "typing");
      [split; [discriminate | intros (_ & _ & H & _); now elim H]|].
    destruct (String.eqb_spec delayType "think");
      [split; [discriminate | intros (_ & _ & _ & H); now elim H]|].
    split; [intros _; repeat split; assumption | reflexivity].
Qed.

(** C7, witness: the band [100, 300] of the category typing. *)
Lemma RandomDelay_band_or_default_witness :
  stealth.delay_band examples.cfg0 "typing" = (100, 300)
  /\ (forall src, exists ms,
         100 <= ms <= 300
         /\ stealth.RandomDelay examples.cfg0 "typing" src
            = Some (ms * gotime.Millisecond)
         /\ stealth.Sleep (ms * gotime.Millisecond) = ms * gotime.Millisecond).
Proof.
  split; [reflexivity|].
  apply (RandomDelay_band_or_default examples.cfg0 "typing" 100 300).
  - reflexivity.
  - lia.
  - unfold max_delay_ms; lia.
Defined.

(** C7, counterexample: "hover" is not a category of the switch, and for
    it [RandomDelay] puts the caller to sleep for a full second or more. *)
Lemma RandomDelay_unconfigured_not_noop :
  configured_band examples.cfg0 "hover" = None
  /\ stealth.RandomDelay examples.cfg0 "hover" 0
     = Some 1000000000
  /\ stealth.Sleep 1000000000 = gotime.Second
  /\ ~ (forall cfg delayType src d,
           configured_band cfg delayType = None ->
           stealth.RandomDelay cfg delayType src = Some d ->
           stealth.Sleep d = 0).
Proof.
  split; [reflexivity|]. split; [reflexivity|]. split; [reflexivity|].
  intros H.
  specialize (H examples.cfg0 "hover" 0 1000000000
                eq_refl eq_refl).
  discriminate H.
Qed.

End Delays.

(** ** Calendar arithmetic *)
Section Calendar.
Import gotime.










End Calendar.

(** ** Scheduler *)
Section Scheduler.
Import config scheduler.

Variable cfg : Config.

Let start : Z := Start (ActiveHours (Scheduling cfg)).








End Scheduler.

Section SchedulerChecks.
Import scheduler.

Let c : config.Config := examples.cfg0.
Let t10 : Z := examples.tuesday_10h.
Let t18 : Z := examples.tuesday_10h + 8 * gotime.Hour.

(** Tuesday 10:00 is inside Monday..Friday 9-18; Tuesday 18:00 is not, and
    the next run is Wednesday 09:00; from Friday 18:00 it is Monday 09:00. *)
Example GetNextRunTime_weekdays_9_18 :
  GetNextRunTime c t10 t10 = t10
  /\ GetNextRunTime c t18 t18 = t10 + 23 * gotime.Hour
  /\ GetNextRunTime c (t18 + 3 * gotime.Day) (t18 + 3 * gotime.Day)
     = t10 + 6 * gotime.Day - gotime.Hour.
Proof. repeat split; vm_compute; reflexivity. Qed.

(** With Tuesday the only active day, Tuesday 18:00 finds no window start
    after it in the seven days scanned and gets Wednesday 09:00. *)
Example GetNextRunTime_single_day_fallback :
  GetNextRunTime (examples.cfg_with (examples.limits 10 20 10 50) 24 ["tuesday"] 9 18) t18 t18
  = t10 + 23 * gotime.Hour.
Proof. vm_compute; reflexivity. Qed.

(** An overnight window 22 -> 6 is active at 23h and at 3h and not at 10h. *)
Example isActiveHour_overnight :
  let night := examples.cfg_with (examples.limits 10 20 10 50) 24 examples.weekdays 22 6 in
  isActiveHour night (t10 + 13 * gotime.Hour) = true
  /\ isActiveHour night (t10 - 7 * gotime.Hour) = true
  /\ isActiveHour night t10 = false.
Proof. repeat split; vm_compute; reflexivity. Qed.


End SchedulerChecks.

(** ** Acceptance timestamp of a connection request *)
Section AcceptedAt.
Import storage.

(** The two operations that write connection_requests, each with the
    CURRENT_TIMESTAMP it runs at and the answer of the driver. *)
Inductive Op :=
| OpSave (req : ConnectionRequest.t) (db_now : Z) (drv : option string)
| OpUpdate (profileURL status : string) (db_now : Z) (drv : option string).

Definition apply_op (st : Storage) (op : Op) : Storage :=
  match op with
  | OpSave req db_now drv => fst (SaveConnectionRequest st req db_now drv)
  | OpUpdate profileURL status db_now drv =>
    fst (UpdateConnectionStatus st profileURL status db_now drv)
  end.

Definition run_ops (ops : list Op) (st : Storage) : Storage := fold_left apply_op ops st.

Definition accepted (r : ConnectionRequest.t) : Prop :=
  ConnectionRequest.Status r = "accepted".

Definition acceptedAt_set (r : ConnectionRequest.t) : Prop :=
  ConnectionRequest.AcceptedAt r <> None.

(** The invariant as the specification words it. *)
Definition acceptedAt_iff_accepted (st : Storage) : Prop :=
  forall r, In r (connection_requests st) -> (acceptedAt_set r <-> accepted r).

(** Every insert of the sequence carries a status other than 'accepted'
    (the connection phase inserts 'pending'). *)
Definition saves_not_accepted (ops : list Op) : Prop :=
  forall req db_now drv, In (OpSave req db_now drv) ops -> ~ accepted req.

Lemma update_row_cases (u s : string) (t : Z) (r : ConnectionRequest.t) :
  ConnectionRequest.ProfileURL (update_row u s t r) = ConnectionRequest.ProfileURL r
  /\ ((ConnectionRequest.ProfileURL r = u
       /\ ConnectionRequest.Status (update_row u s t r) = s
       /\ ((s = "accepted"
            /\ ConnectionRequest.AcceptedAt (update_row u s t r) = Some (CURRENT_TIMESTAMP t))
           \/ (s <> "accepted"
               /\ ConnectionRequest.AcceptedAt (update_row u s t r)
                  = ConnectionRequest.AcceptedAt r)))
      \/ (ConnectionRequest.ProfileURL r <> u /\ update_row u s t r = r)).
Proof.
  unfold update_row.
  destruct (String.eqb_spec (ConnectionRequest.ProfileURL r) u) as [E|E]; cbn.
  - split; [reflexivity|]. left. split; [exact E|]. split; [reflexivity|].
    destruct (String.eqb_spec s "accepted"); [left|right]; split; auto.
  - split; [reflexivity|]. right. split; [exact E|reflexivity].
Qed.

Lemma accepted_has_acceptedAt_step (st : Storage) (op : Op) :
  (forall req db_now drv, op = OpSave req db_now drv -> ~ accepted req) ->
  (forall r, In r (connection_requests st) -> accepted r -> acceptedAt_set r) ->
  forall r, In r (connection_requests (apply_op st op)) -> accepted r -> acceptedAt_set r.
Proof.
  intros Hsave Hinv r Hin Hacc. destruct op as [req t [e|] | u s t [e|]]; cbn in Hin;
    try (now apply Hinv).
  - apply in_app_or in Hin. destruct Hin as [Hin | [<- | []]]; [now apply Hinv|].
    exfalso. apply (Hsave req t None eq_refl). exact Hacc.
  - apply in_map_iff in Hin. destruct Hin as (r0 & <- & Hin0).
    destruct (update_row_cases u s t r0) as [_ [(_ & Hst & [[_ Hat] | [Hne _]]) | (_ & Heq)]].
    + unfold acceptedAt_set. rewrite Hat. discriminate.
    + exfalso. apply Hne. unfold accepted in Hacc. now rewrite Hst in Hacc.
    + rewrite Heq in *. now apply Hinv.
Qed.

Lemma accepted_has_acceptedAt (ops : list Op) :
  saves_not_accepted ops ->
  forall st,
    (forall r, In r (connection_requests st) -> accepted r -> acceptedAt_set r) ->
    forall r, In r (connection_requests (run_ops ops st)) -> accepted r -> acceptedAt_set r.
Proof.
  unfold run_ops. induction ops as [|op ops IH]; intros Hs st Hinv; [exact Hinv|].
  cbn [fold_left]. apply IH.
  - intros req t drv Hin. apply (Hs req t drv). now right.
  - apply accepted_has_acceptedAt_step; [|exact Hinv].
    intros req t drv ->. apply (Hs req t drv). now left.
Qed.

Lemma acceptedAt_only_by_update (ops : list Op) :
  forall st r,
    In r (connection_requests (run_ops ops st)) -> acceptedAt_set r ->
    (exists r0, In r0 (connection_requests st)
                /\ ConnectionRequest.ProfileURL r0 = ConnectionRequest.ProfileURL r
                /\ acceptedAt_set r0)
    \/ exists db_now,
        In (OpUpdate (ConnectionRequest.ProfileURL r) "accepted" db_now None) ops.
Proof.
  unfold run_ops. induction ops as [|op ops IH]; intros st r Hin Hset.
  { left. exists r. auto. }
  cbn [fold_left] in Hin.
  destruct (IH _ _ Hin Hset) as [(r0 & Hin0 & Hurl & Hset0) | (t & Ht)];
    [|right; exists t; now right].
  destruct op as [req t [e|] | u s t [e|]]; cbn in Hin0;
    try (left; exists r0; now auto).
  - apply in_app_or in Hin0. destruct Hin0 as [Hin0 | [<- | []]].
    + left. exists r0. auto.
    + exfalso. apply Hset0. reflexivity.
  - apply in_map_iff in Hin0. destruct Hin0 as (r1 & <- & Hin1).
    destruct (update_row_cases u s t r1)
      as [Hu [(Hm & _ & [[-> _] | [_ Hat]]) | (_ & Heq)]].
    + right. exists t. left. now rewrite <- Hurl, Hu, Hm.
    + left. exists r1. split; [exact Hin1|]. split; [now rewrite <- Hurl, Hu|].
      unfold acceptedAt_set in *. now rewrite <- Hat.
    + left. exists r1. rewrite Heq in *. auto.
Qed.

(** C5, as the code has it.  Starting from the empty database, after every
    sequence of inserts with a status other than 'accepted' and of status
    updates, whether the driver accepts them or not, a record with status
    'accepted' has its acceptedAt set, and a record has its acceptedAt set
    only if an update to 'accepted' went through for its profile URL.
    (The timestamp stays when the status changes again.) *)
Theorem accepted_sets_acceptedAt (ops : list Op) (r : ConnectionRequest.t) :
  saves_not_accepted ops ->
  In r (connection_requests (run_ops ops storage.empty)) ->
  (accepted r -> acceptedAt_set r)
  /\ (acceptedAt_set r ->
      exists db_now,
        In (OpUpdate (ConnectionRequest.ProfileURL r) "accepted" db_now None) ops).
Proof.
  intros Hs Hin. split.
  - apply (accepted_has_acceptedAt ops Hs storage.empty); [|exact Hin].
    intros r0 [].
  - intros Hset.
    destruct (acceptedAt_only_by_update ops _ _ Hin Hset) as [(r0 & [] & _) | H].
    exact H.
Qed.

(** Sent, accepted on Tuesday at 10:00, rejected two hours later. *)
Definition ops_accept_then_reject : list Op :=
  [ OpSave (examples.request 0 examples.url_jane "pending" 0 None)
           (examples.tuesday_10h - gotime.Day) None;
    OpUpdate examples.url_jane "accepted" examples.tuesday_10h None;
    OpUpdate examples.url_jane "rejected" (examples.tuesday_10h + 2 * gotime.Hour) None ].

Definition row_after_reject : ConnectionRequest.t :=
  {| ConnectionRequest.ID := 1; ConnectionRequest.ProfileID := 0;
     ConnectionRequest.ProfileURL := examples.url_jane;
     ConnectionRequest.SentAt := examples.tuesday_10h - gotime.Day;
     ConnectionRequest.Note := ""; ConnectionRequest.Status := "rejected";
     ConnectionRequest.AcceptedAt := Some examples.tuesday_10h |}.

Definition row_after_accept : ConnectionRequest.t :=
  {| ConnectionRequest.ID := 1; ConnectionRequest.ProfileID := 0;
     ConnectionRequest.ProfileURL := examples.url_jane;
     ConnectionRequest.SentAt := examples.tuesday_10h - gotime.Day;
     ConnectionRequest.Note := ""; ConnectionRequest.Status := "accepted";
     ConnectionRequest.AcceptedAt := Some examples.tuesday_10h |}.

(** C5, witness: the sequence above, stopped after the acceptance. *)
Lemma accepted_sets_acceptedAt_witness :
  In row_after_accept
     (connection_requests (run_ops (firstn 2 ops_accept_then_reject) storage.empty))
  /\ acceptedAt_set row_after_accept.
Proof.
  assert (Hin : In row_after_accept
     (connection_requests (run_ops (firstn 2 ops_accept_then_reject) storage.empty))).
  { left. reflexivity. }
  split; [exact Hin|].
  refine (proj1 (accepted_sets_acceptedAt (firstn 2 ops_accept_then_reject) _ _ Hin) eq_refl).
  intros req t drv [[= <- <- <-] | [[=] | []]]. discriminate.
Defined.

(** C5, counterexample: after the rejection the record is 'rejected' and
    still carries the acceptance timestamp, so "set iff accepted" fails. *)
Lemma acceptedAt_kept_after_reject :
  connection_requests (run_ops ops_accept_then_reject storage.empty) = [row_after_reject]
  /\ acceptedAt_set row_after_reject
  /\ ~ accepted row_after_reject
  /\ ~ acceptedAt_iff_accepted (run_ops ops_accept_then_reject storage.empty).
Proof.
  assert (E : connection_requests (run_ops ops_accept_then_reject storage.empty)
              = [row_after_reject]) by reflexivity.
  split; [exact E|]. split; [discriminate|]. split; [discriminate|].
  intros H. specialize (H row_after_reject). rewrite E in H.
  destruct (H (or_introl eq_refl)) as [H1 _].
  assert (Habs : accepted row_after_reject) by (apply H1; discriminate).
  discriminate Habs.
Qed.

End AcceptedAt.

(** ** Connection phase *)
Section ConnectionPhase.
Import config storage connect.

Variable cfg : Config.

(** The row [SaveConnectionRequest] inserts for [profile] into [st]. *)
Definition pending_row (st : Storage) (w : World) (profile : Profile.t) : ConnectionRequest.t :=
  {| ConnectionRequest.ID := next_id (connection_requests st);
     ConnectionRequest.ProfileID := Profile.ID profile;
     ConnectionRequest.ProfileURL := Profile.ProfileURL profile;
     ConnectionRequest.SentAt := CURRENT_TIMESTAMP (save_now w);
     ConnectionRequest.Note := "";
     ConnectionRequest.Status := "pending";
     ConnectionRequest.AcceptedAt := None |}.

(** The ActivityEvent [LogActivity] inserts into [st]. *)
Definition activity_row (st : Storage) (actionType targetURL outcome errorMessage : string)
           (db_now : Z) : Activity.t :=
  {| Activity.ID := next_id (activity_log st);
     Activity.ActionType := actionType;
     Activity.TargetURL := targetURL;
     Activity.Outcome := outcome;
     Activity.ErrorMessage := errorMessage;
     Activity.CreatedAt := CURRENT_TIMESTAMP db_now |}.

(** The activity log after a call of [LogActivity] whose error is dropped. *)
Definition logged (st : Storage) (w : World) (targetURL outcome errorMessage : string)
  : list Activity.t :=
  match log_err w with
  | None => activity_log st
            ++ [activity_row st "connection_request" targetURL outcome errorMessage (log_now w)]
  | Some _ => activity_log st
  end.

Lemma browser_send_store (w : World) (st : Storage) :
  fst (browser_send cfg w st) = st.
Proof.
  unfold browser_send, and_then, or_fail.
  destruct (navigate_err w), (connect_button_err w), (click_connect_err w),
    (SendNote (Connection cfg)), (add_note_err w), (click_send_err w); reflexivity.
Qed.

(** [sendConnectionRequest] either fails and leaves the store as it was, or
    the INSERT went through and the store holds one more pending request. *)
Lemma sendConnectionRequest_cases (w : World) (profile : Profile.t) (s : State) :
  let url := Profile.ProfileURL profile in
  (exists e,
      sendConnectionRequest cfg w profile s = (write_log (LogSending url) s, Some e))
  \/ (save_err w = None
      /\ exists s',
          sendConnectionRequest cfg w profile s = (s', None)
          /\ log s' = log s ++ [LogSending url]
          /\ connection_requests (store s')
             = connection_requests (store s) ++ [pending_row (store s) w profile]
          /\ messages (store s') = messages (store s)
          /\ activity_log (store s') = logged (store s) w url "success" "").
Proof.
  intros url. unfold sendConnectionRequest.
  pose proof (browser_send_store w (store (write_log (LogSending url) s))) as Hb.
  fold url. destruct (browser_send cfg w (store (write_log (LogSending url) s))) as [st [e|]];
    cbn [fst] in Hb; subst st; cbn [and_then].
  { left. exists e. destruct s; reflexivity. }
  unfold SaveConnectionRequest. destruct (save_err w) as [e|]; cbn.
  { left. eexists. destruct s; reflexivity. }
  right. split; [reflexivity|]. unfold LogActivity, logged.
  destruct (log_err w); cbn; eexists; (split; [reflexivity|]); cbn; repeat split.
Qed.

Lemma count_requests_snoc (st st' : Storage) (row : ConnectionRequest.t) (u : string) :
  connection_requests st' = connection_requests st ++ [row] ->
  count_requests st' u
  = count_requests st u + (if String.eqb (ConnectionRequest.ProfileURL row) u then 1 else 0).
Proof.
  intros E. unfold count_requests. rewrite E, filter_app, length_app. cbn [filter].
  destruct (String.eqb (ConnectionRequest.ProfileURL row) u); cbn [List.length]; lia.
Qed.

Lemma count_requests_same (st st' : Storage) (u : string) :
  connection_requests st' = connection_requests st ->
  count_requests st' u = count_requests st u.
Proof. intros E. unfold count_requests. now rewrite E. Qed.

Lemma count_requests_nonneg (st : Storage) (u : string) : 0 <= count_requests st u.
Proof. unfold count_requests. lia. Qed.

(** What one round of the loop can do, case by case. *)
Inductive round_spec (w : World) (total : Z) (profile : Profile.t) (s : State) (sent : Z)
  : State -> Z -> Flow -> Prop :=
| round_cancelled :
    ctx_done w = true ->
    round_spec w total profile s sent (write_log LogCancelled s) sent (Return "context canceled")
| round_quota :
    ctx_done w = false ->
    canSendConnection cfg (store s) (now_today w) (now_hour w) = false ->
    round_spec w total profile s sent (write_log LogRateLimit s) sent Break
| round_check_failed e :
    ctx_done w = false ->
    canSendConnection cfg (store s) (now_today w) (now_hour w) = true ->
    is_sent_err w = Some e ->
    round_spec w total profile s sent (write_log (LogCheckFailed e) s) sent Continue
| round_already_sent :
    ctx_done w = false ->
    canSendConnection cfg (store s) (now_today w) (now_hour w) = true ->
    is_sent_err w = None ->
    0 < count_requests (store s) (Profile.ProfileURL profile) ->
    round_spec w total profile s sent
               (write_log (LogAlreadySent (Profile.ProfileURL profile)) s) sent Continue
| round_send_failed e s' :
    ctx_done w = false ->
    canSendConnection cfg (store s) (now_today w) (now_hour w) = true ->
    is_sent_err w = None ->
    count_requests (store s) (Profile.ProfileURL profile) = 0 ->
    sendConnectionRequest cfg w profile s
    = (write_log (LogSending (Profile.ProfileURL profile)) s, Some e) ->
    log s' = log s ++ [LogSending (Profile.ProfileURL profile);
                       LogSendFailed (Profile.ProfileURL profile) e] ->
    connection_requests (store s') = connection_requests (store s) ->
    messages (store s') = messages (store s) ->
    activity_log (store s') = logged (store s) w (Profile.ProfileURL profile) "failed" e ->
    round_spec w total profile s sent s' sent Continue
| round_sent s1 s' :
    ctx_done w = false ->
    canSendConnection cfg (store s) (now_today w) (now_hour w) = true ->
    is_sent_err w = None ->
    count_requests (store s) (Profile.ProfileURL profile) = 0 ->
    save_err w = None ->
    sendConnectionRequest cfg w profile s = (s1, None) ->
    log s' = log s ++ [LogSending (Profile.ProfileURL profile);
                       LogSent (Profile.Name profile) (sent + 1) total] ->
    connection_requests (store s')
    = connection_requests (store s) ++ [pending_row (store s) w profile] ->
    messages (store s') = messages (store s) ->
    activity_log (store s') = logged (store s) w (Profile.ProfileURL profile) "success" "" ->
    round_spec w total profile s sent s' (sent + 1) Continue.

Lemma round_cases (w : World) (total : Z) (profile : Profile.t) (s : State) (sent : Z) :
  forall s' sent' fl,
    round cfg w total profile s sent = (s', sent', fl) ->
    round_spec w total profile s sent s' sent' fl.
Proof.
  intros s' sent' fl. unfold round.
  destruct (ctx_done w) eqn:Hctx.
  { intros [= <- <- <-]. now constructor. }
  destruct (canSendConnection cfg (store s) (now_today w) (now_hour w)) eqn:Hq; cbn [negb].
  2:{ intros [= <- <- <-]. now constructor. }
  unfold IsConnectionSent. destruct (is_sent_err w) as [e|] eqn:Hdrv.
  { intros [= <- <- <-]. now constructor. }
  destruct (Z.ltb_spec 0 (count_requests (store s) (Profile.ProfileURL profile))) as [Hc|Hc].
  { intros [= <- <- <-]. now constructor. }
  assert (Hc0 : count_requests (store s) (Profile.ProfileURL profile) = 0)
    by (pose proof (count_requests_nonneg (store s) (Profile.ProfileURL profile)); lia).
  destruct (sendConnectionRequest_cases w profile s)
    as [(e & Hsend) | (Hsave & s1 & Hsend & Hlog & Hreq & Hmsg & Hact)]; rewrite Hsend.
  - unfold LogActivity. destruct (log_err w) eqn:Hl; intros [= <- <- <-];
      apply (round_send_failed w total profile s sent e); try assumption;
      unfold logged; rewrite ?Hl; cbn; rewrite <- ?app_assoc; reflexivity.
  - intros [= <- <- <-].
    apply (round_sent w total profile s sent s1); try assumption.
    cbn. rewrite Hlog, <- app_assoc. reflexivity.
Qed.

End ConnectionPhase.

Section ConnectionClaims.
Import config storage connect.

Variable cfg : Config.

(** Per profile URL, a round either leaves the number of persisted requests
    as it is or takes it from 0 to 1. *)
Definition same_or_first (st st' : Storage) (u : string) : Prop :=
  count_requests st' u = count_requests st u
  \/ (count_requests st u = 0 /\ count_requests st' u = 1).

Lemma round_counts (w : World) (total : Z) (profile : Profile.t) (s : State) (sent : Z)
      (s' : State) (sent' : Z) (fl : Flow) (u : string) :
  round cfg w total profile s sent = (s', sent', fl) ->
  same_or_first (store s) (store s') u.
Proof.
  intros H. apply round_cases in H.
  destruct H; try (left; reflexivity).
  - left. now apply count_requests_same.
  - match goal with
    | Hreq : connection_requests (store s') = _ ++ _ |- _ =>
      pose proof (count_requests_snoc _ _ _ u Hreq) as Hcount
    end.
    cbn [pending_row ConnectionRequest.ProfileURL] in Hcount.
    destruct (String.eqb_spec (Profile.ProfileURL profile) u) as [<-|Hne].
    + right. split; [assumption | lia].
    + left. lia.
Qed.

Lemma rounds_counts (w : nat -> World) (total : Z) (profiles : list Profile.t) (u : string) :
  forall i s sent s' sent' err,
    rounds cfg w total i profiles s sent = (s', sent', err) ->
    same_or_first (store s) (store s') u.
Proof.
  induction profiles as [|profile rest IH]; intros i s sent s' sent' err; cbn [rounds].
  { intros [= <- <- <-]. left. reflexivity. }
  destruct (round cfg (w i) total profile s sent) as [[s1 sent1] fl] eqn:Hround.
  pose proof (round_counts _ _ _ _ _ _ _ _ u Hround) as H1.
  destruct fl.
  - intros Hrest. pose proof (IH _ _ _ _ _ _ Hrest) as H2.
    unfold same_or_first in *. lia.
  - intros [= <- <- <-]. exact H1.
  - intros [= <- <- <-]. exact H1.
Qed.

(** C2.  A profile that already has a persisted connection request, of any
    status, gets no new one from [SendConnectionRequests]: the number of
    requests of its URL is the same after the phase, and a store with at
    most one request per URL stays so.  In its round the store and the count
    of sent requests are left alone and no send is announced, and when the
    round reaches the check the profile is logged as already sent and the
    loop continues. *)
Theorem requested_profile_is_skipped
        (w : nat -> World) (profiles : list Profile.t) (s s' : State)
        (sent : Z) (err : option string) :
  SendConnectionRequests cfg w profiles s = (s', sent, err) ->
  (forall u, 0 < count_requests (store s) u ->
             count_requests (store s') u = count_requests (store s) u)
  /\ ((forall u, count_requests (store s) u <= 1) ->
      forall u, count_requests (store s') u <= 1)
  /\ (forall w0 total profile s0 sent0 s1 sent1 fl,
         0 < count_requests (store s0) (Profile.ProfileURL profile) ->
         round cfg w0 total profile s0 sent0 = (s1, sent1, fl) ->
         store s1 = store s0 /\ sent1 = sent0
         /\ (forall u, In (LogSending u) (log s1) -> In (LogSending u) (log s0))
         /\ (ctx_done w0 = false ->
             canSendConnection cfg (store s0) (now_today w0) (now_hour w0) = true ->
             is_sent_err w0 = None ->
             s1 = write_log (LogAlreadySent (Profile.ProfileURL profile)) s0
             /\ fl = Continue)).
Proof.
  unfold SendConnectionRequests. intros Hrun.
  assert (Hc : forall u, same_or_first (store s) (store s') u).
  { intros u. apply (rounds_counts _ _ _ u _ _ _ _ _ _ Hrun). }
  split; [|split].
  - intros u Hu. destruct (Hc u) as [E | [E _]]; [exact E | lia].
  - intros Hone u. specialize (Hone u). destruct (Hc u) as [E | [_ E]]; lia.
  - intros w0 total profile s0 sent0 s1 sent1 fl Hpos Hround.
    apply round_cases in Hround.
    destruct Hround; try lia; (split; [reflexivity|]; split; [reflexivity|]);
      (split; [intros u Hu; cbn [log write_log] in Hu; apply in_app_or in Hu;
               destruct Hu as [Hu | [Hu | []]]; [exact Hu | discriminate Hu] |]);
      intros; try congruence.
    split; reflexivity.
Qed.

End ConnectionClaims.

Section ConnectionChecks.
Import storage connect examples.

(** C2, witness: Jane, to whom a pending request is already persisted. *)
Lemma requested_profile_is_skipped_witness :
  0 < count_requests (store state_jane_requested) url_jane
  /\ count_requests
       (store (fst (fst (SendConnectionRequests cfg0 (fun _ => world_quiet) [jane]
                                                state_jane_requested))))
       url_jane = 1.
Proof.
  assert (Hpos : 0 < count_requests (store state_jane_requested) url_jane) by reflexivity.
  split; [exact Hpos|].
  destruct (SendConnectionRequests cfg0 (fun _ => world_quiet) [jane] state_jane_requested)
    as [[s' sent] err] eqn:Hrun.
  exact (proj1 (requested_profile_is_skipped _ _ _ _ _ _ _ Hrun) url_jane Hpos).
Defined.

End ConnectionChecks.

Section SendOutcomes.
Import config storage connect.

Variable cfg : Config.

(** The error, if any, of the browser part of a send. *)
Definition browser_err (w : World) : option string :=
  snd (browser_send cfg w storage.empty).

Lemma browser_send_eq (w : World) (st : Storage) :
  browser_send cfg w st = (st, browser_err w).
Proof.
  unfold browser_err, browser_send, and_then, or_fail.
  destruct (navigate_err w), (connect_button_err w), (click_connect_err w),
    (SendNote (Connection cfg)), (add_note_err w), (click_send_err w); reflexivity.
Qed.

Lemma sendConnectionRequest_goes_through (w : World) (profile : Profile.t) (s : State) :
  browser_err w = None -> save_err w = None ->
  snd (sendConnectionRequest cfg w profile s) = None.
Proof.
  intros Hb Hs. unfold sendConnectionRequest.
  rewrite browser_send_eq, Hb. cbn [and_then].
  unfold SaveConnectionRequest, LogActivity. rewrite Hs. cbn.
  destruct (log_err w); reflexivity.
Qed.

Lemma sendConnectionRequest_error_before_persistence
      (w : World) (profile : Profile.t) (s : State) (e : string) :
  snd (sendConnectionRequest cfg w profile s) = Some e ->
  sendConnectionRequest cfg w profile s
  = (write_log (LogSending (Profile.ProfileURL profile)) s, Some e)
  /\ (browser_err w <> None \/ save_err w <> None).
Proof.
  intros H. split.
  - destruct (sendConnectionRequest_cases cfg w profile s)
      as [(e' & Hsend) | (_ & s1 & Hsend & _)]; rewrite Hsend in H |- *; cbn in H.
    + now injection H as ->.
    + discriminate.
  - destruct (browser_err w) eqn:Hb; [left; discriminate|].
    destruct (save_err w) eqn:Hs; [right; discriminate|].
    rewrite (sendConnectionRequest_goes_through w profile s Hb Hs) in H. discriminate.
Qed.

(** C4, as the code has it.  When a round attempts a send and
    [sendConnectionRequest] fails, which it does only before the request
    record is persisted, the call leaves the store as it was; the round
    creates no connection request, the profile is still reported as not
    sent and the loop goes on to the next profile without counting it.
    The failure is written to the process log, and [LogActivity] is called
    for it with its error dropped: when the database accepts that insert
    the failure is a failed ActivityEvent of the profile, and when the
    database refuses it the activity log stays as it was.  Whenever a
    round raises the number of requests of a URL, the send of that round
    went through: the INSERT succeeded and the new row is its pending
    request. *)
Theorem failed_send_is_logged_and_retriable
        (w : World) (total : Z) (profile : Profile.t) (s : State) (sent : Z) (e : string)
        (s' : State) (sent' : Z) (fl : Flow) :
  ctx_done w = false ->
  canSendConnection cfg (store s) (now_today w) (now_hour w) = true ->
  is_sent_err w = None ->
  count_requests (store s) (Profile.ProfileURL profile) = 0 ->
  snd (sendConnectionRequest cfg w profile s) = Some e ->
  round cfg w total profile s sent = (s', sent', fl) ->
  store (fst (sendConnectionRequest cfg w profile s)) = store s
  /\ (browser_err w <> None \/ save_err w <> None)
  /\ connection_requests (store s') = connection_requests (store s)
  /\ IsConnectionSent (store s') (Profile.ProfileURL profile) None = (false, None)
  /\ sent' = sent /\ fl = Continue
  /\ In (LogSendFailed (Profile.ProfileURL profile) e) (log s')
  /\ (log_err w = None ->
      activity_log (store s')
      = activity_log (store s)
        ++ [activity_row (store s) "connection_request" (Profile.ProfileURL profile)
                         "failed" e (log_now w)])
  /\ (log_err w <> None -> activity_log (store s') = activity_log (store s))
  /\ (forall w0 total0 profile0 s0 sent0 s1 sent1 fl1 u,
         round cfg w0 total0 profile0 s0 sent0 = (s1, sent1, fl1) ->
         count_requests (store s0) u < count_requests (store s1) u ->
         u = Profile.ProfileURL profile0
         /\ save_err w0 = None
         /\ snd (sendConnectionRequest cfg w0 profile0 s0) = None
         /\ connection_requests (store s1)
            = connection_requests (store s0) ++ [pending_row (store s0) w0 profile0]
         /\ sent1 = sent0 + 1).
Proof.
  intros Hctx Hq Hdrv Hcount Hfail Hround.
  destruct (sendConnectionRequest_error_before_persistence w profile s e Hfail)
    as [Hsend Hwhy].
  split; [now rewrite Hsend|]. split; [exact Hwhy|].
  apply round_cases in Hround.
  destruct Hround; try congruence; try lia.
  match goal with
  | H1 : sendConnectionRequest _ _ _ _ = (_, Some ?x) |- _ =>
    rewrite H1 in Hsend; injection Hsend as ->
  end.
  split; [assumption|]. split.
  { unfold IsConnectionSent. f_equal.
    rewrite (count_requests_same (store s) (store s')) by assumption.
    rewrite Hcount. reflexivity. }
  split; [reflexivity|]. split; [reflexivity|]. split.
  { match goal with H1 : log s' = _ |- _ => rewrite H1 end.
    apply in_or_app. right. right. left. reflexivity. }
  split.
  { intros Hlog.
    match goal with H1 : activity_log (store s') = _ |- _ => rewrite H1 end.
    unfold logged. now rewrite Hlog. }
  split.
  { intros Hlog.
    match goal with H1 : activity_log (store s') = _ |- _ => rewrite H1 end.
    unfold logged. destruct (log_err w); [reflexivity | now elim Hlog]. }
  clear. intros w0 total0 profile0 s0 sent0 s1 sent1 fl1 u Hround Hlt.
  apply round_cases in Hround.
  destruct Hround; cbn [store write_log] in Hlt; try lia.
  - match goal with
    | H1 : connection_requests (store _) = connection_requests (store _) |- _ =>
      rewrite (count_requests_same _ _ u H1) in Hlt
    end. lia.
  - match goal with
    | H1 : connection_requests (store _) = _ ++ _ |- _ =>
      pose proof (count_requests_snoc _ _ _ u H1) as Hc
    end.
    cbn [pending_row ConnectionRequest.ProfileURL] in Hc.
    destruct (String.eqb_spec (Profile.ProfileURL profile0) u) as [<-|Hne]; [|lia].
    split; [reflexivity|]. split; [assumption|]. split.
    + match goal with
      | H1 : sendConnectionRequest _ _ _ _ = (_, None) |- _ => now rewrite H1
      end.
    + split; [assumption|reflexivity].
Qed.

End SendOutcomes.

Section SendOutcomeChecks.
Import storage connect examples.

(** C4, witness: Jane's Connect button is not found. *)
Lemma failed_send_is_logged_and_retriable_witness :
  snd (sendConnectionRequest cfg0 world_no_button jane state_fresh)
  = Some "connect button not found: connect button not found with any selector"
  /\ connection_requests (store (fst (fst (round cfg0 world_no_button 1 jane state_fresh 0))))
     = [].
Proof.
  split; [reflexivity|].
  destruct (round cfg0 world_no_button 1 jane state_fresh 0) as [[s' sent'] fl] eqn:Hround.
  exact (proj1 (proj2 (proj2
           (failed_send_is_logged_and_retriable
              cfg0 world_no_button 1 jane state_fresh 0 _ s' sent' fl
              eq_refl eq_refl eq_refl eq_refl eq_refl Hround)))).
Defined.

(** Jane's Connect button is not found, and the database refuses the
    insert into the activity log. *)
Definition world_no_button_log_refused : World :=
  {| ctx_done := false;
     now_today := on_utc_host tuesday_10h; now_hour := on_utc_host tuesday_10h;
     is_sent_err := None; navigate_err := None;
     connect_button_err := Some "connect button not found with any selector";
     click_connect_err := None; add_note_err := None; click_send_err := None;
     send_now := tuesday_10h; save_now := tuesday_10h; save_err := None;
     log_now := tuesday_10h;
     log_err := Some "database is locked (5) (SQLITE_BUSY)" |}.

(** C4, counterexample: a send that fails before the request record is
    persisted while the database refuses the insert of [LogActivity].
    The round goes on, no connection request is created, and the activity
    log holds no event of the failure: it is a line of the process log
    only. *)
Lemma failed_send_leaves_no_event_when_insert_refused :
  snd (sendConnectionRequest cfg0 world_no_button_log_refused jane state_fresh)
  = Some "connect button not found: connect button not found with any selector"
  /\ round cfg0 world_no_button_log_refused 1 jane state_fresh 0
     = ({| store := storage.empty;
           log := [LogSending url_jane;
                   LogSendFailed
                     url_jane
                     "connect button not found: connect button not found with any selector"] |},
        0, Continue)
  /\ ~ (forall w total profile s sent e,
           ctx_done w = false ->
           canSendConnection cfg0 (store s) (now_today w) (now_hour w) = true ->
           is_sent_err w = None ->
           count_requests (store s) (Profile.ProfileURL profile) = 0 ->
           snd (sendConnectionRequest cfg0 w profile s) = Some e ->
           exists a,
             In a (activity_log (store (fst (fst (round cfg0 w total profile s sent)))))
             /\ Activity.Outcome a = "failed").
Proof.
  split; [reflexivity|]. split; [reflexivity|].
  intros H.
  destruct (H world_no_button_log_refused 1 jane state_fresh 0 _
              eq_refl eq_refl eq_refl eq_refl eq_refl) as (a & Hin & _).
  exact Hin.
Qed.

End SendOutcomeChecks.

Section ActivityTrail.
Import config storage connect.

Variable cfg : Config.

(** C6, as the code has it.  Of the outcomes of a round, the attempted
    sends are recorded as ActivityEvents: one event per attempt, "success"
    or "failed", when the database accepts the insert.  A round stopped by
    the quota records none: it writes "Rate limit reached" to the process
    log, leaves the store alone and ends the loop.  So with an hourly cap
    of 1 and two targets A and B, of which A has no request yet; the
    counts delivered at A's turn 0 for the hour and below the cap for the
    day; A's send gone through; and the hourly query of B's turn answered
    and selecting A's row (its UTC second is after the second of one hour
    before B's turn on the wall clock of the host, as it is on a host
    whose zone is UTC): the phase sends exactly one request, and the
    activity log gains the success event of A and nothing for B. *)
Theorem attempts_are_logged_quota_skips_are_not :
  (forall w total profile s sent,
      ctx_done w = false ->
      canSendConnection cfg (store s) (now_today w) (now_hour w) = false ->
      round cfg w total profile s sent = (write_log LogRateLimit s, sent, Break)
      /\ activity_log (store (write_log LogRateLimit s)) = activity_log (store s))
  /\ (forall w total profile s sent s' sent' fl,
         ctx_done w = false ->
         canSendConnection cfg (store s) (now_today w) (now_hour w) = true ->
         is_sent_err w = None ->
         count_requests (store s) (Profile.ProfileURL profile) = 0 ->
         log_err w = None ->
         round cfg w total profile s sent = (s', sent', fl) ->
         exists outcome msg,
           activity_log (store s')
           = activity_log (store s)
             ++ [activity_row (store s) "connection_request" (Profile.ProfileURL profile)
                              outcome msg (log_now w)]
           /\ ((outcome = "success" /\ msg = "" /\ sent' = sent + 1
                /\ snd (sendConnectionRequest cfg w profile s) = None)
               \/ (outcome = "failed" /\ sent' = sent
                   /\ snd (sendConnectionRequest cfg w profile s) = Some msg)))
  /\ (forall (w : nat -> World) (A B : Profile.t) (s : State),
         PerHour (Connections (RateLimits cfg)) = 1 ->
         connections_last_hour (store s) (now_hour (w 0%nat)) = 0 ->
         connections_today (store s) (now_today (w 0%nat))
         < PerDay (Connections (RateLimits cfg)) ->
         count_requests (store s) (Profile.ProfileURL A) = 0 ->
         ctx_done (w 0%nat) = false -> is_sent_err (w 0%nat) = None ->
         browser_err cfg (w 0%nat) = None -> save_err (w 0%nat) = None ->
         log_err (w 0%nat) = None ->
         ctx_done (w 1%nat) = false ->
         connections_scan_err (now_hour (w 1%nat)) = None ->
         not_before_text (now_hour (w 1%nat))
                         (at_instant (now_hour (w 1%nat)) - gotime.Hour)
                         (CURRENT_TIMESTAMP (save_now (w 0%nat))) = true ->
         exists s',
           SendConnectionRequests cfg w [A; B] s = (s', 1, None)
           /\ connection_requests (store s')
              = connection_requests (store s) ++ [pending_row (store s) (w 0%nat) A]
           /\ activity_log (store s')
              = activity_log (store s)
                ++ [activity_row (store s) "connection_request" (Profile.ProfileURL A)
                                 "success" "" (log_now (w 0%nat))]
           /\ log s' = log s ++ [LogStarting; LogSending (Profile.ProfileURL A);
                                 LogSent (Profile.Name A) 1 2; LogRateLimit; LogTotal 1]).
Proof.
  split; [|split].
  - intros w total profile s sent Hctx Hq. unfold round. rewrite Hctx, Hq. split; reflexivity.
  - intros w total profile s sent s' sent' fl Hctx Hq Hdrv Hcount Hlog Hround.
    apply round_cases in Hround.
    destruct Hround; try congruence; try lia.
    + exists "failed", e. split.
      * match goal with H1 : activity_log (store s') = _ |- _ => rewrite H1 end.
        unfold logged. now rewrite Hlog.
      * right. split; [reflexivity|]. split; [reflexivity|].
        match goal with
        | H1 : sendConnectionRequest _ _ _ _ = _ |- _ => now rewrite H1
        end.
    + exists "success", "". split.
      * match goal with H1 : activity_log (store s') = _ |- _ => rewrite H1 end.
        unfold logged. now rewrite Hlog.
      * left. split; [reflexivity|]. split; [reflexivity|]. split; [reflexivity|].
        match goal with
        | H1 : sendConnectionRequest _ _ _ _ = _ |- _ => now rewrite H1
        end.
  - intros w A B s Hcap Hhour Hday Hc0 Hctx0 Hdrv0 Hbrowser0 Hsave0 Hlog0 Hctx1
           Hscan1 Hrecent.
    unfold SendConnectionRequests. cbn [rounds List.length Z.of_nat Pos.of_succ_nat Pos.succ].
    set (s0 := write_log LogStarting s).
    assert (Hq0 : canSendConnection cfg (store s0) (now_today (w 0%nat)) (now_hour (w 0%nat))
                  = true).
    { apply canSendConnection_true_iff. cbn [s0 store write_log]. rewrite Hhour, Hcap. lia. }
    destruct (round cfg (w 0%nat) 2 A s0 0) as [[s1 sent1] fl1] eqn:Hround0.
    pose proof (sendConnectionRequest_goes_through cfg (w 0%nat) A s0 Hbrowser0 Hsave0)
      as Hsend0.
    assert (Hc0' : count_requests (store s0) (Profile.ProfileURL A) = 0) by exact Hc0.
    apply round_cases in Hround0.
    destruct Hround0 as [ | | | | e ? _ _ _ _ Hfail | s1' s1 _ _ _ _ _ _ Hl1 Hreq1 _ Hact1];
      try congruence; try lia.
    { rewrite Hfail in Hsend0. discriminate. }
    assert (Hq1 : canSendConnection cfg (store s1) (now_today (w 1%nat)) (now_hour (w 1%nat))
                  = false).
    { destruct (canSendConnection cfg (store s1) (now_today (w 1%nat)) (now_hour (w 1%nat)))
               eqn:E; [|reflexivity].
      apply canSendConnection_true_iff in E. destruct E as [E _].
      unfold connections_last_hour, count_if in E.
      rewrite Hscan1, Hreq1, Hcap, filter_app in E.
      cbn [scanned filter pending_row ConnectionRequest.SentAt] in E.
      rewrite Hrecent, length_app in E. cbn [List.length] in E.
      lia. }
    unfold round. rewrite Hctx1, Hq1. cbn [negb].
    eexists. split; [reflexivity|]. cbn [store log write_log].
    split; [exact Hreq1|split].
    + rewrite Hact1. unfold logged. rewrite Hlog0. reflexivity.
    + rewrite Hl1. cbn [s0 log write_log]. rewrite <- !app_assoc. reflexivity.
Qed.

End ActivityTrail.

Section ActivityTrailChecks.
Import config storage connect examples.

(** Hourly cap 1 for connections, daily cap 20. *)
Definition cfg_hourly_cap_one : Config := examples.cfg (limits 1 20 10 50).

(** C6, witness: Jane and Bob in one phase under an hourly cap of 1, on a
    host whose zone is UTC. *)
Lemma attempts_are_logged_quota_skips_are_not_witness :
  PerHour (Connections (RateLimits cfg_hourly_cap_one)) = 1
  /\ exists s',
      SendConnectionRequests cfg_hourly_cap_one (fun _ => world_quiet) [jane; bob] state_fresh
      = (s', 1, None)
      /\ connection_requests (store s') = [pending_row (store state_fresh) world_quiet jane].
Proof.
  split; [reflexivity|].
  destruct (proj2 (proj2 (attempts_are_logged_quota_skips_are_not cfg_hourly_cap_one))
              (fun _ => world_quiet) jane bob state_fresh
              eq_refl eq_refl eq_refl eq_refl eq_refl eq_refl eq_refl eq_refl eq_refl eq_refl
              eq_refl eq_refl)
    as (s' & Hrun & Hreq & _).
  exists s'. split; [exact Hrun | exact Hreq].
Defined.

(** C6, counterexample: on a host whose zone is UTC, with every query
    answered, Jane and Bob under an hourly cap of 1.  One request is sent,
    to Jane, the activity log holds the one event of her success, and no
    ActivityEvent speaks of Bob, who was turned away by the quota: his
    skip is a line of the process log only. *)
Lemma quota_skip_leaves_no_activity_event :
  let '(s', sent, err) :=
    SendConnectionRequests cfg_hourly_cap_one (fun _ => world_quiet) [jane; bob] state_fresh in
  sent = 1 /\ err = None
  /\ map Activity.TargetURL (activity_log (store s')) = [url_jane]
  /\ map Activity.Outcome (activity_log (store s')) = ["success"]
  /\ log s' = [LogStarting; LogSending url_jane; LogSent "Jane Doe" 1 2;
               LogRateLimit; LogTotal 1]
  /\ ~ (exists a, In a (activity_log (store s')) /\ Activity.TargetURL a = url_bob).
Proof.
  vm_compute. repeat split.
  intros (a & [<- | []] & H). discriminate H.
Qed.

End ActivityTrailChecks.

(** ** Message phase *)
Section MessagePhase.
Import config storage message.

Variable cfg : Config.

(** The row [SaveMessage] inserts for [conn] into [st]. *)
Definition message_row (st : Storage) (w : World) (conn : ConnectionRequest.t) : Message.t :=
  {| Message.ID := next_id (messages st);
     Message.ProfileID := ConnectionRequest.ProfileID conn;
     Message.ProfileURL := ConnectionRequest.ProfileURL conn;
     Message.Content := messageContent w;
     Message.SentAt := CURRENT_TIMESTAMP (save_now w);
     Message.Status := "sent" |}.

(** The error, if any, of the browser part of [sendMessage]. *)
Definition message_browser_err (w : World) : option string :=
  snd (browser_send w storage.empty).

Lemma message_browser_send_eq (w : World) (st : Storage) :
  browser_send w st = (st, message_browser_err w).
Proof.
  unfold message_browser_err, browser_send, and_then, or_fail.
  destruct (navigate_err w), (message_box_err w), (message_box_alt_err w),
    (click_box_err w), (type_err w), (send_button_err w), (click_send_err w); reflexivity.
Qed.





End MessagePhase.

Section MessageChecks.
Import storage message examples.



End MessageChecks.

(** ** The delay after acceptance *)
Section DwellGuard.
Import config storage message.

Lemma f64lt_irrefl (x : gotime.float64) : gotime.f64lt x x = false.
Proof.
  unfold gotime.f64lt, SFltb, SFcompare.
  destruct x as [[|] | [|] | | [|] m e]; try reflexivity;
    rewrite Z.compare_refl, Pos.compare_cont_refl; reflexivity.
Qed.

Lemma f64add_zero_not_below (x : gotime.float64) (sz : bool) :
  gotime.f64lt (gotime.f64add x (S754_zero sz)) x = false.
Proof.
  destruct x as [[|] | [|] | | [|] m e], sz; try reflexivity;
    cbn [gotime.f64add SFadd]; apply f64lt_irrefl.
Qed.

(** A whole number of hours has no fraction to add. *)
Lemma Hours_whole (k : Z) :
  gotime.Hours (k * gotime.Hour)
  = gotime.f64add (gotime.float64_of_int k) (S754_zero false).
Proof.
  unfold gotime.Hours.
  rewrite Z.quot_mul by discriminate. rewrite Z.rem_mul by discriminate.
  reflexivity.
Qed.

(** The boundary is inclusive: exactly [D] hours after the acceptance the
    guard lets the connection through, for every configured delay [D]. *)
Lemma dwell_guard_boundary_inclusive (cfg : Config) (acceptedAt : Z) :
  let D := DelayAfterConnectionHours (Messaging cfg) in
  int_range (D * gotime.Hour) ->
  accepted_too_recently cfg (acceptedAt + D * gotime.Hour) acceptedAt = false.
Proof.
  intros D HD. unfold accepted_too_recently, gotime.Since, gotime.Sub. fold D.
  replace (acceptedAt + D * gotime.Hour - acceptedAt) with (D * gotime.Hour) by lia.
  unfold int_range in HD.
  destruct (Z.ltb_spec (D * gotime.Hour) MinInt64); [lia|].
  destruct (Z.ltb_spec MaxInt64 (D * gotime.Hour)); [lia|].
  rewrite Hours_whole. apply f64add_zero_not_below.
Qed.

(** With a configured delay of 24 hours: a nanosecond
    before the 24 hours are over the connection is skipped, at 24 hours
    sharp and later it is not; the same holds at 4096 hours. *)
Example dwell_guard_24_hours :
  let c := examples.cfg0 in
  let t := examples.tuesday_10h in
  accepted_too_recently c (t + 24 * gotime.Hour - 1) t = true
  /\ accepted_too_recently c (t + 24 * gotime.Hour) t = false
  /\ accepted_too_recently c (t + 24 * gotime.Hour + 1) t = false
  /\ accepted_too_recently c t t = true
  /\ accepted_too_recently
       (examples.cfg_with (examples.limits 10 20 10 50) 4096 examples.weekdays 9 18)
       (t + 4096 * gotime.Hour - 1) t = true.
Proof. vm_compute. repeat split. Qed.

(** A configured delay of 4097 hours. *)
Definition cfg_delay_4097 : Config :=
  examples.cfg_with (examples.limits 10 20 10 50) 4097 examples.weekdays 9 18.

(** Jane's request, accepted on Tuesday at 10:00. *)
Definition jane_accepted : ConnectionRequest.t :=
  examples.request 1 examples.url_jane "accepted" (examples.tuesday_10h - gotime.Day)
                   (Some examples.tuesday_10h).

(** One nanosecond before the 4097 hours are over. *)
Definition just_before_4097h : Z := examples.tuesday_10h + 4097 * gotime.Hour - 1.

(** The database holds Jane's accepted request and no message. *)
Definition state_jane_accepted : State :=
  {| store := {| connection_requests := [jane_accepted]; messages := [];
                 activity_log := [] |};
     log := [] |}.

(** C3, at the failing input.  With a delay of 4097 hours and the clock one
    nanosecond short of it, the elapsed time is less than the delay, yet
    [Duration.Hours] rounds 4096 + 3599999999999/3.6e12 up to the float64
    4097, the comparison [<] with float64(4097) fails, and [SendMessages]
    sends and persists the follow-up message. *)
Theorem dwell_guard_rounds_up_at_4097_hours :
  gotime.Since just_before_4097h examples.tuesday_10h = 4097 * gotime.Hour - 1
  /\ gotime.Since just_before_4097h examples.tuesday_10h
     < DelayAfterConnectionHours (Messaging cfg_delay_4097) * gotime.Hour
  /\ gotime.Hours (4097 * gotime.Hour - 1) = gotime.float64_of_int 4097
  /\ accepted_too_recently cfg_delay_4097 just_before_4097h examples.tuesday_10h = false
  /\ (let '(s', sent, err) :=
        SendMessages cfg_delay_4097 None (fun _ => examples.message_world just_before_4097h)
                     state_jane_accepted in
      sent = 1 /\ err = None
      /\ map Message.ProfileURL (messages (store s')) = [examples.url_jane]
      /\ log s' = [LogStarting; LogFound 1; LogSending examples.url_jane;
                   LogSent 1 1; LogTotal 1]).
Proof. vm_compute. repeat split. Qed.

(** The same one nanosecond before a delay of 5000 hours and of a year. *)
Example dwell_guard_rounds_up_beyond_4097_hours :
  let t := examples.tuesday_10h in
  accepted_too_recently
    (examples.cfg_with (examples.limits 10 20 10 50) 5000 examples.weekdays 9 18)
    (t + 5000 * gotime.Hour - 1) t = false
  /\ accepted_too_recently
       (examples.cfg_with (examples.limits 10 20 10 50) 8760 examples.weekdays 9 18)
       (t + 8760 * gotime.Hour - 1) t = false.
Proof. vm_compute. split; reflexivity. Qed.

(** An accepted request without acceptance timestamp, as an insert with
    status 'accepted' leaves it, is messaged by [SendMessages] at once, the
    delay of 24 hours notwithstanding. *)
Example SendMessages_absent_acceptedAt :
  let s0 := {| store := fst (SaveConnectionRequest storage.empty
                               (examples.request 0 examples.url_jane "accepted" 0 None)
                               examples.tuesday_10h None);
               log := [] |} in
  let '(s', sent, err) :=
    SendMessages examples.cfg0 None
                 (fun _ => examples.message_world (examples.tuesday_10h + 1)) s0 in
  map ConnectionRequest.AcceptedAt (connection_requests (store s0)) = [None]
  /\ sent = 1 /\ err = None
  /\ map Message.ProfileURL (messages (store s')) = [examples.url_jane].
Proof. vm_compute. repeat split. Qed.

End DwellGuard.

(** * Further properties of the code *)

(** ** The store under its writes *)
Section StoreWrites.
Import storage.

(** The four writes of the tables of [Storage], each with the
    CURRENT_TIMESTAMP it runs at and the answer of the driver. *)
Inductive StoreOp :=
| DoSaveRequest (req : ConnectionRequest.t) (db_now : Z) (drv : option string)
| DoSaveMessage (msg : Message.t) (db_now : Z) (drv : option string)
| DoLogActivity (actionType targetURL outcome errorMessage : string)
                (db_now : Z) (drv : option string)
| DoUpdateStatus (profileURL status : string) (db_now : Z) (drv : option string).

Definition apply_store_op (st : Storage) (op : StoreOp) : Storage :=
  match op with
  | DoSaveRequest req t drv => fst (SaveConnectionRequest st req t drv)
  | DoSaveMessage msg t drv => fst (SaveMessage st msg t drv)
  | DoLogActivity a u o e t drv => fst (LogActivity st a u o e t drv)
  | DoUpdateStatus u s t drv => fst (UpdateConnectionStatus st u s t drv)
  end.

Definition run_store_ops (ops : list StoreOp) (st : Storage) : Storage :=
  fold_left apply_store_op ops st.

(** [st'] holds everything [st] holds: the activity events and the messages
    of [st] unchanged and first, and the connection requests of [st] with
    their keys and URLs, in their order. *)
Definition extends (st st' : Storage) : Prop :=
  (exists new, activity_log st' = activity_log st ++ new)
  /\ (exists new, messages st' = messages st ++ new)
  /\ (exists new,
         map (fun r => (ConnectionRequest.ID r, ConnectionRequest.ProfileURL r))
             (connection_requests st')
         = map (fun r => (ConnectionRequest.ID r, ConnectionRequest.ProfileURL r))
               (connection_requests st) ++ new).

(** The keys of a table are 1, 2, ..., in the order of the rows. *)
Definition keys_in_sequence {A} (key : A -> Z) (rows : list A) : Prop :=
  map key rows = map Z.of_nat (seq 1 (List.length rows)).

Definition well_keyed (st : Storage) : Prop :=
  keys_in_sequence ConnectionRequest.ID (connection_requests st)
  /\ keys_in_sequence Message.ID (messages st)
  /\ keys_in_sequence Activity.ID (activity_log st).

Lemma extends_refl (st : Storage) : extends st st.
Proof. repeat split; exists []; now rewrite app_nil_r. Qed.

Lemma extends_trans (a b c : Storage) : extends a b -> extends b c -> extends a c.
Proof.
  intros ((x1 & H1) & (y1 & H2) & (z1 & H3)) ((x2 & H4) & (y2 & H5) & (z2 & H6)).
  repeat split.
  - exists (x1 ++ x2). now rewrite H4, H1, app_assoc.
  - exists (y1 ++ y2). now rewrite H5, H2, app_assoc.
  - exists (z1 ++ z2). now rewrite H6, H3, app_assoc.
Qed.

Lemma keys_in_sequence_snoc {A} (key : A -> Z) (rows : list A) (row : A) :
  keys_in_sequence key rows -> key row = next_id rows ->
  keys_in_sequence key (rows ++ [row]).
Proof.
  unfold keys_in_sequence, next_id. intros H Hk.
  rewrite map_app, length_app, seq_app, map_app, H. cbn. f_equal. rewrite Hk. f_equal. lia.
Qed.

Lemma update_row_key_url (u s : string) (t : Z) (r : ConnectionRequest.t) :
  ConnectionRequest.ID (update_row u s t r) = ConnectionRequest.ID r
  /\ ConnectionRequest.ProfileURL (update_row u s t r) = ConnectionRequest.ProfileURL r.
Proof.
  unfold update_row. destruct (String.eqb _ u); split; reflexivity.
Qed.

Lemma apply_store_op_extends (st : Storage) (op : StoreOp) :
  extends st (apply_store_op st op)
  /\ (well_keyed st -> well_keyed (apply_store_op st op)).
Proof.
  destruct op as [req t [e|] | msg t [e|] | a u o e t [e'|] | u s t [e|]]; cbn;
    try (split; [apply extends_refl | auto]; fail).
  - split.
    + repeat split; cbn; try (exists []; now rewrite app_nil_r).
      rewrite map_app. eexists; reflexivity.
    + intros (H1 & H2 & H3). repeat split; cbn; auto.
      now apply keys_in_sequence_snoc.
  - split.
    + repeat split; cbn; try (exists []; now rewrite app_nil_r). eexists; reflexivity.
    + intros (H1 & H2 & H3). repeat split; cbn; auto.
      now apply keys_in_sequence_snoc.
  - split.
    + repeat split; cbn; try (exists []; now rewrite app_nil_r). eexists; reflexivity.
    + intros (H1 & H2 & H3). repeat split; cbn; auto.
      now apply keys_in_sequence_snoc.
  - assert (Hk : forall (f : ConnectionRequest.t -> Z * string) l,
               (forall r, f (update_row u s t r) = f r) ->
               map f (map (update_row u s t) l) = map f l).
    { intros f l Hf. rewrite map_map. apply map_ext. exact Hf. }
    split.
    + repeat split; cbn; try (exists []; now rewrite app_nil_r).
      exists []. rewrite app_nil_r. apply Hk.
      intros r. destruct (update_row_key_url u s t r) as [-> ->]. reflexivity.
    + intros (H1 & H2 & H3). repeat split; cbn; auto.
      unfold keys_in_sequence in *. rewrite length_map, map_map, <- H1.
      apply map_ext. intros r. apply update_row_key_url.
Qed.

Lemma run_store_ops_extends (ops : list StoreOp) (st : Storage) :
  extends st (run_store_ops ops st).
Proof.
  unfold run_store_ops. revert st. induction ops as [|op ops IH]; intros st.
  { apply extends_refl. }
  cbn [fold_left]. eapply extends_trans; [apply apply_store_op_extends | apply IH].
Qed.

Lemma run_store_ops_well_keyed (ops : list StoreOp) (st : Storage) :
  well_keyed st -> well_keyed (run_store_ops ops st).
Proof.
  unfold run_store_ops. revert st. induction ops as [|op ops IH]; intros st Hk.
  { exact Hk. }
  cbn [fold_left]. apply IH. now apply apply_store_op_extends.
Qed.

(** X1.  No write of the store ever removes or rewrites an activity event or
    a message, and no write removes a connection request or changes its key
    or its URL: after every sequence of SaveConnectionRequest, SaveMessage,
    LogActivity and UpdateConnectionStatus, failed or not, the old events
    and messages are still there, unchanged and first, and the old requests
    are still there under their keys and URLs; keys that count 1, 2, ...
    keep doing so. *)
Theorem store_is_append_only (ops : list StoreOp) (st : Storage) :
  extends st (run_store_ops ops st)
  /\ (well_keyed st -> well_keyed (run_store_ops ops st)).
Proof.
  split; [apply run_store_ops_extends | apply run_store_ops_well_keyed].
Qed.

End StoreWrites.

(** ** Inserts, updates and the queries that read them *)
Section StoreQueries.
Import storage.

(** The rows [GetAcceptedConnections] returns when the driver answers. *)
Definition accepted_connections (st : Storage) : list ConnectionRequest.t :=
  order_by_accepted_at_desc (filter (accepted_not_messaged st) (connection_requests st)).

Lemma GetAcceptedConnections_answers (st : Storage) :
  GetAcceptedConnections st None = Ok (accepted_connections st).
Proof. reflexivity. Qed.

Lemma In_insert_desc (x c : ConnectionRequest.t) (l : list ConnectionRequest.t) :
  In x (insert_desc c l) <-> x = c \/ In x l.
Proof.
  induction l as [|d l IH]; cbn.
  - intuition congruence.
  - destruct (accepted_at_geb _ _); cbn; rewrite ?IH; intuition congruence.
Qed.

Lemma In_order_by (x : ConnectionRequest.t) (l : list ConnectionRequest.t) :
  In x (order_by_accepted_at_desc l) <-> In x l.
Proof.
  unfold order_by_accepted_at_desc. rewrite (in_rev l).
  induction (rev l) as [|c l' IH]; cbn; [tauto|].
  rewrite In_insert_desc, IH. intuition congruence.
Qed.

Lemma In_accepted_connections (st : Storage) (c : ConnectionRequest.t) :
  In c (accepted_connections st)
  <-> In c (connection_requests st)
      /\ ConnectionRequest.Status c = "accepted"
      /\ forall m, In m (messages st) ->
                   Message.ProfileURL m <> ConnectionRequest.ProfileURL c.
Proof.
  unfold accepted_connections. rewrite In_order_by, filter_In.
  unfold accepted_not_messaged. rewrite andb_true_iff, negb_true_iff.
  rewrite String.eqb_eq.
  split; intros (Hin & Hs & Hm); (split; [exact Hin|]; split; [exact Hs|]).
  - intros m Hmi E.
    assert (existsb (fun m0 => String.eqb (ConnectionRequest.ProfileURL c)
                                          (Message.ProfileURL m0)) (messages st) = true).
    { apply existsb_exists. exists m. split; [exact Hmi|]. now apply String.eqb_eq. }
    congruence.
  - destruct (existsb _ (messages st)) eqn:E; [|reflexivity].
    apply existsb_exists in E. destruct E as (m & Hmi & E).
    apply String.eqb_eq in E. exfalso. now apply (Hm m Hmi).
Qed.

(** X2.  Once a message to a profile URL is persisted, no later call of
    [GetAcceptedConnections] returns a connection of that URL, whatever is
    written to the store afterwards: a messaged connection is not offered
    for a follow-up again, also not when it is set to accepted anew. *)
Theorem messaged_connection_is_not_offered_again
        (st : Storage) (msg : Message.t) (db_now : Z) (ops : list StoreOp)
        (conns : list ConnectionRequest.t) (c : ConnectionRequest.t) :
  GetAcceptedConnections (run_store_ops ops (fst (SaveMessage st msg db_now None))) None
  = Ok conns ->
  In c conns ->
  ConnectionRequest.ProfileURL c <> Message.ProfileURL msg.
Proof.
  rewrite GetAcceptedConnections_answers. intros [= <-] Hin E.
  apply In_accepted_connections in Hin. destruct Hin as (_ & _ & Hm).
  destruct (run_store_ops_extends ops (fst (SaveMessage st msg db_now None)))
    as (_ & (new & Hmsgs) & _).
  assert (Hsent : exists m, In m (messages (run_store_ops ops
                                             (fst (SaveMessage st msg db_now None))))
                            /\ Message.ProfileURL m = Message.ProfileURL msg).
  { eexists. split.
    - rewrite Hmsgs. apply in_or_app. left. apply in_or_app. right. left. reflexivity.
    - reflexivity. }
  destruct Hsent as (m & Hmi & Hmu). apply (Hm m Hmi). congruence.
Qed.

(** X3.  A connection request whose INSERT went through is found by
    [IsConnectionSent] under its URL, and under no URL that was not found
    before.  To a later daily count of connections it adds one exactly when
    the date of the call on the wall clock of the host is the UTC date of
    the insert; to a later hourly count it adds one exactly when the UTC
    second of the insert is after the second, on the wall clock of the
    host, of one hour before the call; a count whose query fails is 0
    with the new row as without it; the counts of messages do not change.
    A failed INSERT changes neither the lookups nor the counts. *)
Theorem saved_request_is_seen_and_counted
        (st : Storage) (req : ConnectionRequest.t) (db_now : Z) :
  let st' := fst (SaveConnectionRequest st req db_now None) in
  let sent_at := CURRENT_TIMESTAMP db_now in
  IsConnectionSent st' (ConnectionRequest.ProfileURL req) None = (true, None)
  /\ (forall u, u <> ConnectionRequest.ProfileURL req ->
                IsConnectionSent st' u None = IsConnectionSent st u None)
  /\ (forall c,
         ConnectionsSent (GetTodayStats st' c)
         = match connections_scan_err c with
           | Some _ => 0
           | None =>
               ConnectionsSent (GetTodayStats st c)
               + (if gotime.same_date sent_at (at_instant c + zone_offset c)
                  then 1 else 0)
           end)
  /\ (forall c,
         ConnectionsSent (GetHourlyStats st' c)
         = match connections_scan_err c with
           | Some _ => 0
           | None =>
               ConnectionsSent (GetHourlyStats st c)
               + (if (at_instant c - gotime.Hour + zone_offset c) / gotime.Second
                     <? sent_at / gotime.Second
                  then 1 else 0)
           end)
  /\ (forall c, MessagesSent (GetTodayStats st' c) = MessagesSent (GetTodayStats st c)
                /\ MessagesSent (GetHourlyStats st' c)
                   = MessagesSent (GetHourlyStats st c))
  /\ (forall e, fst (SaveConnectionRequest st req db_now (Some e)) = st).
Proof.
  intros st' sent_at.
  assert (Hrows : connection_requests st'
                  = connection_requests st
                    ++ [{| ConnectionRequest.ID := next_id (connection_requests st);
                           ConnectionRequest.ProfileID := ConnectionRequest.ProfileID req;
                           ConnectionRequest.ProfileURL := ConnectionRequest.ProfileURL req;
                           ConnectionRequest.SentAt := sent_at;
                           ConnectionRequest.Note := ConnectionRequest.Note req;
                           ConnectionRequest.Status := ConnectionRequest.Status req;
                           ConnectionRequest.AcceptedAt := None |}]) by reflexivity.
  assert (Hcount : forall p, count_if p (connection_requests st')
                             = count_if p (connection_requests st)
                               + (if p (last (connection_requests st') req) then 1 else 0)).
  { intros p. unfold count_if. rewrite Hrows, last_last, filter_app, length_app. cbn [filter].
    destruct (p _); cbn [List.length]; lia. }
  assert (Hlast : last (connection_requests st') req
                  = {| ConnectionRequest.ID := next_id (connection_requests st);
                       ConnectionRequest.ProfileID := ConnectionRequest.ProfileID req;
                       ConnectionRequest.ProfileURL := ConnectionRequest.ProfileURL req;
                       ConnectionRequest.SentAt := sent_at;
                       ConnectionRequest.Note := ConnectionRequest.Note req;
                       ConnectionRequest.Status := ConnectionRequest.Status req;
                       ConnectionRequest.AcceptedAt := None |}).
  { rewrite Hrows. apply last_last. }
  split; [|split; [|split; [|split; [|split]]]].
  - unfold IsConnectionSent. f_equal. apply Z.ltb_lt.
    pose proof (count_requests_snoc st st' _ (ConnectionRequest.ProfileURL req) Hrows) as H.
    cbn [ConnectionRequest.ProfileURL] in H. rewrite String.eqb_refl in H.
    pose proof (count_requests_nonneg st (ConnectionRequest.ProfileURL req)). lia.
  - intros u Hu. unfold IsConnectionSent. f_equal.
    rewrite (count_requests_snoc st st' _ u Hrows). cbn [ConnectionRequest.ProfileURL].
    destruct (String.eqb_spec (ConnectionRequest.ProfileURL req) u); [congruence|].
    now rewrite Z.add_0_r.
  - intros c. cbn [GetTodayStats ConnectionsSent]. rewrite Hcount, Hlast.
    destruct (connections_scan_err c); reflexivity.
  - intros c. cbn [GetHourlyStats ConnectionsSent]. rewrite Hcount, Hlast.
    cbn [ConnectionRequest.SentAt]. unfold gotime.Add, not_before_text.
    replace (at_instant c + -1 * gotime.Hour) with (at_instant c - gotime.Hour) by lia.
    destruct (connections_scan_err c); reflexivity.
  - intros c. split; reflexivity.
  - reflexivity.
Qed.

(** X4.  [UpdateConnectionStatus] and the next [GetAcceptedConnections]:
    after an update of a URL to 'accepted', every request of that URL is
    offered for a follow-up with the time of this update as its acceptance
    time, also when it had been accepted earlier, unless a message to the
    URL exists; after an update to any other status none of them is
    offered; and a request of another URL is offered exactly when it was
    offered before. *)
Theorem status_update_decides_follow_up
        (st : Storage) (profileURL status : string) (db_now : Z) :
  let st' := fst (UpdateConnectionStatus st profileURL status db_now None) in
  (status = "accepted" ->
   (forall m, In m (messages st) -> Message.ProfileURL m <> profileURL) ->
   forall r, In r (connection_requests st) ->
             ConnectionRequest.ProfileURL r = profileURL ->
             exists c, In c (accepted_connections st')
                       /\ ConnectionRequest.ID c = ConnectionRequest.ID r
                       /\ ConnectionRequest.ProfileURL c = profileURL
                       /\ ConnectionRequest.AcceptedAt c = Some (CURRENT_TIMESTAMP db_now))
  /\ (status <> "accepted" ->
      forall c, In c (accepted_connections st') ->
                ConnectionRequest.ProfileURL c <> profileURL)
  /\ (forall c, ConnectionRequest.ProfileURL c <> profileURL ->
                (In c (accepted_connections st') <-> In c (accepted_connections st))).
Proof.
  intros st'.
  assert (Hrows : connection_requests st'
                  = map (update_row profileURL status db_now) (connection_requests st))
    by reflexivity.
  assert (Hmsgs : messages st' = messages st) by reflexivity.
  split; [|split].
  - intros -> Hnomsg r Hin Hurl.
    exists (update_row profileURL "accepted" db_now r).
    destruct (update_row_cases profileURL "accepted" db_now r)
      as [Hu [(_ & Hs & [[_ Hat] | [Hne _]]) | (Hne & _)]];
      try congruence.
    destruct (update_row_key_url profileURL "accepted" db_now r) as [Hid _].
    split; [|split; [exact Hid|split; [congruence|exact Hat]]].
    apply In_accepted_connections. split; [|split].
    + rewrite Hrows. now apply in_map.
    + exact Hs.
    + rewrite Hmsgs, Hu, Hurl. exact Hnomsg.
  - intros Hne c Hin Hurl. apply In_accepted_connections in Hin.
    destruct Hin as (Hin & Hs & _). rewrite Hrows in Hin.
    apply in_map_iff in Hin. destruct Hin as (r & <- & _).
    destruct (update_row_cases profileURL status db_now r)
      as [Hu [(_ & Hst & _) | (Hr & _)]]; congruence.
  - intros c Hc. rewrite !In_accepted_connections, Hmsgs, Hrows, in_map_iff.
    split.
    + intros ((r & <- & Hin) & Hrest).
      destruct (update_row_cases profileURL status db_now r)
        as [Hu [(Hr & _) | (_ & Heq)]]; [congruence|].
      rewrite Heq in *. split; assumption.
    + intros (Hin & Hrest). split; [|exact Hrest].
      exists c. split; [|exact Hin].
      destruct (update_row_cases profileURL status db_now c)
        as [Hu [(Hr & _) | (_ & Heq)]]; [congruence | exact Heq].
Qed.

End StoreQueries.

Section StoreQueryChecks.
Import storage examples.

(** X2, witness: a message to Jane, then her request set to accepted. *)
Lemma messaged_connection_is_not_offered_again_witness :
  GetAcceptedConnections
    (run_store_ops [DoUpdateStatus url_jane "accepted" tuesday_10h None]
       (fst (SaveMessage (connect.store state_jane_requested)
                         (message_at 0 url_jane 0) tuesday_10h None))) None = Ok []
  /\ forall c, In c [] -> ConnectionRequest.ProfileURL c <> url_jane.
Proof.
  split; [reflexivity|]. intros c.
  exact (messaged_connection_is_not_offered_again
           (connect.store state_jane_requested) (message_at 0 url_jane 0) tuesday_10h
           [DoUpdateStatus url_jane "accepted" tuesday_10h None] [] c eq_refl).
Defined.

(** X4, witness: Jane's pending request is accepted on Tuesday at 10:00. *)
Lemma status_update_decides_follow_up_witness :
  map ConnectionRequest.AcceptedAt
      (accepted_connections
         (fst (UpdateConnectionStatus (connect.store state_jane_requested)
                                      url_jane "accepted" tuesday_10h None)))
  = [Some tuesday_10h]
  /\ exists c,
      In c (accepted_connections
              (fst (UpdateConnectionStatus (connect.store state_jane_requested)
                                           url_jane "accepted" tuesday_10h None)))
      /\ ConnectionRequest.ID c = 1.
Proof.
  split; [reflexivity|].
  destruct (proj1 (status_update_decides_follow_up
                     (connect.store state_jane_requested) url_jane "accepted" tuesday_10h)
                  eq_refl (fun m (H : In m []) => match H with end)
                  (request 1 url_jane "pending" (tuesday_10h - gotime.Day) None)
                  (or_introl eq_refl) eq_refl)
    as (c & Hin & Hid & _).
  exists c. split; [exact Hin | exact Hid].
Defined.

End StoreQueryChecks.

(** ** The connection phase as a whole *)
Section ConnectionPhaseTotals.
Import config storage connect.

Variable cfg : Config.
Variable w : nat -> World.

(** What a stretch of rounds adds to the store: [new] pending requests,
    one per request counted, each to a URL without a request before. *)
Definition adds_requests (profiles : list Profile.t) (s s' : State) (n : Z)
           (new : list ConnectionRequest.t) : Prop :=
  connection_requests (store s') = connection_requests (store s) ++ new
  /\ Z.of_nat (List.length new) = n
  /\ Forall (fun r => ConnectionRequest.Status r = "pending"
                      /\ ConnectionRequest.AcceptedAt r = None
                      /\ In (ConnectionRequest.ProfileURL r) (map Profile.ProfileURL profiles)
                      /\ count_requests (store s) (ConnectionRequest.ProfileURL r) = 0) new
  /\ NoDup (map ConnectionRequest.ProfileURL new)
  /\ messages (store s') = messages (store s)
  /\ exists events,
      activity_log (store s') = activity_log (store s) ++ events
      /\ Forall (fun a => Activity.ActionType a = "connection_request"
                          /\ In (Activity.TargetURL a) (map Profile.ProfileURL profiles))
                events.

Lemma rounds_add_requests (total : Z) (profiles : list Profile.t) :
  forall i s sent s' sent' err,
    rounds cfg w total i profiles s sent = (s', sent', err) ->
    exists new, adds_requests profiles s s' (sent' - sent) new.
Proof.
  induction profiles as [|profile rest IH]; intros i s sent s' sent' err; cbn [rounds].
  { intros [= <- <- <-]. exists []. unfold adds_requests. cbn.
    rewrite app_nil_r, Z.sub_diag. repeat split; try constructor.
    exists []. rewrite app_nil_r. split; constructor. }
  destruct (round cfg (w i) total profile s sent) as [[s1 sent1] fl] eqn:Hround.
  assert (Hstep : exists new1, adds_requests (profile :: rest) s s1 (sent1 - sent) new1
                               /\ (new1 = [] \/ exists row,
                                      new1 = [row]
                                      /\ ConnectionRequest.ProfileURL row
                                         = Profile.ProfileURL profile)).
  { apply round_cases in Hround. unfold adds_requests.
    destruct Hround as [ | | | | e s1 _ _ _ _ _ _ Hreq Hmsg Hact
                        | s0 s1 _ _ _ Hcount _ _ _ Hreq Hmsg Hact ];
      try (exists []; split; [|now left]; cbn; rewrite app_nil_r, Z.sub_diag;
           repeat split; try constructor; exists []; rewrite app_nil_r;
           split; constructor).
    - exists []. split; [|now left]. rewrite app_nil_r, Z.sub_diag.
      repeat split; try constructor; try assumption.
      rewrite Hact. unfold logged. destruct (log_err (w i)); eexists.
      + rewrite app_nil_r. split; [reflexivity | constructor].
      + split; [reflexivity|]; repeat constructor.
    - exists [pending_row (store s) (w i) profile].
      split; [|right; eexists; split; reflexivity].
      repeat split; try assumption; try (cbn; lia).
      + repeat constructor; cbn; auto.
      + cbn. repeat constructor. intros [].
      + rewrite Hact. unfold logged. destruct (log_err (w i)); eexists.
        * rewrite app_nil_r. split; [reflexivity | constructor].
        * split; [reflexivity|]; repeat constructor. }
  destruct Hstep as (new1 & (Hr1 & Hn1 & Hf1 & Hd1 & Hm1 & ev1 & Ha1 & He1) & Hshape).
  destruct fl.
  - intros Hrest. destruct (IH _ _ _ _ _ _ Hrest)
      as (new2 & Hr2 & Hn2 & Hf2 & Hd2 & Hm2 & ev2 & Ha2 & He2).
    exists (new1 ++ new2). unfold adds_requests. split; [|split; [|split; [|split; [|split]]]].
    + now rewrite Hr2, Hr1, app_assoc.
    + rewrite length_app. lia.
    + apply Forall_app. split; [exact Hf1|].
      eapply Forall_impl; [|exact Hf2]. cbn. intros r (Hs & Hat & Hin & Hc).
      split; [exact Hs|]. split; [exact Hat|]. split; [now right|].
      pose proof (count_requests_nonneg (store s) (ConnectionRequest.ProfileURL r)).
      destruct Hshape as [-> | (row & -> & Hrow)].
      * rewrite app_nil_r in Hr1. now rewrite <- (count_requests_same _ _ _ Hr1).
      * pose proof (count_requests_snoc _ _ _ (ConnectionRequest.ProfileURL r) Hr1) as E.
        destruct (String.eqb _ _) in E; lia.
    + destruct Hshape as [-> | (row & -> & Hrow)]; [exact Hd2|].
      cbn. constructor; [|exact Hd2]. intros Hin.
      apply in_map_iff in Hin. destruct Hin as (r & Hurl & Hin).
      rewrite Forall_forall in Hf2. destruct (Hf2 r Hin) as (_ & _ & _ & Hc).
      pose proof (count_requests_snoc _ _ _ (ConnectionRequest.ProfileURL r) Hr1) as E.
      rewrite Hurl, String.eqb_refl in E.
      pose proof (count_requests_nonneg (store s) (ConnectionRequest.ProfileURL row)).
      rewrite Hurl in Hc. lia.
    + congruence.
    + exists (ev1 ++ ev2). split; [now rewrite Ha2, Ha1, app_assoc|].
      apply Forall_app. split; [exact He1|].
      eapply Forall_impl; [|exact He2]. cbn. intros a (Hat & Hin). split; [exact Hat | now right].
  - intros [= <- <- <-]. exists new1. unfold adds_requests. cbn [store write_log].
    repeat split; try assumption. exists ev1. split; assumption.
  - intros [= <- <- <-]. exists new1. unfold adds_requests.
    repeat split; try assumption. exists ev1. split; assumption.
Qed.

(** X5.  The count [SendConnectionRequests] returns is the number of
    connection requests the phase persisted.  The phase only appends to the
    requests: pending ones without acceptance time, to URLs of the given
    profiles that had no request before, no URL twice.  It leaves the
    messages alone, and everything it adds to the activity log is a
    connection_request event of one of the profiles. *)
Theorem connection_phase_persists_what_it_counts
        (profiles : list Profile.t) (s s' : State) (sent : Z) (err : option string) :
  SendConnectionRequests cfg w profiles s = (s', sent, err) ->
  exists new, adds_requests profiles s s' sent new
              /\ 0 <= sent <= Z.of_nat (List.length profiles).
Proof.
  unfold SendConnectionRequests. intros Hrun.
  destruct (rounds_add_requests _ _ _ _ _ _ _ _ Hrun) as (new & H).
  rewrite Z.sub_0_r in H. exists new. split; [exact H|].
  destruct H as (_ & Hn & Hf & Hd & _).
  split; [lia|]. rewrite <- Hn.
  apply Nat2Z.inj_le. rewrite <- (length_map ConnectionRequest.ProfileURL new).
  rewrite <- (length_map Profile.ProfileURL profiles).
  apply NoDup_incl_length; [exact Hd|].
  intros u Hu. apply in_map_iff in Hu. destruct Hu as (r & <- & Hr).
  rewrite Forall_forall in Hf. now destruct (Hf r Hr) as (_ & _ & Hin & _).
Qed.

(** Every hourly query of the phase is answered and selects each request
    the phase persists: the UTC second of the row is after the second, on
    the wall clock of the host, of one hour before the query. *)
Definition hourly_queries_select_the_phase : Prop :=
  forall i j,
    connections_scan_err (now_hour (w i)) = None
    /\ not_before_text (now_hour (w i)) (at_instant (now_hour (w i)) - gotime.Hour)
                       (CURRENT_TIMESTAMP (save_now (w j))) = true.

(** Every daily query of the phase is answered and selects each request
    the phase persists: the UTC date of the row is the date of the query
    on the wall clock of the host. *)
Definition daily_queries_select_the_phase : Prop :=
  forall i j,
    connections_scan_err (now_today (w i)) = None
    /\ on_local_date (now_today (w i)) (CURRENT_TIMESTAMP (save_now (w j))) = true.

(** At every quota check of the phase the hourly, and the daily, count
    covers the [n] requests sent so far. *)
Definition counted_this_hour (s : State) (n : Z) : Prop :=
  forall i, n <= connections_last_hour (store s) (now_hour (w i)).

Definition counted_today (s : State) (n : Z) : Prop :=
  forall i, n <= connections_today (store s) (now_today (w i)).

Lemma rounds_respect_caps (total : Z) (profiles : list Profile.t) :
  forall i s sent s' sent' err,
    rounds cfg w total i profiles s sent = (s', sent', err) ->
    (hourly_queries_select_the_phase ->
     counted_this_hour s sent ->
     sent <= Z.max 0 (PerHour (Connections (RateLimits cfg))) ->
     sent' <= Z.max 0 (PerHour (Connections (RateLimits cfg))))
    /\ (daily_queries_select_the_phase ->
        counted_today s sent ->
        sent <= Z.max 0 (PerDay (Connections (RateLimits cfg))) ->
        sent' <= Z.max 0 (PerDay (Connections (RateLimits cfg)))).
Proof.
  induction profiles as [|profile rest IH]; intros i s sent s' sent' err; cbn [rounds].
  { intros [= <- <- <-]. split; auto. }
  destruct (round cfg (w i) total profile s sent) as [[s1 sent1] fl] eqn:Hround.
  assert (Hstep :
    (hourly_queries_select_the_phase ->
     counted_this_hour s sent ->
     sent <= Z.max 0 (PerHour (Connections (RateLimits cfg))) ->
     counted_this_hour s1 sent1
     /\ sent1 <= Z.max 0 (PerHour (Connections (RateLimits cfg))))
    /\ (daily_queries_select_the_phase ->
        counted_today s sent ->
        sent <= Z.max 0 (PerDay (Connections (RateLimits cfg))) ->
        counted_today s1 sent1
        /\ sent1 <= Z.max 0 (PerDay (Connections (RateLimits cfg))))).
  { apply round_cases in Hround.
    destruct Hround as [ | | | | e s1 _ _ _ _ _ _ Hreq _ _
                        | s0 s1 _ Hq _ _ _ _ _ Hreq _ _ ];
      try (split; intros; split; assumption).
    - split; intros Hw Hc Hle; (split; [|exact Hle]); intros k; specialize (Hc k).
      + unfold connections_last_hour in *. now rewrite Hreq.
      + unfold connections_today in *. now rewrite Hreq.
    - apply canSendConnection_true_iff in Hq. destruct Hq as [Hqh Hqd].
      split; intros Hw Hc Hle.
      + split.
        * intros k. specialize (Hc k). destruct (Hw k i) as [Hs Hsel].
          unfold connections_last_hour, count_if in *. rewrite Hs in *. cbn [scanned] in *.
          rewrite Hreq, filter_app, length_app. cbn [filter pending_row ConnectionRequest.SentAt].
          rewrite Hsel. cbn [List.length]. lia.
        * specialize (Hc i). lia.
      + split.
        * intros k. specialize (Hc k). destruct (Hw k i) as [Hs Hsel].
          unfold connections_today, count_if in *. rewrite Hs in *. cbn [scanned] in *.
          rewrite Hreq, filter_app, length_app. cbn [filter pending_row ConnectionRequest.SentAt].
          rewrite Hsel. cbn [List.length]. lia.
        * specialize (Hc i). lia. }
  destruct Hstep as [Hh Hd]. destruct fl.
  - intros Hrest. destruct (IH _ _ _ _ _ _ Hrest) as [IHh IHd].
    split; intros Hw Hc Hle.
    + destruct (Hh Hw Hc Hle). now apply IHh.
    + destruct (Hd Hw Hc Hle). now apply IHd.
  - intros [= <- <- <-]. split; intros Hw Hc Hle; [now destruct (Hh Hw Hc Hle)
                                                   | now destruct (Hd Hw Hc Hle)].
  - intros [= <- <- <-]. split; intros Hw Hc Hle; [now destruct (Hh Hw Hc Hle)
                                                   | now destruct (Hd Hw Hc Hle)].
Qed.

(** X6.  A connection phase each of whose hourly queries is answered and
    selects every request the phase persists sends at most the hourly cap
    of requests; one each of whose daily queries is answered and selects
    them sends at most the daily cap.  (A cap of zero or less lets nothing
    through.  On a host whose zone is UTC the queries select the requests
    of a phase that runs within one hour, and within one UTC day; on
    another host, or when a query fails, nothing bounds the phase: see
    [connection_phase_exceeds_cap_east_of_utc].) *)
Theorem connection_phase_respects_caps
        (profiles : list Profile.t) (s s' : State) (sent : Z) (err : option string) :
  SendConnectionRequests cfg w profiles s = (s', sent, err) ->
  (hourly_queries_select_the_phase ->
   sent <= Z.max 0 (PerHour (Connections (RateLimits cfg))))
  /\ (daily_queries_select_the_phase ->
      sent <= Z.max 0 (PerDay (Connections (RateLimits cfg)))).
Proof.
  unfold SendConnectionRequests. intros Hrun.
  destruct (rounds_respect_caps _ _ _ _ _ _ _ _ Hrun) as [Hh Hd].
  split; intros Hw.
  - apply Hh; [exact Hw | | lia].
    intros i. apply scanned_nonneg.
  - apply Hd; [exact Hw | | lia].
    intros i. apply scanned_nonneg.
Qed.

End ConnectionPhaseTotals.

Section ConnectionPhaseChecks.
Import config storage connect examples.

(** X5, witness: Jane and Bob on an empty database, nothing failing. *)
Lemma connection_phase_persists_what_it_counts_witness :
  snd (fst (SendConnectionRequests cfg0 (fun _ => world_quiet) [jane; bob] state_fresh)) = 2
  /\ Z.of_nat (List.length
                 (connection_requests
                    (store (fst (fst (SendConnectionRequests
                                        cfg0 (fun _ => world_quiet) [jane; bob]
                                        state_fresh)))))) = 2.
Proof.
  split; [reflexivity|].
  destruct (SendConnectionRequests cfg0 (fun _ => world_quiet) [jane; bob] state_fresh)
    as [[s' sent] err] eqn:Hrun.
  destruct (connection_phase_persists_what_it_counts _ _ _ _ _ _ _ Hrun)
    as (new & (Hreq & Hn & _) & _).
  cbn [fst store] in *. rewrite Hreq. cbn [state_fresh store connection_requests storage.empty app].
  rewrite Hn. now injection Hrun as _ <- _.
Defined.

(** X6, witness: the same two profiles under an hourly cap of 1. *)
Lemma connection_phase_respects_caps_witness :
  PerHour (Connections (RateLimits cfg_hourly_cap_one)) = 1
  /\ snd (fst (SendConnectionRequests cfg_hourly_cap_one (fun _ => world_quiet) [jane; bob]
                                      state_fresh)) <= 1.
Proof.
  split; [reflexivity|].
  destruct (SendConnectionRequests cfg_hourly_cap_one (fun _ => world_quiet) [jane; bob]
                                   state_fresh)
    as [[s' sent] err] eqn:Hrun.
  refine (proj1 (connection_phase_respects_caps _ _ _ _ _ _ _ Hrun) _).
  intros i j. split; reflexivity.
Defined.

(** The quiet round on a host whose wall clock is two hours ahead of UTC. *)
Definition world_east_of_utc : connect.World :=
  {| connect.ctx_done := false;
     connect.now_today := on_host_east_of_utc tuesday_10h;
     connect.now_hour := on_host_east_of_utc tuesday_10h;
     connect.is_sent_err := None; connect.navigate_err := None;
     connect.connect_button_err := None; connect.click_connect_err := None;
     connect.add_note_err := None; connect.click_send_err := None;
     connect.send_now := tuesday_10h; connect.save_now := tuesday_10h;
     connect.save_err := None; connect.log_now := tuesday_10h;
     connect.log_err := None |}.

(** The quiet round on a host whose zone is UTC, with the count queries
    failing. *)
Definition world_locked_database : connect.World :=
  {| connect.ctx_done := false;
     connect.now_today := on_locked_database tuesday_10h;
     connect.now_hour := on_locked_database tuesday_10h;
     connect.is_sent_err := None; connect.navigate_err := None;
     connect.connect_button_err := None; connect.click_connect_err := None;
     connect.add_note_err := None; connect.click_send_err := None;
     connect.send_now := tuesday_10h; connect.save_now := tuesday_10h;
     connect.save_err := None; connect.log_now := tuesday_10h;
     connect.log_err := None |}.

(** Without the selection nothing bounds the phase: under an hourly cap of
    1, two hours east of UTC or with the count queries failing, Jane and
    Bob are both sent a request within the same second. *)
Example connection_phase_exceeds_cap_east_of_utc :
  snd (fst (SendConnectionRequests cfg_hourly_cap_one (fun _ => world_east_of_utc)
                                   [jane; bob] state_fresh)) = 2
  /\ snd (fst (SendConnectionRequests cfg_hourly_cap_one (fun _ => world_locked_database)
                                      [jane; bob] state_fresh)) = 2.
Proof. split; vm_compute; reflexivity. Qed.

End ConnectionPhaseChecks.

(** ** The message phase as a whole *)
Section MessagePhaseTotals.
Import config storage message.

Variable cfg : Config.
Variable w : nat -> World.

(** The guard on the acceptance time lets [conn] through at the clock [now]. *)
Definition dwell_guard_passed (now : Z) (conn : ConnectionRequest.t) : Prop :=
  match ConnectionRequest.AcceptedAt conn with
  | Some acceptedAt => accepted_too_recently cfg now acceptedAt = false
  | None => True
  end.

(** What one round of [SendMessages] does to the store and the count. *)
Lemma message_round_effect (wi : World) (total : Z) (conn : ConnectionRequest.t)
      (s : State) (sent : Z) (s' : State) (sent' : Z) (fl : Flow) :
  round cfg wi total conn s sent = (s', sent', fl) ->
  connection_requests (store s') = connection_requests (store s)
  /\ (exists events,
         activity_log (store s') = activity_log (store s) ++ events
         /\ Forall (fun a => Activity.ActionType a = "message"
                             /\ Activity.TargetURL a = ConnectionRequest.ProfileURL conn)
                   events)
  /\ ((messages (store s') = messages (store s) /\ sent' = sent)
      \/ (ctx_done wi = false
          /\ canSendMessage cfg (store s) (now_today wi) (now_hour wi) = true
          /\ dwell_guard_passed (now_since wi) conn
          /\ messages (store s') = messages (store s) ++ [message_row (store s) wi conn]
          /\ sent' = sent + 1 /\ fl = Continue)).
Proof.
  assert (Hnone : forall l, connection_requests (store (write_log l s))
                            = connection_requests (store s)
    /\ (exists events,
           activity_log (store (write_log l s)) = activity_log (store s) ++ events
           /\ Forall (fun a => Activity.ActionType a = "message"
                               /\ Activity.TargetURL a = ConnectionRequest.ProfileURL conn)
                     events)
    /\ ((messages (store (write_log l s)) = messages (store s) /\ sent = sent)
        \/ (ctx_done wi = false
            /\ canSendMessage cfg (store s) (now_today wi) (now_hour wi) = true
            /\ dwell_guard_passed (now_since wi) conn
            /\ messages (store (write_log l s))
               = messages (store s) ++ [message_row (store s) wi conn]
            /\ sent = sent + 1 /\ Continue = Continue))).
  { intros l. split; [reflexivity|]. split; [|now left].
    exists []. rewrite app_nil_r. split; [reflexivity | constructor]. }
  unfold round. destruct (ctx_done wi) eqn:Hctx.
  { intros [= <- <- <-]. destruct (Hnone LogCancelled) as (H1 & H2 & H3).
    split; [exact H1|]. split; [exact H2|]. now left. }
  destruct (canSendMessage cfg (store s) (now_today wi) (now_hour wi)) eqn:Hq; cbn [negb].
  2:{ intros [= <- <- <-]. destruct (Hnone LogRateLimit) as (H1 & H2 & H3).
      split; [exact H1|]. split; [exact H2|]. now left. }
  assert (Hsend : dwell_guard_passed (now_since wi) conn ->
                  send_and_count wi total conn s sent = (s', sent', fl) ->
    connection_requests (store s') = connection_requests (store s)
    /\ (exists events,
           activity_log (store s') = activity_log (store s) ++ events
           /\ Forall (fun a => Activity.ActionType a = "message"
                               /\ Activity.TargetURL a = ConnectionRequest.ProfileURL conn)
                     events)
    /\ ((messages (store s') = messages (store s) /\ sent' = sent)
        \/ (false = false /\ true = true
            /\ dwell_guard_passed (now_since wi) conn
            /\ messages (store s') = messages (store s) ++ [message_row (store s) wi conn]
            /\ sent' = sent + 1 /\ fl = Continue))).
  { intros Hg. unfold send_and_count, sendMessage. rewrite message_browser_send_eq.
    destruct (message_browser_err wi) as [e|]; cbn [and_then].
    - unfold LogActivity. destruct (log_err wi); intros [= <- <- <-]; cbn;
        (split; [reflexivity|]); (split; [|now left]); eexists.
      + rewrite app_nil_r. split; [reflexivity | constructor].
      + split; [reflexivity|]; repeat constructor.
    - unfold SaveMessage. destruct (save_err wi) as [e|]; cbn.
      + unfold LogActivity. destruct (log_err wi); intros [= <- <- <-]; cbn;
          (split; [reflexivity|]); (split; [|now left]); eexists.
        * rewrite app_nil_r. split; [reflexivity | constructor].
        * split; [reflexivity|]; repeat constructor.
      + unfold LogActivity. destruct (log_err wi); intros [= <- <- <-]; cbn;
          (split; [reflexivity|]);
          (split; [|right; repeat split; auto]); eexists.
        * rewrite app_nil_r. split; [reflexivity | constructor].
        * split; [reflexivity|]; repeat constructor. }
  unfold dwell_guard_passed in *.
  destruct (ConnectionRequest.AcceptedAt conn) as [t|].
  - destruct (accepted_too_recently cfg (now_since wi) t) eqn:Hg.
    + intros [= <- <- <-]. destruct (Hnone (LogTooRecent (ConnectionRequest.ProfileURL conn)))
        as (H1 & H2 & H3).
      split; [exact H1|]. split; [exact H2|]. now left.
    + now apply Hsend.
  - now apply Hsend.
Qed.

(** What a stretch of rounds over [connections] adds to the store: [new]
    messages with status 'sent', one per message counted, each to one of
    the connections, which the guard on the acceptance time let through. *)
Definition adds_messages (connections : list ConnectionRequest.t) (s s' : State) (n : Z)
           (new : list Message.t) : Prop :=
  messages (store s') = messages (store s) ++ new
  /\ Z.of_nat (List.length new) = n
  /\ Forall (fun m => Message.Status m = "sent"
                      /\ exists conn i,
                          In conn connections
                          /\ Message.ProfileURL m = ConnectionRequest.ProfileURL conn
                          /\ Message.ProfileID m = ConnectionRequest.ProfileID conn
                          /\ dwell_guard_passed (now_since (w i)) conn) new
  /\ connection_requests (store s') = connection_requests (store s)
  /\ exists events,
      activity_log (store s') = activity_log (store s) ++ events
      /\ Forall (fun a => Activity.ActionType a = "message") events.

Lemma rounds_add_messages (total : Z) (connections : list ConnectionRequest.t) :
  forall i s sent s' sent' err,
    rounds cfg w total i connections s sent = (s', sent', err) ->
    exists new, adds_messages connections s s' (sent' - sent) new
                /\ (List.length new <= List.length connections)%nat.
Proof.
  induction connections as [|conn rest IH]; intros i s sent s' sent' err; cbn [rounds].
  { intros [= <- <- <-]. exists []. unfold adds_messages. cbn.
    rewrite app_nil_r, Z.sub_diag. repeat split; try constructor.
    exists []. rewrite app_nil_r. split; constructor. }
  destruct (round cfg (w i) total conn s sent) as [[s1 sent1] fl] eqn:Hround.
  apply message_round_effect in Hround.
  destruct Hround as (Hreq1 & (ev1 & Ha1 & He1) & Hmsg1).
  assert (Hstep : exists new1,
             adds_messages (conn :: rest) s s1 (sent1 - sent) new1
             /\ (List.length new1 <= 1)%nat).
  { destruct Hmsg1 as [(Hm & ->) | (_ & _ & Hg & Hm & -> & _)].
    - exists []. split; [|cbn; lia]. unfold adds_messages.
      rewrite app_nil_r, Z.sub_diag. repeat split; try assumption; try constructor.
      exists ev1. split; [exact Ha1|]. eapply Forall_impl; [|exact He1]. now intros a [? _].
    - exists [message_row (store s) (w i) conn]. split; [|cbn; lia]. unfold adds_messages.
      repeat split; try assumption; try (cbn; lia).
      + repeat constructor. exists conn, i. repeat split; [now left | exact Hg].
      + exists ev1. split; [exact Ha1|]. eapply Forall_impl; [|exact He1]. now intros a [? _]. }
  destruct Hstep as (new1 & (Hm1 & Hn1 & Hf1 & Hr1 & ev1' & Ha1' & He1') & Hlen1).
  destruct fl.
  - intros Hrest. destruct (IH _ _ _ _ _ _ Hrest)
      as (new2 & (Hm2 & Hn2 & Hf2 & Hr2 & ev2 & Ha2 & He2) & Hlen2).
    exists (new1 ++ new2). split; [|rewrite length_app; cbn; lia]. unfold adds_messages.
    split; [|split; [|split; [|split]]].
    + now rewrite Hm2, Hm1, app_assoc.
    + rewrite length_app. lia.
    + apply Forall_app. split; [exact Hf1|].
      eapply Forall_impl; [|exact Hf2]. cbn.
      intros m (Hs & c & k & Hin & Hrest'). split; [exact Hs|].
      exists c, k. split; [now right | exact Hrest'].
    + congruence.
    + exists (ev1' ++ ev2). split; [now rewrite Ha2, Ha1', app_assoc|].
      apply Forall_app. now split.
  - intros [= <- <- <-]. exists new1. split; [|cbn; lia]. unfold adds_messages.
    cbn [store write_log]. repeat split; try assumption. exists ev1'. now split.
  - intros [= <- <- <-]. exists new1. split; [|cbn; lia]. unfold adds_messages.
    repeat split; try assumption. exists ev1'. now split.
Qed.

(** X7.  The count [SendMessages] returns is the number of messages the
    phase persisted.  Every one of them has status 'sent' and goes to a
    connection request of the store that was accepted, had no message yet
    and, when it carries an acceptance time, was let through by the guard
    on that time at some round's clock.  The phase leaves the connection
    requests alone and adds only message events to the activity log.  With
    messaging disabled, or when the query for the accepted connections
    fails, it changes nothing in the store and sends nothing. *)
Theorem message_phase_persists_what_it_counts
        (get_err : option string) (s s' : State) (sent : Z) (err : option string) :
  SendMessages cfg get_err w s = (s', sent, err) ->
  (exists new,
      adds_messages (filter (fun c => String.eqb (ConnectionRequest.Status c) "accepted")
                            (connection_requests (store s)))
                    s s' sent new
      /\ Forall (fun m => forall m0, In m0 (messages (store s)) ->
                                     Message.ProfileURL m0 <> Message.ProfileURL m) new)
  /\ (Enabled (Messaging cfg) = false \/ get_err <> None -> store s' = store s /\ sent = 0).
Proof.
  unfold SendMessages. destruct (Enabled (Messaging cfg)) eqn:Hen; cbn [negb].
  2:{ intros [= <- <- <-]. split; [|now split].
      exists []. split; [|constructor]. unfold adds_messages. cbn. rewrite app_nil_r.
      repeat split; try constructor. exists []. rewrite app_nil_r. split; constructor. }
  destruct get_err as [e|]; cbn [GetAcceptedConnections].
  { intros [= <- <- <-]. split; [|now split].
    exists []. split; [|constructor]. unfold adds_messages. cbn. rewrite app_nil_r.
    repeat split; try constructor. exists []. rewrite app_nil_r. split; constructor. }
  fold (accepted_connections (store (write_log LogStarting s))).
  set (conns := accepted_connections (store (write_log LogStarting s))).
  assert (Hconns : forall c, In c conns ->
             In c (filter (fun c => String.eqb (ConnectionRequest.Status c) "accepted")
                          (connection_requests (store s)))
             /\ forall m0, In m0 (messages (store s)) ->
                           Message.ProfileURL m0 <> ConnectionRequest.ProfileURL c).
  { intros c Hin. apply In_accepted_connections in Hin. destruct Hin as (Hin & Hs & Hm).
    split; [|exact Hm]. apply filter_In. split; [exact Hin | now apply String.eqb_eq]. }
  destruct (Nat.eqb_spec (List.length conns) 0) as [E|E].
  { intros [= <- <- <-]. split; [|intros [|]; congruence].
    exists []. split; [|constructor]. unfold adds_messages. cbn. rewrite app_nil_r.
    repeat split; try constructor. exists []. rewrite app_nil_r. split; constructor. }
  intros Hrun. split; [|intros [|]; congruence].
  destruct (rounds_add_messages _ _ _ _ _ _ _ _ Hrun)
    as (new & (Hm & Hn & Hf & Hr & ev & Ha & He) & _).
  rewrite Z.sub_0_r in Hn. exists new. split.
  - unfold adds_messages. split; [exact Hm|]. split; [exact Hn|]. split.
    + eapply Forall_impl; [|exact Hf]. cbn. intros m (Hs & c & i & Hin & Hrest).
      split; [exact Hs|]. exists c, i. split; [now apply Hconns | exact Hrest].
    + split; [exact Hr|]. exists ev. now split.
  - rewrite Forall_forall in *. intros m Hin m0 Hm0.
    destruct (Hf m Hin) as (_ & c & i & Hc & -> & _). now apply (Hconns c Hc).
Qed.

End MessagePhaseTotals.

Section MessagePhaseCaps.
Import config storage message.

Variable cfg : Config.
Variable w : nat -> World.

(** Every hourly query of the phase is answered and selects each message
    the phase persists: the UTC second of the row is after the second, on
    the wall clock of the host, of one hour before the query. *)
Definition hourly_queries_select_the_messages : Prop :=
  forall i j,
    messages_scan_err (now_hour (w i)) = None
    /\ not_before_text (now_hour (w i)) (at_instant (now_hour (w i)) - gotime.Hour)
                       (CURRENT_TIMESTAMP (save_now (w j))) = true.

(** Every daily query of the phase is answered and selects each message
    the phase persists: the UTC date of the row is the date of the query
    on the wall clock of the host. *)
Definition daily_queries_select_the_messages : Prop :=
  forall i j,
    messages_scan_err (now_today (w i)) = None
    /\ on_local_date (now_today (w i)) (CURRENT_TIMESTAMP (save_now (w j))) = true.

Lemma message_rounds_respect_caps (total : Z) (connections : list ConnectionRequest.t) :
  forall i s sent s' sent' err,
    rounds cfg w total i connections s sent = (s', sent', err) ->
    (hourly_queries_select_the_messages ->
     (forall k, sent <= messages_last_hour (store s) (now_hour (w k))) ->
     sent <= Z.max 0 (PerHour (Messages (RateLimits cfg))) ->
     sent' <= Z.max 0 (PerHour (Messages (RateLimits cfg))))
    /\ (daily_queries_select_the_messages ->
        (forall k, sent <= messages_today (store s) (now_today (w k))) ->
        sent <= Z.max 0 (PerDay (Messages (RateLimits cfg))) ->
        sent' <= Z.max 0 (PerDay (Messages (RateLimits cfg)))).
Proof.
  induction connections as [|conn rest IH]; intros i s sent s' sent' err; cbn [rounds].
  { intros [= <- <- <-]. split; auto. }
  destruct (round cfg (w i) total conn s sent) as [[s1 sent1] fl] eqn:Hround.
  apply (message_round_effect cfg) in Hround. destruct Hround as (_ & _ & Hmsg).
  assert (Hstep :
    (hourly_queries_select_the_messages ->
     (forall k, sent <= messages_last_hour (store s) (now_hour (w k))) ->
     sent <= Z.max 0 (PerHour (Messages (RateLimits cfg))) ->
     (forall k, sent1 <= messages_last_hour (store s1) (now_hour (w k)))
     /\ sent1 <= Z.max 0 (PerHour (Messages (RateLimits cfg))))
    /\ (daily_queries_select_the_messages ->
        (forall k, sent <= messages_today (store s) (now_today (w k))) ->
        sent <= Z.max 0 (PerDay (Messages (RateLimits cfg))) ->
        (forall k, sent1 <= messages_today (store s1) (now_today (w k)))
        /\ sent1 <= Z.max 0 (PerDay (Messages (RateLimits cfg))))).
  { destruct Hmsg as [(Hm & ->) | (_ & Hq & _ & Hm & -> & _)].
    - split; intros Hw Hc Hle; (split; [|exact Hle]); intros k; specialize (Hc k).
      + unfold messages_last_hour in *. now rewrite Hm.
      + unfold messages_today in *. now rewrite Hm.
    - apply canSendMessage_true_iff in Hq. destruct Hq as [Hqh Hqd].
      split; intros Hw Hc Hle.
      + split.
        * intros k. specialize (Hc k). destruct (Hw k i) as [Hs Hsel].
          unfold messages_last_hour, count_if in *. rewrite Hs in *. cbn [scanned] in *.
          rewrite Hm, filter_app, length_app. cbn [filter message_row Message.SentAt].
          rewrite Hsel. cbn [List.length]. lia.
        * specialize (Hc i). lia.
      + split.
        * intros k. specialize (Hc k). destruct (Hw k i) as [Hs Hsel].
          unfold messages_today, count_if in *. rewrite Hs in *. cbn [scanned] in *.
          rewrite Hm, filter_app, length_app. cbn [filter message_row Message.SentAt].
          rewrite Hsel. cbn [List.length]. lia.
        * specialize (Hc i). lia. }
  destruct Hstep as [Hh Hd]. destruct fl.
  - intros Hrest. destruct (IH _ _ _ _ _ _ Hrest) as [IHh IHd].
    split; intros Hw Hc Hle.
    + destruct (Hh Hw Hc Hle). now apply IHh.
    + destruct (Hd Hw Hc Hle). now apply IHd.
  - intros [= <- <- <-]. split; intros Hw Hc Hle; [now destruct (Hh Hw Hc Hle)
                                                   | now destruct (Hd Hw Hc Hle)].
  - intros [= <- <- <-]. split; intros Hw Hc Hle; [now destruct (Hh Hw Hc Hle)
                                                   | now destruct (Hd Hw Hc Hle)].
Qed.

(** X8.  A message phase each of whose hourly queries is answered and
    selects every message the phase persists sends at most the hourly cap
    of messages; one each of whose daily queries is answered and selects
    them sends at most the daily cap.  (On a host whose zone is UTC the
    queries select the messages of a phase that runs within one hour, and
    within one UTC day; on another host, or when a query fails, nothing
    bounds the phase: see [message_phase_exceeds_cap_east_of_utc].) *)
Theorem message_phase_respects_caps
        (get_err : option string) (s s' : State) (sent : Z) (err : option string) :
  SendMessages cfg get_err w s = (s', sent, err) ->
  (hourly_queries_select_the_messages ->
   sent <= Z.max 0 (PerHour (Messages (RateLimits cfg))))
  /\ (daily_queries_select_the_messages ->
      sent <= Z.max 0 (PerDay (Messages (RateLimits cfg)))).
Proof.
  unfold SendMessages. destruct (negb (Enabled (Messaging cfg))).
  { intros [= <- <- <-]. split; intros _; lia. }
  destruct (GetAcceptedConnections _ get_err) as [conns|e].
  2:{ intros [= <- <- <-]. split; intros _; lia. }
  destruct (Nat.eqb (List.length conns) 0).
  { intros [= <- <- <-]. split; intros _; lia. }
  intros Hrun. destruct (message_rounds_respect_caps _ _ _ _ _ _ _ _ Hrun) as [Hh Hd].
  split; intros Hw.
  - apply Hh; [exact Hw | | lia]. intros k. apply scanned_nonneg.
  - apply Hd; [exact Hw | | lia]. intros k. apply scanned_nonneg.
Qed.

End MessagePhaseCaps.

Section MessagePhaseChecks.
Import config storage message examples.

(** Jane's and Bob's requests, both accepted on Monday at 10:00, no message yet. *)
Definition state_two_accepted : State :=
  {| store := {| connection_requests :=
                   [request 1 url_jane "accepted" 0 (Some (tuesday_10h - gotime.Day));
                    request 2 url_bob "accepted" 0 (Some (tuesday_10h - gotime.Day))];
                 messages := []; activity_log := [] |};
     log := [] |}.

(** X7, witness: both follow-ups are due on Tuesday at 10:00 and go out. *)
Lemma message_phase_persists_what_it_counts_witness :
  snd (fst (SendMessages cfg0 None (fun _ => message_world tuesday_10h) state_two_accepted))
  = 2
  /\ Z.of_nat (List.length
                 (messages (store (fst (fst (SendMessages
                                               cfg0 None (fun _ => message_world tuesday_10h)
                                               state_two_accepted)))))) = 2.
Proof.
  split; [reflexivity|].
  destruct (SendMessages cfg0 None (fun _ => message_world tuesday_10h) state_two_accepted)
    as [[s' sent] err] eqn:Hrun.
  destruct (proj1 (message_phase_persists_what_it_counts _ _ _ _ _ _ _ Hrun))
    as (new & (Hm & Hn & _) & _).
  cbn [fst store] in *. rewrite Hm. cbn [state_two_accepted store messages app].
  rewrite Hn. now injection Hrun as _ <- _.
Defined.

(** X8, witness: the same two follow-ups under an hourly cap of 1 message. *)
Lemma message_phase_respects_caps_witness :
  PerHour (Messages (RateLimits (examples.cfg (limits 10 20 1 50)))) = 1
  /\ snd (fst (SendMessages (examples.cfg (limits 10 20 1 50)) None
                            (fun _ => message_world tuesday_10h) state_two_accepted)) <= 1.
Proof.
  split; [reflexivity|].
  destruct (SendMessages (examples.cfg (limits 10 20 1 50)) None
                         (fun _ => message_world tuesday_10h) state_two_accepted)
    as [[s' sent] err] eqn:Hrun.
  refine (proj1 (message_phase_respects_caps _ _ _ _ _ _ _ Hrun) _).
  intros i j. split; reflexivity.
Defined.

(** The quiet round of the message phase at [now], with the statistics
    meeting [call]. *)
Definition message_world_on (call : StatsCall) (now : Z) : World :=
  {| ctx_done := false; now_today := call; now_hour := call; now_since := now;
     navigate_err := None; message_box_err := None; message_box_alt_err := None;
     messageContent := "Thanks for connecting! Looking forward to staying in touch.";
     click_box_err := None; type_err := None;
     send_button_err := None; click_send_err := None;
     send_now := now; save_now := now; save_err := None;
     log_now := now; log_err := None |}.

(** Without the selection nothing bounds the phase: under an hourly cap of
    1 message, two hours east of UTC or with the count queries failing,
    both follow-ups go out within the same second. *)
Example message_phase_exceeds_cap_east_of_utc :
  snd (fst (SendMessages (examples.cfg (limits 10 20 1 50)) None
              (fun _ => message_world_on (on_host_east_of_utc tuesday_10h) tuesday_10h)
              state_two_accepted)) = 2
  /\ snd (fst (SendMessages (examples.cfg (limits 10 20 1 50)) None
                 (fun _ => message_world_on (on_locked_database tuesday_10h) tuesday_10h)
                 state_two_accepted)) = 2.
Proof. split; vm_compute; reflexivity. Qed.

End MessagePhaseChecks.

(** ** The scheduler beyond the next run time *)

Lemma Weekday_range (t : Z) : 0 <= gotime.Weekday t < 7.
Proof. unfold gotime.Weekday. apply Z.mod_pos_bound. lia. Qed.


Section SchedulerMore.
Import config scheduler.

(** [cfg] with other active hours. *)
Definition with_hours (startHour endHour : Z) (cfg : Config) : Config :=
  {| Browser := Browser cfg; Stealth := Stealth cfg; RateLimits := RateLimits cfg;
     Connection := Connection cfg; Messaging := Messaging cfg;
     Scheduling := {| ActiveHours := {| Start := startHour; End_ := endHour |};
                      ActiveDays := ActiveDays (Scheduling cfg);
                      Timezone := Timezone (Scheduling cfg) |};
     config.Storage := config.Storage cfg; LinkedIn := LinkedIn cfg |}.

Variable cfg : Config.

Let startHour : Z := Start (ActiveHours (Scheduling cfg)).
Let endHour : Z := End_ (ActiveHours (Scheduling cfg)).

(** X9.  The window whose end hour is before its start hour is the
    overnight one: it is active exactly when the day window between the two
    hours, taken the other way round, is not.  A window whose start and end
    hour coincide is never active, and with it [ShouldRun] never holds. *)
Theorem overnight_window_is_complement (t : Z) :
  (Start (ActiveHours (Scheduling cfg)) <> End_ (ActiveHours (Scheduling cfg)) ->
   isActiveHour (with_hours (End_ (ActiveHours (Scheduling cfg)))
                            (Start (ActiveHours (Scheduling cfg))) cfg) t
   = negb (isActiveHour cfg t))
  /\ (Start (ActiveHours (Scheduling cfg)) = End_ (ActiveHours (Scheduling cfg)) ->
      isActiveHour cfg t = false /\ ShouldRun cfg t = false).
Proof.
  unfold ShouldRun, isActiveHour. cbn. fold startHour endHour. split.
  - intros Hne.
    destruct (Z.ltb_spec startHour endHour), (Z.ltb_spec endHour startHour); try lia;
      destruct (Z.leb_spec startHour (gotime.HourOf t)),
               (Z.leb_spec endHour (gotime.HourOf t)),
               (Z.ltb_spec (gotime.HourOf t) startHour),
               (Z.ltb_spec (gotime.HourOf t) endHour); try lia; reflexivity.
  - intros <-. rewrite Z.ltb_irrefl.
    assert (E : (startHour <=? gotime.HourOf t) && (gotime.HourOf t <? startHour) = false).
    { destruct (Z.leb_spec startHour (gotime.HourOf t)),
               (Z.ltb_spec (gotime.HourOf t) startHour); try lia; reflexivity. }
    rewrite E. split; [reflexivity|]. destruct (isActiveDay cfg t); reflexivity.
Qed.



(** X12.  [IsBusinessHours] is the more conservative check its comment says
    it is for every configuration whose active days include Monday to
    Friday and whose day window covers 9 to 17: whenever it holds,
    [ShouldRun] holds. *)
Theorem business_hours_imply_should_run (t : Z) :
  (forall u, 1 <= gotime.Weekday u <= 5 -> isActiveDay cfg u = true) ->
  Start (ActiveHours (Scheduling cfg)) <= 9 ->
  17 <= End_ (ActiveHours (Scheduling cfg)) ->
  IsBusinessHours t = true ->
  ShouldRun cfg t = true.
Proof.
  intros Hdays Hs He. unfold IsBusinessHours, ShouldRun, isActiveHour.
  fold startHour endHour.
  pose proof (Weekday_range t) as Hw.
  destruct (Z.eqb_spec (gotime.Weekday t) 6); [discriminate|].
  destruct (Z.eqb_spec (gotime.Weekday t) 0); [discriminate|]. cbn [orb].
  intros Hh. apply andb_prop in Hh. destruct Hh as [H9 H17].
  apply Z.leb_le in H9. apply Z.ltb_lt in H17.
  rewrite Hdays by lia. cbn [negb].
  destruct (Z.ltb_spec endHour startHour); [subst startHour endHour; lia|].
  destruct (Z.leb_spec startHour (gotime.HourOf t)),
           (Z.ltb_spec (gotime.HourOf t) endHour);
    try reflexivity; subst startHour endHour; lia.
Qed.

End SchedulerMore.

(** ** Waiting and breaks *)
Section SchedulerWaits.
Import config scheduler.

Variable cfg : Config.



(** X14.  The break hours against the active hours.  In a day window the
    active hours flagged for a break are hour 12 and the last hour of the
    window.  In an overnight window (end hour before start hour) every
    hour from the start hour to midnight is flagged. *)
Theorem break_hours_within_the_window (t : Z) :
  int_range (End_ (ActiveHours (Scheduling cfg)) - 1) ->
  isActiveHour cfg t = true ->
  (Start (ActiveHours (Scheduling cfg)) <= End_ (ActiveHours (Scheduling cfg)) ->
   (ShouldTakeBreak cfg t = true <->
    gotime.HourOf t = 12
    \/ gotime.HourOf t = End_ (ActiveHours (Scheduling cfg)) - 1))
  /\ (End_ (ActiveHours (Scheduling cfg)) < Start (ActiveHours (Scheduling cfg)) ->
      Start (ActiveHours (Scheduling cfg)) <= gotime.HourOf t ->
      ShouldTakeBreak cfg t = true).
Proof.
  intros Hrange. unfold isActiveHour, ShouldTakeBreak.
  rewrite (wrap64_small _ Hrange).
  set (s := Start (ActiveHours (Scheduling cfg))).
  set (e := End_ (ActiveHours (Scheduling cfg))).
  set (h := gotime.HourOf t).
  intros Hact. split.
  - intros Hse. destruct (Z.ltb_spec e s); [lia|].
    apply andb_prop in Hact. destruct Hact as [H1 H2].
    apply Z.leb_le in H1. apply Z.ltb_lt in H2.
    destruct (Z.eqb_spec h 12); [split; [now left | reflexivity]|].
    destruct (Z.leb_spec (e - 1) h); split; try reflexivity.
    + intros _. right. lia.
    + discriminate.
    + intros [|]; lia.
  - intros Hes Hsh. destruct (Z.eqb_spec h 12); [reflexivity|].
    destruct (Z.leb_spec (e - 1) h); [reflexivity | lia].
Qed.

(** X15.  The break at the end of the day is empty.  In the last hour of
    a day window on an active day [ShouldTakeBreak] asks for a break, and
    unless that hour is 12 [GetBreakDuration] answers zero, because the
    last hour still is an active one. *)
Theorem end_of_day_break_is_empty (now now_unix now0 now1 now2 now3 : Z) :
  int_range (End_ (ActiveHours (Scheduling cfg)) - 1) ->
  Start (ActiveHours (Scheduling cfg)) < End_ (ActiveHours (Scheduling cfg)) ->
  gotime.HourOf now = End_ (ActiveHours (Scheduling cfg)) - 1 ->
  gotime.HourOf now0 = End_ (ActiveHours (Scheduling cfg)) - 1 ->
  End_ (ActiveHours (Scheduling cfg)) <> 13 ->
  isActiveDay cfg now0 = true ->
  ShouldTakeBreak cfg now = true
  /\ GetBreakDuration cfg now now_unix now0 now1 now2 now3 = 0.
Proof.
  intros Hrange Hse Hh Hh0 H13 Hday.
  unfold ShouldTakeBreak, GetBreakDuration, GetTimeUntilNextActiveHour.
  rewrite (wrap64_small _ Hrange), Hh.
  assert (Hrun : ShouldRun cfg now0 = true).
  { unfold ShouldRun, isActiveHour. rewrite Hday, Hh0. cbn [negb].
    destruct (Z.ltb_spec (End_ (ActiveHours (Scheduling cfg)))
                         (Start (ActiveHours (Scheduling cfg)))); [lia|].
    destruct (Z.leb_spec (Start (ActiveHours (Scheduling cfg)))
                         (End_ (ActiveHours (Scheduling cfg)) - 1)); [|lia].
    destruct (Z.ltb_spec (End_ (ActiveHours (Scheduling cfg)) - 1)
                         (End_ (ActiveHours (Scheduling cfg)))); [reflexivity|lia]. }
  rewrite Hrun.
  destruct (Z.eqb_spec (End_ (ActiveHours (Scheduling cfg)) - 1) 12); [lia|].
  rewrite Z.leb_refl. split; reflexivity.
Qed.

(** X16.  The lunch break.  At hour 12 the break lasts a whole number of
    minutes from 30 to 59, whatever the schedule, for every clock reading
    that is not before 1970. *)
Theorem lunch_break_lasts_30_to_59_minutes (now now_unix now0 now1 now2 now3 : Z) :
  gotime.HourOf now = 12 ->
  0 <= now_unix ->
  exists m,
    30 <= m <= 59
    /\ GetBreakDuration cfg now now_unix now0 now1 now2 now3 = m * gotime.Minute.
Proof.
  intros Hh Hu. unfold GetBreakDuration. rewrite Hh, Z.eqb_refl.
  assert (H0 : 0 <= gotime.Unix now_unix)
    by (unfold gotime.Unix; apply Z.div_pos; [exact Hu | reflexivity]).
  pose proof (Z.rem_bound_pos (gotime.Unix now_unix) 30 H0 ltac:(lia)) as Hr.
  exists (30 + Z.rem (gotime.Unix now_unix) 30). split; [lia|].
  rewrite (wrap64_small (30 + _)) by (unfold int_range, MinInt64, MaxInt64; lia).
  apply wrap64_small. unfold int_range, MinInt64, MaxInt64, gotime.Minute, gotime.Second. lia.
Qed.

End SchedulerWaits.

(** *** The scheduler properties on the example configuration *)
Section SchedulerChecks.
Import config scheduler.

Definition tuesday_17h : Z := examples.tuesday_10h + 7 * gotime.Hour.
Definition tuesday_12h : Z := examples.tuesday_10h + 2 * gotime.Hour.


Lemma weekday_cases (t : Z) (P : Z -> Prop) :
  P 0 -> P 1 -> P 2 -> P 3 -> P 4 -> P 5 -> P 6 -> P (gotime.Weekday t).
Proof.
  intros H0 H1 H2 H3 H4 H5 H6. pose proof (Weekday_range t) as Hd.
  assert (E : gotime.Weekday t = 0 \/ gotime.Weekday t = 1 \/ gotime.Weekday t = 2
               \/ gotime.Weekday t = 3 \/ gotime.Weekday t = 4 \/ gotime.Weekday t = 5
               \/ gotime.Weekday t = 6) by lia.
  destruct E as [-> | [-> | [-> | [-> | [-> | [-> | ->]]]]]]; assumption.
Qed.

Lemma overnight_window_is_complement_witness :
  isActiveHour (with_hours 18 9 examples.cfg0) examples.tuesday_10h
  = negb (isActiveHour examples.cfg0 examples.tuesday_10h)
  /\ ShouldRun (with_hours 9 9 examples.cfg0) examples.tuesday_10h = false.
Proof.
  split.
  - apply (proj1 (overnight_window_is_complement examples.cfg0 examples.tuesday_10h)).
    intros H; discriminate H.
  - apply (proj2 (overnight_window_is_complement
                    (with_hours 9 9 examples.cfg0) examples.tuesday_10h)).
    reflexivity.
Defined.



Lemma business_hours_imply_should_run_witness :
  IsBusinessHours examples.tuesday_10h = true
  /\ ShouldRun examples.cfg0 examples.tuesday_10h = true.
Proof.
  split; [reflexivity|].
  apply (business_hours_imply_should_run examples.cfg0 examples.tuesday_10h).
  - intros u. apply (weekday_cases u (fun d =>
        1 <= d <= 5 ->
        existsb (fun day => String.eqb (strings.ToLower day)
                   (strings.ToLower (gotime.WeekdayString d))) examples.weekdays = true));
      intros [Hlo Hhi]; solve [reflexivity | exfalso; apply Hlo; reflexivity
                              | exfalso; apply Hhi; reflexivity].
  - apply Z.leb_le. reflexivity.
  - apply Z.leb_le. reflexivity.
  - reflexivity.
Defined.


Lemma break_hours_within_the_window_witness :
  isActiveHour examples.cfg0 tuesday_17h = true
  /\ (ShouldTakeBreak examples.cfg0 tuesday_17h = true <->
      gotime.HourOf tuesday_17h = 12 \/ gotime.HourOf tuesday_17h = 18 - 1).
Proof.
  split; [reflexivity|].
  apply (proj1 (break_hours_within_the_window examples.cfg0 tuesday_17h
                  (conj (proj1 (Z.leb_le MinInt64 17) eq_refl)
                        (proj1 (Z.leb_le 17 MaxInt64) eq_refl))
                  eq_refl)).
  apply Z.leb_le. reflexivity.
Defined.

Lemma end_of_day_break_is_empty_witness :
  isActiveDay examples.cfg0 tuesday_17h = true
  /\ ShouldTakeBreak examples.cfg0 tuesday_17h = true
  /\ GetBreakDuration examples.cfg0 tuesday_17h tuesday_17h tuesday_17h
                      tuesday_17h tuesday_17h tuesday_17h = 0.
Proof.
  split; [reflexivity|].
  apply (end_of_day_break_is_empty examples.cfg0).
  - split; apply Z.leb_le; reflexivity.
  - apply Z.ltb_lt. reflexivity.
  - reflexivity.
  - reflexivity.
  - intros H; discriminate H.
  - reflexivity.
Defined.

Lemma lunch_break_lasts_30_to_59_minutes_witness :
  gotime.HourOf tuesday_12h = 12
  /\ exists m, 30 <= m <= 59
       /\ GetBreakDuration examples.cfg0 tuesday_12h tuesday_12h tuesday_12h
                           tuesday_12h tuesday_12h tuesday_12h = m * gotime.Minute.
Proof.
  split; [reflexivity|].
  apply (lunch_break_lasts_30_to_59_minutes examples.cfg0).
  - reflexivity.
  - apply Z.leb_le. reflexivity.
Defined.

End SchedulerChecks.

(** ** Clicks and idle breaks *)

(** [cfg] with other idle break settings. *)
Definition with_idle_break (ib : config.IdleBreakConfig) (cfg : config.Config)
  : config.Config :=
  let st := config.Stealth cfg in
  {| config.Browser := config.Browser cfg;
     config.Stealth :=
       {| config.EnableMouseMovement := config.EnableMouseMovement st;
          config.EnableRandomScrolling := config.EnableRandomScrolling st;
          config.EnableHumanTyping := config.EnableHumanTyping st;
          config.EnableMouseHovering := config.EnableMouseHovering st;
          config.EnableIdleBreaks := config.EnableIdleBreaks st;
          config.ActionDelay := config.ActionDelay st;
          config.ScrollDelay := config.ScrollDelay st;
          config.TypingDelay := config.TypingDelay st;
          config.ThinkTime := config.ThinkTime st;
          config.IdleBreak := ib |};
     config.RateLimits := config.RateLimits cfg;
     config.Connection := config.Connection cfg;
     config.Messaging := config.Messaging cfg;
     config.Scheduling := config.Scheduling cfg;
     config.Storage := config.Storage cfg;
     config.LinkedIn := config.LinkedIn cfg |}.

Section IdleBreaks.
Import config stealth.

Variable cfg : Config.

Let frequency : Z := FrequencyActions (IdleBreak (Stealth cfg)).
Let minSeconds : Z := MinDurationSeconds (IdleBreak (Stealth cfg)).
Let maxSeconds : Z := MaxDurationSeconds (IdleBreak (Stealth cfg)).

(** The browser lets the click through. *)
Definition clicked (w : Click) : bool :=
  match shape_err w, quads w, click_err w with
  | None, quad :: _, None => (6 <=? quad)%nat
  | _, _, _ => false
  end.

(** A series of [HumanClick] calls on one [Stealth] value, the calls that
    return an error included: the counter after the last one and the
    breaks taken, oldest first; [None] when a call panics. *)
Fixpoint click_series (ws : list Click) (actionCount : Z) : option (Z * list Z) :=
  match ws with
  | [] => Some (actionCount, [])
  | w :: rest =>
    match HumanClick cfg w actionCount with
    | Panicked => None
    | Failed _ => click_series rest actionCount
    | Done (actionCount, idle) =>
      match click_series rest actionCount with
      | None => None
      | Some (final, breaks) =>
        Some (final, match idle with Some d => d :: breaks | None => breaks end)
      end
    end
  end.

Definition clicks_done (ws : list Click) : Z :=
  Z.of_nat (List.length (filter clicked ws)).

(** A quad too short for the centre of the element. *)
Definition short_quad (w : Click) : bool :=
  match shape_err w, quads w with
  | None, quad :: _ => (quad <? 6)%nat
  | _, _ => false
  end.

Lemma HumanClick_cases (w : Click) (count : Z) :
  short_quad w = false ->
  (clicked w = false /\ exists e, HumanClick cfg w count = Failed e)
  \/ (clicked w = true
      /\ HumanClick cfg w count
         = match MaybeIdleBreak cfg (break_src w) (wrap64 (count + 1)) with
           | None => Panicked
           | Some r => Done r
           end).
Proof.
  unfold short_quad, clicked, HumanClick.
  destruct (shape_err w); [intros _; left; split; [reflexivity | eexists; reflexivity]|].
  destruct (quads w) as [|quad qs];
    [intros _; left; split; [reflexivity | eexists; reflexivity]|].
  intros Hq. rewrite Hq.
  destruct (click_err w); [left; split; [reflexivity | eexists; reflexivity]|].
  right. split; [|reflexivity].
  apply Nat.leb_le. apply Nat.ltb_ge in Hq. exact Hq.
Qed.

Lemma click_series_counts (ws : list Click) :
  EnableIdleBreaks (Stealth cfg) = true ->
  1 <= frequency <= MaxInt64 ->
  0 <= minSeconds < maxSeconds ->
  maxSeconds <= 9223372036 ->
  Forall (fun w => short_quad w = false) ws ->
  forall count,
    0 <= count < frequency ->
    exists final breaks,
      click_series ws count = Some (final, breaks)
      /\ final = (count + clicks_done ws) mod frequency
      /\ Z.of_nat (List.length breaks) = (count + clicks_done ws) / frequency
      /\ Forall (fun d => exists seconds,
                     minSeconds <= seconds < maxSeconds
                     /\ d = seconds * gotime.Second) breaks.
Proof.
  intros Hen Hf Hband Hmax Hquads.
  induction Hquads as [|w ws Hq _ IH]; intros count Hc.
  { exists count, []. cbn. unfold clicks_done. cbn.
    rewrite Z.add_0_r, Z.mod_small, Z.div_small by lia. repeat split; constructor. }
  cbn [click_series]. unfold clicks_done. cbn [filter].
  destruct (HumanClick_cases w count Hq) as [(Hno & e & ->) | (Hyes & ->)]; rewrite ?Hno, ?Hyes.
  { exact (IH count Hc). }
  cbn [List.length]. rewrite Nat2Z.inj_succ. fold (clicks_done ws).
  assert (Hw : wrap64 (count + 1) = count + 1)
    by (apply wrap64_small; unfold int_range, MinInt64, MaxInt64 in *; lia).
  unfold MaybeIdleBreak. rewrite Hen, Hw. cbn [negb]. fold frequency minSeconds maxSeconds.
  destruct (Z.leb_spec frequency (count + 1)) as [Hreach | Hbelow].
  - assert (count + 1 = frequency) as Hcf by lia.
    assert (Hd : wrap64 (maxSeconds - minSeconds) = maxSeconds - minSeconds)
      by (apply wrap64_small; unfold int_range, MinInt64, MaxInt64; lia).
    unfold rand.Intn. rewrite Hd.
    destruct (Z.leb_spec (maxSeconds - minSeconds) 0); [lia|].
    pose proof (Z.mod_pos_bound (break_src w) (maxSeconds - minSeconds) ltac:(lia)) as Hr.
    set (r := break_src w mod (maxSeconds - minSeconds)) in *.
    destruct (IH 0 ltac:(lia)) as (final & breaks & -> & Hfin & Hlen & Hall).
    eexists _, _. split; [reflexivity|].
    replace (count + Z.succ (clicks_done ws)) with (clicks_done ws + 1 * frequency) by lia.
    rewrite Z.mod_add, Z.div_add by lia. cbn [Z.add] in Hfin, Hlen.
    repeat split.
    + exact Hfin.
    + cbn [List.length]. rewrite Nat2Z.inj_succ. lia.
    + constructor; [|exact Hall]. exists (minSeconds + r). split; [lia|].
      rewrite (wrap64_small (minSeconds + r))
        by (unfold int_range, MinInt64, MaxInt64; lia).
      apply wrap64_small. unfold int_range, MinInt64, MaxInt64, gotime.Second. lia.
  - destruct (IH (count + 1) ltac:(lia)) as (final & breaks & -> & Hfin & Hlen & Hall).
    eexists _, _. split; [reflexivity|].
    replace (count + Z.succ (clicks_done ws)) with (count + 1 + clicks_done ws) by lia.
    repeat split; assumption.
Qed.

(** X17.  The click counter and the idle breaks.  With idle breaks enabled
    every [frequency_actions] clicks that went through, counted over the
    life of the [Stealth] value, are followed by one break: after a series
    of [HumanClick] calls the number of breaks is the quotient and the
    counter the remainder of the clicks done by the frequency; a click
    that returns an error counts for nothing.  Each break lasts a whole
    number of seconds from the minimum up to, but not including, the
    maximum duration.  (The shapes the browser returns are taken to have
    the six coordinates the centre of the element is computed from.) *)
Theorem idle_break_after_every_frequency_clicks (ws : list Click) :
  EnableIdleBreaks (Stealth cfg) = true ->
  1 <= FrequencyActions (IdleBreak (Stealth cfg)) <= MaxInt64 ->
  0 <= MinDurationSeconds (IdleBreak (Stealth cfg))
    < MaxDurationSeconds (IdleBreak (Stealth cfg)) ->
  MaxDurationSeconds (IdleBreak (Stealth cfg)) <= 9223372036 ->
  Forall (fun w => short_quad w = false) ws ->
  exists final breaks,
    click_series ws 0 = Some (final, breaks)
    /\ final = clicks_done ws mod FrequencyActions (IdleBreak (Stealth cfg))
    /\ Z.of_nat (List.length breaks)
       = clicks_done ws / FrequencyActions (IdleBreak (Stealth cfg))
    /\ Forall (fun d => exists seconds,
                   MinDurationSeconds (IdleBreak (Stealth cfg)) <= seconds
                   /\ seconds < MaxDurationSeconds (IdleBreak (Stealth cfg))
                   /\ d = seconds * gotime.Second) breaks.
Proof.
  intros Hen Hf Hband Hmax Hquads.
  destruct (click_series_counts ws Hen Hf Hband Hmax Hquads 0 ltac:(fold frequency in Hf; lia))
    as (final & breaks & Hrun & Hfin & Hlen & Hall).
  exists final, breaks. cbn [Z.add] in Hfin, Hlen. repeat split; try assumption.
  eapply Forall_impl; [|exact Hall]. cbn. intros d (sec & Hs & ->).
  exists sec. subst minSeconds maxSeconds. repeat split; lia.
Qed.

(** X18.  An idle break whose maximum duration is not above its minimum
    duration cannot be drawn: with idle breaks enabled, the click that
    brings the counter to the frequency panics in [rand.Intn], and so does
    every series of calls in which such a click follows calls that
    returned an error.  [Validate] accepts or rejects a configuration
    whatever its idle break settings are. *)
Theorem idle_break_with_empty_band_panics (w : Click) (actionCount : Z) :
  EnableIdleBreaks (Stealth cfg) = true ->
  MaxDurationSeconds (IdleBreak (Stealth cfg))
  <= MinDurationSeconds (IdleBreak (Stealth cfg)) ->
  int_range (MaxDurationSeconds (IdleBreak (Stealth cfg))
             - MinDurationSeconds (IdleBreak (Stealth cfg))) ->
  clicked w = true ->
  FrequencyActions (IdleBreak (Stealth cfg)) <= wrap64 (actionCount + 1) ->
  HumanClick cfg w actionCount = Panicked
  /\ (forall before after,
         Forall (fun w => clicked w = false /\ short_quad w = false) before ->
         click_series (before ++ w :: after) actionCount = None)
  /\ (forall ib, Validate (with_idle_break ib cfg) = Validate cfg).
Proof.
  intros Hen Hband Hrange Hclicked Hreach.
  assert (Hpanic : HumanClick cfg w actionCount = Panicked).
  { assert (Hq : short_quad w = false).
    { unfold clicked in Hclicked. unfold short_quad.
      destruct (shape_err w); [reflexivity|].
      destruct (quads w) as [|quad qs]; [reflexivity|].
      destruct (click_err w); [discriminate|].
      apply Nat.leb_le in Hclicked. apply Nat.ltb_ge. exact Hclicked. }
    destruct (HumanClick_cases w actionCount Hq) as [(Hno & _) | (_ & ->)];
      [congruence|].
    unfold MaybeIdleBreak. rewrite Hen. cbn [negb].
    destruct (Z.leb_spec (FrequencyActions (IdleBreak (Stealth cfg)))
                         (wrap64 (actionCount + 1))); [|lia].
    unfold rand.Intn. rewrite (wrap64_small _ Hrange).
    destruct (Z.leb_spec (MaxDurationSeconds (IdleBreak (Stealth cfg))
                          - MinDurationSeconds (IdleBreak (Stealth cfg))) 0);
      [reflexivity | lia]. }
  split; [exact Hpanic|]. split; [|reflexivity].
  intros before after Hbefore. induction Hbefore as [|b before [Hb Hq] _ IH].
  - cbn. now rewrite Hpanic.
  - cbn [app click_series].
    destruct (HumanClick_cases b actionCount Hq) as [(_ & e & ->) | (Hyes & _)];
      [exact IH | congruence].
Qed.

End IdleBreaks.

(** *** The idle breaks on the example configuration *)
Section IdleBreakChecks.
Import config stealth.

Definition click_through : Click :=
  {| shape_err := None; quads := [8%nat]; click_err := None; break_src := 7 |}.

Definition click_refused : Click :=
  {| shape_err := None; quads := [8%nat]; click_err := Some "node is detached";
     break_src := 7 |}.

(** The example configuration with a break after every second click. *)
Definition cfg_break_every_2 : Config :=
  with_idle_break {| MinDurationSeconds := 60; MaxDurationSeconds := 300;
                     FrequencyActions := 2 |} examples.cfg0.

(** The example configuration with breaks of exactly one minute. *)
Definition cfg_break_one_minute : Config :=
  with_idle_break {| MinDurationSeconds := 60; MaxDurationSeconds := 60;
                     FrequencyActions := 2 |} examples.cfg0.

Lemma idle_break_after_every_frequency_clicks_witness :
  clicks_done [click_through; click_refused; click_through; click_through] = 3
  /\ exists final breaks,
      click_series cfg_break_every_2
                   [click_through; click_refused; click_through; click_through] 0
      = Some (final, breaks)
      /\ final = 3 mod 2
      /\ Z.of_nat (List.length breaks) = 3 / 2
      /\ Forall (fun d => exists seconds,
                     60 <= seconds /\ seconds < 300 /\ d = seconds * gotime.Second) breaks.
Proof.
  split; [reflexivity|].
  apply (idle_break_after_every_frequency_clicks cfg_break_every_2
           [click_through; click_refused; click_through; click_through]).
  - reflexivity.
  - split; apply Z.leb_le; reflexivity.
  - split; [apply Z.leb_le | apply Z.ltb_lt]; reflexivity.
  - apply Z.leb_le. reflexivity.
  - repeat constructor.
Defined.

Lemma idle_break_with_empty_band_panics_witness :
  Validate cfg_break_one_minute = None
  /\ HumanClick cfg_break_one_minute click_through 1 = Panicked.
Proof.
  split; [reflexivity|].
  apply (idle_break_with_empty_band_panics cfg_break_one_minute click_through 1).
  - reflexivity.
  - apply Z.leb_le. reflexivity.
  - split; apply Z.leb_le; reflexivity.
  - reflexivity.
  - apply Z.leb_le. reflexivity.
Defined.

End IdleBreakChecks.

(** ** Typing *)
Section Typing.
Import config stealth.

Variable cfg : Config.
Variable draws : nat -> KeyDraw.

Let minDelay : Z := Min (TypingDelay (Stealth cfg)).
Let maxDelay : Z := Max (TypingDelay (Stealth cfg)).

(** The content of a text field that takes every key, after the events,
    from the content [buffer]. *)
Fixpoint replay (events : list KeyEvent) (buffer : list Z) : list Z :=
  match events with
  | [] => buffer
  | Typed key :: rest => replay rest (buffer ++ [key])
  | PressedBackspace :: rest => replay rest (removelast buffer)
  | Slept _ :: rest => replay rest buffer
  | Inserted text :: rest => replay rest (buffer ++ map code text)
  end.

(** A pause of the typing delay: a number of milliseconds from the minimum
    up to, but not including, the maximum. *)
Definition typing_pause (d : Z) : Prop :=
  exists ms, d = ms * gotime.Millisecond /\ minDelay <= ms < maxDelay.

(** The events of a typo: a wrong key between 'a' and 'z', a pause of the
    typing delay, a backspace, and a pause of 100 up to 199 milliseconds. *)
Definition typo_events (es : list KeyEvent) : Prop :=
  exists wrong d ms,
    es = [Typed wrong; Slept d; PressedBackspace; Slept (ms * gotime.Millisecond)]
    /\ 97 <= wrong <= 122
    /\ typing_pause d
    /\ 100 <= ms < 200.

(** The events of one character of the text: at most one typo, then the
    key of the character and a pause of the typing delay. *)
Definition char_events (char : Rune) (es : list KeyEvent) : Prop :=
  exists mistake d,
    es = mistake ++ [Typed (code char); Slept d]
    /\ (mistake = [] \/ typo_events mistake)
    /\ typing_pause d.

(** The events are those of the characters of the text, one group after
    the other. *)
Definition typed_out (text : list Rune) (events : list KeyEvent) : Prop :=
  exists groups, events = List.concat groups /\ Forall2 char_events text groups.

Lemma replay_app (a b : list KeyEvent) (buffer : list Z) :
  replay (a ++ b) buffer = replay b (replay a buffer).
Proof.
  revert buffer. induction a as [|e a IH]; intros buffer; [reflexivity|].
  destruct e; cbn; apply IH.
Qed.

Lemma typing_delay_in_band (src : Z) :
  0 <= minDelay < maxDelay ->
  maxDelay <= 9223372036854 ->
  exists ms, typing_delay cfg src = Some (ms * gotime.Millisecond)
             /\ minDelay <= ms < maxDelay.
Proof.
  intros Hband Hmax. unfold typing_delay, rand.Intn. fold minDelay maxDelay.
  rewrite (wrap64_small (maxDelay - minDelay))
    by (unfold int_range, MinInt64, MaxInt64; lia).
  destruct (Z.leb_spec (maxDelay - minDelay) 0); [lia|].
  pose proof (Z.mod_pos_bound src (maxDelay - minDelay) ltac:(lia)) as Hr.
  set (r := src mod (maxDelay - minDelay)) in *.
  exists (minDelay + r). split; [|lia].
  rewrite (wrap64_small (minDelay + r)) by (unfold int_range, MinInt64, MaxInt64; lia).
  f_equal. apply wrap64_small.
  unfold int_range, MinInt64, MaxInt64, gotime.Millisecond. lia.
Qed.

Lemma typing_delay_empty_band (src : Z) :
  wrap64 (maxDelay - minDelay) <= 0 -> typing_delay cfg src = None.
Proof.
  intros H. unfold typing_delay, rand.Intn. fold minDelay maxDelay.
  destruct (Z.leb_spec (wrap64 (maxDelay - minDelay)) 0); [reflexivity | lia].
Qed.

Lemma type_loop_enters_the_text (length : Z) (text : list Rune) :
  0 <= minDelay < maxDelay ->
  maxDelay <= 9223372036854 ->
  forall i k,
  exists events,
    type_loop cfg draws length i k text = Some events
    /\ typed_out text events
    /\ (forall buffer, replay events buffer = buffer ++ map code text).
Proof.
  intros Hband Hmax. induction text as [|char rest IH]; intros i k.
  { exists []. cbn. split; [reflexivity|]. split.
    - exists []. split; [reflexivity | constructor].
    - intros buffer. now rewrite app_nil_r. }
  cbn [type_loop].
  destruct (typing_delay_in_band (key_delay_src (draws k)) Hband Hmax) as (ms & -> & Hms).
  destruct (IH (i + size char) (S k)) as (after & -> & (groups & -> & Hgroups) & Hre).
  assert (Hkey : typing_pause (ms * gotime.Millisecond))
    by (exists ms; split; [reflexivity | exact Hms]).
  destruct (typo (draws k) && (i <? length - 1)).
  - unfold rand.Intn at 1. cbn [Z.leb Z.compare].
    destruct (typing_delay_in_band (typo_delay_src (draws k)) Hband Hmax)
      as (ms1 & -> & Hms1).
    unfold rand.Intn. cbn [Z.leb Z.compare].
    pose proof (Z.mod_pos_bound (wrong_src (draws k)) 26 ltac:(lia)) as Hr1.
    pose proof (Z.mod_pos_bound (back_delay_src (draws k)) 100 ltac:(lia)) as Hr2.
    eexists. split; [reflexivity|]. split.
    + eexists (_ :: groups). split.
      * cbn [List.concat]. rewrite app_assoc. reflexivity.
      * constructor; [|exact Hgroups].
        eexists _, _. split; [reflexivity|]. split; [|exact Hkey].
        right. eexists _, _, _. split; [reflexivity|]. split; [lia|]. split; [|lia].
        exists ms1. split; [reflexivity | exact Hms1].
    + intros buffer. cbn [app replay]. rewrite removelast_last, Hre, <- app_assoc.
      reflexivity.
  - eexists. split; [reflexivity|]. split.
    + eexists (_ :: groups). split.
      * cbn [List.concat]. rewrite app_assoc. reflexivity.
      * constructor; [|exact Hgroups].
        eexists [], _. split; [reflexivity|]. split; [now left | exact Hkey].
    + intros buffer. cbn [app replay]. rewrite Hre, <- app_assoc. reflexivity.
Qed.

(** X19.  [HumanType] hands the text it is given to the keyboard.  With
    human typing enabled and a typing delay band that is not empty, a call
    whose click went through returns without error.  What it sends is, for
    each character of the text in turn: at most one typo (a wrong key
    between 'a' and 'z', a pause of the typing delay, a backspace, a pause
    of 100 up to 199 milliseconds), then the key of the character and a
    pause of the typing delay, which is a number of milliseconds from the
    minimum up to, but not including, the maximum.  In a field that takes
    every key, these keys leave exactly the characters of the text. *)
Theorem human_typing_enters_the_text
        (input_err : option string) (w : Click) (text : list Rune)
        (actionCount count : Z) (idle : option Z) :
  EnableHumanTyping (Stealth cfg) = true ->
  0 <= Min (TypingDelay (Stealth cfg)) < Max (TypingDelay (Stealth cfg)) ->
  Max (TypingDelay (Stealth cfg)) <= 9223372036854 ->
  HumanClick cfg w actionCount = Done (count, idle) ->
  exists events,
    HumanType cfg input_err w draws text actionCount = Done (count, idle, events)
    /\ typed_out text events
    /\ replay events [] = map code text.
Proof.
  intros Hen Hband Hmax Hclick. unfold HumanType. rewrite Hen, Hclick. cbn [negb].
  destruct (type_loop_enters_the_text (len text) text Hband Hmax 0 O)
    as (events & -> & Hout & Hre).
  exists events. split; [reflexivity|]. split; [exact Hout|]. now rewrite Hre.
Qed.

(** X20.  A typing delay whose minimum and maximum coincide is a band of
    one value for [RandomDelay], which then sleeps exactly that long, but
    an empty one for [HumanType]: with human typing enabled, every call
    with a text that is not empty panics in [rand.Intn] once its click
    went through. *)
Theorem human_typing_panics_on_one_value_band
        (input_err : option string) (w : Click) (text : list Rune)
        (actionCount count src : Z) (idle : option Z) :
  EnableHumanTyping (Stealth cfg) = true ->
  Max (TypingDelay (Stealth cfg)) = Min (TypingDelay (Stealth cfg)) ->
  int_range (Min (TypingDelay (Stealth cfg))) ->
  text <> [] ->
  HumanClick cfg w actionCount = Done (count, idle) ->
  HumanType cfg input_err w draws text actionCount = Panicked
  /\ RandomDelay cfg "typing" src
     = Some (wrap64 (Min (TypingDelay (Stealth cfg)) * gotime.Millisecond)).
Proof.
  intros Hen Heq Hrange Htext Hclick. split.
  - unfold HumanType. rewrite Hen, Hclick. cbn [negb].
    destruct text as [|char rest]; [congruence|]. cbn [type_loop].
    assert (Hempty : wrap64 (maxDelay - minDelay) <= 0).
    { subst minDelay maxDelay. rewrite Heq, Z.sub_diag. discriminate. }
    rewrite (typing_delay_empty_band (key_delay_src (draws 0%nat)) Hempty).
    destruct (typo (draws 0%nat) && (0 <? len (char :: rest) - 1)); [|reflexivity].
    destruct (rand.Intn 26 (wrong_src (draws 0%nat))); [|reflexivity].
    now rewrite (typing_delay_empty_band (typo_delay_src (draws 0%nat)) Hempty).
  - unfold RandomDelay, delay_band. cbn [String.eqb Ascii.eqb Bool.eqb].
    rewrite Heq, Z.sub_diag. cbn. rewrite Z.mod_1_r, Z.add_0_r.
    now rewrite (wrap64_small _ Hrange).
Qed.

End Typing.

(** *** Typing on the example configuration *)
Section TypingChecks.
Import config stealth.

(** A wrong key at every character the loop allows one at. *)
Definition clumsy (k : nat) : KeyDraw :=
  {| typo := true; wrong_src := Z.of_nat k; typo_delay_src := 30;
     back_delay_src := 40; key_delay_src := 50 |}.

(** "Hi!" *)
Definition text_hi : list Rune :=
  [ {| code := 72; size := 1 |}; {| code := 105; size := 1 |};
    {| code := 33; size := 1 |} ].

(** [cfg] with another typing delay. *)
Definition with_typing_delay (band : DelayConfig) (cfg : Config) : Config :=
  let st := Stealth cfg in
  {| Browser := Browser cfg;
     Stealth := {| EnableMouseMovement := EnableMouseMovement st;
                   EnableRandomScrolling := EnableRandomScrolling st;
                   EnableHumanTyping := EnableHumanTyping st;
                   EnableMouseHovering := EnableMouseHovering st;
                   EnableIdleBreaks := EnableIdleBreaks st;
                   ActionDelay := ActionDelay st; ScrollDelay := ScrollDelay st;
                   TypingDelay := band; ThinkTime := ThinkTime st;
                   IdleBreak := IdleBreak st |};
     RateLimits := RateLimits cfg; Connection := Connection cfg;
     Messaging := Messaging cfg; Scheduling := Scheduling cfg;
     config.Storage := config.Storage cfg; LinkedIn := LinkedIn cfg |}.

Lemma human_typing_enters_the_text_witness :
  HumanClick examples.cfg0 click_through 0 = Done (1, None)
  /\ exists events,
      HumanType examples.cfg0 None click_through clumsy text_hi 0
      = Done (1, None, events)
      /\ typed_out examples.cfg0 text_hi events
      /\ replay events [] = map code text_hi.
Proof.
  split; [reflexivity|].
  apply (human_typing_enters_the_text examples.cfg0 clumsy None click_through text_hi 0 1 None).
  - reflexivity.
  - split; [apply Z.leb_le | apply Z.ltb_lt]; reflexivity.
  - apply Z.leb_le. reflexivity.
  - reflexivity.
Defined.

Lemma human_typing_panics_on_one_value_band_witness :
  Validate (with_typing_delay {| Min := 150; Max := 150 |} examples.cfg0) = None
  /\ HumanType (with_typing_delay {| Min := 150; Max := 150 |} examples.cfg0)
               None click_through clumsy text_hi 0 = Panicked
  /\ RandomDelay (with_typing_delay {| Min := 150; Max := 150 |} examples.cfg0) "typing" 7
     = Some (wrap64 (150 * gotime.Millisecond)).
Proof.
  split; [reflexivity|].
  apply (human_typing_panics_on_one_value_band
           (with_typing_delay {| Min := 150; Max := 150 |} examples.cfg0)
           clumsy None click_through text_hi 0 1 7 None).
  - reflexivity.
  - reflexivity.
  - split; apply Z.leb_le; reflexivity.
  - intros H; discriminate H.
  - reflexivity.
Defined.

End TypingChecks.

(** ** Loading the configuration *)
Section Loading.
Import config.

Variable file : Config.
Variable env : Env.

(** The daily caps and the database path after the overrides of the
    environment. *)
Definition connections_per_day : Z :=
  match MAX_CONNECTIONS_PER_DAY env with
  | Some n => n
  | None => PerDay (Connections (RateLimits file))
  end.

Definition messages_per_day : Z :=
  match MAX_MESSAGES_PER_DAY env with
  | Some n => n
  | None => PerDay (Messages (RateLimits file))
  end.

Definition database_path : string :=
  if String.eqb (DB_PATH env) "" then DatabasePath (config.Storage file) else DB_PATH env.

Lemma Load_overrides (c : Config) :
  Load (Ok file) env = Ok c ->
  Validate c = None
  /\ LINKEDIN_EMAIL env <> "" /\ LINKEDIN_PASSWORD env <> ""
  /\ LinkedIn c = {| Email := LINKEDIN_EMAIL env; Password := LINKEDIN_PASSWORD env |}
  /\ PerDay (Connections (RateLimits c)) = connections_per_day
  /\ PerDay (Messages (RateLimits c)) = messages_per_day
  /\ PerHour (Connections (RateLimits c)) = PerHour (Connections (RateLimits file))
  /\ PerHour (Messages (RateLimits c)) = PerHour (Messages (RateLimits file))
  /\ Searches (RateLimits c) = Searches (RateLimits file)
  /\ DatabasePath (config.Storage c) = database_path
  /\ CookiePath (config.Storage c) = CookiePath (config.Storage file)
  /\ Viewport (Browser c) = Viewport (Browser file)
  /\ UserAgents (Browser c) = UserAgents (Browser file)
  /\ Stealth c = Stealth file /\ Connection c = Connection file
  /\ Messaging c = Messaging file /\ Scheduling c = Scheduling file.
Proof.
  unfold Load, connections_per_day, messages_per_day, database_path.
  cbn [LinkedIn set_LinkedIn Email Password].
  destruct (String.eqb_spec (LINKEDIN_EMAIL env) ""); [discriminate|].
  destruct (String.eqb_spec (LINKEDIN_PASSWORD env) ""); [discriminate|].
  cbn [orb].
  match goal with |- match Validate ?x with _ => _ end = _ -> _ => set (loaded := x) end.
  destruct (Validate loaded) eqn:Hv; [discriminate|]. intros [= <-].
  split; [exact Hv|]. split; [assumption|]. split; [assumption|]. clear Hv.
  subst loaded.
  destruct (String.eqb (HEADLESS env) ""), (String.eqb (DB_PATH env) ""),
    (MAX_CONNECTIONS_PER_DAY env), (MAX_MESSAGES_PER_DAY env);
    cbn; repeat split; reflexivity.
Qed.

(** X21.  What [Load] returns once config.yaml has been parsed.  It succeeds
    exactly when both credentials are set in the environment and, after the
    overrides of DB_PATH and MAX_CONNECTIONS_PER_DAY, the viewport is
    positive, a user agent is listed, the daily cap of connections is
    positive and the database path is not empty: the environment can make
    a valid file fail and an invalid one pass.  The configuration returned
    passes [Validate], carries the credentials of the environment only, the
    daily caps and the path of the environment where it sets them, and the
    hourly caps, stealth, connection, messaging and scheduling sections of
    the file. *)
Theorem Load_succeeds_iff_overridden_file_is_valid :
  ((exists c, Load (Ok file) env = Ok c)
   <-> LINKEDIN_EMAIL env <> "" /\ LINKEDIN_PASSWORD env <> ""
       /\ 0 < Width (Viewport (Browser file)) /\ 0 < Height (Viewport (Browser file))
       /\ UserAgents (Browser file) <> []
       /\ 0 < connections_per_day
       /\ database_path <> "")
  /\ (forall c,
         Load (Ok file) env = Ok c ->
         Validate c = None
         /\ LinkedIn c = {| Email := LINKEDIN_EMAIL env;
                            Password := LINKEDIN_PASSWORD env |}
         /\ PerDay (Connections (RateLimits c)) = connections_per_day
         /\ PerDay (Messages (RateLimits c)) = messages_per_day
         /\ PerHour (Connections (RateLimits c)) = PerHour (Connections (RateLimits file))
         /\ PerHour (Messages (RateLimits c)) = PerHour (Messages (RateLimits file))
         /\ DatabasePath (config.Storage c) = database_path
         /\ Stealth c = Stealth file /\ Connection c = Connection file
         /\ Messaging c = Messaging file /\ Scheduling c = Scheduling file).
Proof.
  split.
  - split.
    + intros (c & Hload).
      destruct (Load_overrides c Hload)
        as (Hv & He & Hp & _ & Hcd & _ & _ & _ & _ & Hdb & _ & Hview & Hua & _).
      apply Validate_accepts_iff in Hv.
      rewrite Hview, Hua, Hcd, Hdb in Hv. tauto.
    + intros (He & Hp & Hw & Hh & Hua & Hcd & Hdb).
      unfold Load. cbn [LinkedIn set_LinkedIn Email Password].
      destruct (String.eqb_spec (LINKEDIN_EMAIL env) ""); [contradiction|].
      destruct (String.eqb_spec (LINKEDIN_PASSWORD env) ""); [contradiction|].
      cbn [orb].
      match goal with |- exists c, match Validate ?x with _ => _ end = _ =>
                        set (loaded := x) end.
      assert (Hv : Validate loaded = None).
      { apply Validate_accepts_iff. subst loaded.
        unfold connections_per_day, database_path in *.
        destruct (String.eqb (HEADLESS env) ""), (String.eqb (DB_PATH env) ""),
          (MAX_CONNECTIONS_PER_DAY env), (MAX_MESSAGES_PER_DAY env);
          cbn; repeat split; assumption. }
      rewrite Hv. eexists. reflexivity.
  - intros c Hload.
    destruct (Load_overrides c Hload)
      as (Hv & _ & _ & Hl & Hcd & Hmd & Hch & Hmh & _ & Hdb & _ & _ & _ & Hst & Hco & Hme & Hsc).
    repeat split; assumption.
Qed.

End Loading.

(** *** Loading the example configuration *)
Section LoadingChecks.
Import config.

(** A file without a database path, with a daily cap of connections of 0. *)
Definition cfg_incomplete : Config :=
  set_DatabasePath "" (examples.cfg (examples.limits 10 0 10 50)).

Definition env_repairs : Env :=
  {| LINKEDIN_EMAIL := "user@example.com"; LINKEDIN_PASSWORD := "secret";
     HEADLESS := "true"; DB_PATH := "/tmp/bot.db";
     MAX_CONNECTIONS_PER_DAY := Some 25; MAX_MESSAGES_PER_DAY := None |}.

Lemma Load_succeeds_iff_overridden_file_is_valid_witness :
  Validate cfg_incomplete = Some "connections per day must be positive"
  /\ exists c, Load (Ok cfg_incomplete) env_repairs = Ok c.
Proof.
  split; [reflexivity|].
  apply (proj2 (proj1 (Load_succeeds_iff_overridden_file_is_valid cfg_incomplete env_repairs))).
  repeat split; try (intros H; discriminate H).
Defined.

End LoadingChecks.

(** ** The profile search *)
Section SearchResults.
Import storage search.

Variable cfg : config.Config.
Variable scfg : SearchConfig.

Lemma before_query_is_prefix (s : string) :
  ~ In "?"%char (list_ascii_of_string (before_query s))
  /\ (before_query s = s
      \/ exists query, s = before_query s ++ String "?" query)%string.
Proof.
  induction s as [|c rest [IHno IHpre]]; cbn.
  { split; [tauto | now left]. }
  destruct (Ascii.eqb_spec c "?") as [-> | Hc]; cbn.
  - split; [tauto | right; now exists rest].
  - split; [intros [E | Hin]; [now elim Hc | tauto]|].
    destruct IHpre as [-> | (query & E)]; [now left | right].
    exists query. rewrite E at 1. reflexivity.
Qed.

(** A profile read off one of the cards: it carries the location and the
    keywords of the target, the key [SaveProfile] returned for it, and the
    href of the card up to its query string. *)
Definition read_from (target : SearchTarget) (cards : list Card) (p : Profile.t) : Prop :=
  Profile.Location p = Location target
  /\ Profile.Keywords p = Keywords target
  /\ ~ In "?"%char (list_ascii_of_string (Profile.ProfileURL p))
  /\ exists card url,
      In card cards /\ save_err card = None /\ href card = Some url
      /\ Profile.ID p = saved_id card
      /\ Profile.ProfileURL p = before_query url.

(** A profile read off one of the first [limit] pages. *)
Definition found_on (target : SearchTarget) (w : TargetWorld) (limit : nat)
           (p : Profile.t) : Prop :=
  exists i, (i < limit)%nat /\ read_from target (elements (pages w i)) p.

Lemma extractProfilesFromPage_reads_cards (target : SearchTarget) (page : Page)
      (profiles : list Profile.t) :
  extractProfilesFromPage target page = Ok profiles ->
  Forall (read_from target (elements page)) profiles.
Proof.
  unfold extractProfilesFromPage. destruct (elements_err page); [discriminate|].
  intros [= <-].
  assert (H : forall cards acc,
             (forall c, In c cards -> In c (elements page)) ->
             Forall (read_from target (elements page)) acc ->
             Forall (read_from target (elements page))
                    (fold_left
                       (fun profiles card =>
                          match extractProfileFromElement target card with
                          | Err _ => profiles
                          | Ok profile =>
                            match save_err card with
                            | Some _ => profiles
                            | None => profiles ++ [with_ID (saved_id card) profile]
                            end
                          end) cards acc)).
  { induction cards as [|card cards IH]; intros acc Hsub Hacc; [exact Hacc|].
    cbn [fold_left]. apply IH; [intros c Hc; apply Hsub; now right|].
    destruct (extractProfileFromElement target card) as [profile|] eqn:Hex; [|exact Hacc].
    destruct (save_err card) eqn:Hsave; [exact Hacc|].
    apply Forall_app. split; [exact Hacc|]. constructor; [|constructor].
    unfold extractProfileFromElement in Hex.
    destruct (link_err card); [discriminate|].
    destruct (href_err card); [discriminate|].
    destruct (href card) as [url|] eqn:Hhref; [|discriminate].
    injection Hex as <-. cbn. repeat split.
    - apply before_query_is_prefix.
    - exists card, url. repeat split; try assumption. apply Hsub. now left. }
  apply H; [auto | constructor].
Qed.

(** A band [RandomDelay] can draw from, and one on which its [rand.Intn]
    panics; both within the delays whose nanoseconds fit an int64. *)
Definition drawable (delayType : string) : Prop :=
  let '(lo, hi) := stealth.delay_band cfg delayType in
  lo <= hi /\ - max_delay_ms <= lo /\ hi <= max_delay_ms.

Definition band_empty (delayType : string) : Prop :=
  let '(lo, hi) := stealth.delay_band cfg delayType in
  hi < lo /\ - max_delay_ms <= hi /\ lo <= max_delay_ms.

(** The idle breaks are switched off, or their band of seconds is one
    [rand.Intn] can draw from. *)
Definition idle_break_drawable : Prop :=
  config.EnableIdleBreaks (config.Stealth cfg) = false
  \/ (config.MinDurationSeconds (config.IdleBreak (config.Stealth cfg))
      < config.MaxDurationSeconds (config.IdleBreak (config.Stealth cfg))
      /\ - max_delay_ms
         <= config.MinDurationSeconds (config.IdleBreak (config.Stealth cfg))
      /\ config.MaxDurationSeconds (config.IdleBreak (config.Stealth cfg))
         <= max_delay_ms).

(** The shape of every Next button has the six coordinates [HumanClick]
    reads off its first quad. *)
Definition clicks_well_shaped (w : TargetWorld) : Prop :=
  forall i, short_quad (next_click (pages w i)) = false.

Lemma RandomDelay_returns (delayType : string) (src : Z) :
  drawable delayType -> exists d, stealth.RandomDelay cfg delayType src = Some d.
Proof.
  unfold drawable, stealth.RandomDelay, max_delay_ms.
  destruct (stealth.delay_band cfg delayType) as [lo hi]. intros (Hle & Hlo & Hhi).
  rewrite (wrap64_small (hi - lo)) by (unfold int_range, MinInt64, MaxInt64; lia).
  rewrite (wrap64_small (hi - lo + 1)) by (unfold int_range, MinInt64, MaxInt64; lia).
  unfold rand.Intn. destruct (Z.leb_spec (hi - lo + 1) 0); [lia|]. eexists. reflexivity.
Qed.

Lemma RandomDelay_panics (delayType : string) (src : Z) :
  band_empty delayType -> stealth.RandomDelay cfg delayType src = None.
Proof.
  unfold band_empty, stealth.RandomDelay, max_delay_ms.
  destruct (stealth.delay_band cfg delayType) as [lo hi]. intros (Hlt & Hhi & Hlo).
  rewrite (wrap64_small (hi - lo)) by (unfold int_range, MinInt64, MaxInt64; lia).
  rewrite (wrap64_small (hi - lo + 1)) by (unfold int_range, MinInt64, MaxInt64; lia).
  unfold rand.Intn. destruct (Z.leb_spec (hi - lo + 1) 0); [reflexivity | lia].
Qed.

Lemma scroll_loop_returns (draws : nat -> Z) (n : nat) :
  drawable "scroll" -> forall i, exists ds, stealth.scroll_loop cfg draws n i = Some ds.
Proof.
  intros Hs. induction n as [|n IH]; intros i; cbn [stealth.scroll_loop].
  { eexists. reflexivity. }
  destruct (RandomDelay_returns "scroll" (draws i) Hs) as (d & ->).
  destruct (IH (S i)) as (ds & ->). eexists. reflexivity.
Qed.

Lemma RandomScroll_returns (w : stealth.Scroll) :
  drawable "scroll" -> exists ds, stealth.RandomScroll cfg w = Some ds.
Proof.
  intros Hs. unfold stealth.RandomScroll.
  destruct (negb _); [eexists; reflexivity|].
  unfold rand.Intn. cbn [Z.leb Z.compare]. apply scroll_loop_returns, Hs.
Qed.

Lemma RandomScroll_panics (w : stealth.Scroll) :
  config.EnableRandomScrolling (config.Stealth cfg) = true ->
  band_empty "scroll" -> stealth.RandomScroll cfg w = None.
Proof.
  intros Hen Hs. unfold stealth.RandomScroll. rewrite Hen. cbn [negb].
  unfold rand.Intn. cbn [Z.leb Z.compare].
  pose proof (Z.mod_pos_bound (stealth.scrolls_src w) 4 ltac:(lia)) as Hr.
  destruct (Z.to_nat (2 + stealth.scrolls_src w mod 4)) as [|n] eqn:En; [lia|].
  cbn [stealth.scroll_loop]. now rewrite RandomDelay_panics.
Qed.

Lemma MaybeIdleBreak_returns (src count : Z) :
  idle_break_drawable -> exists r, stealth.MaybeIdleBreak cfg src count = Some r.
Proof.
  unfold idle_break_drawable, stealth.MaybeIdleBreak, max_delay_ms.
  intros [-> | (Hlt & Hlo & Hhi)]; [eexists; reflexivity|].
  destruct (negb _); [eexists; reflexivity|].
  destruct (_ <=? count); [|eexists; reflexivity].
  rewrite wrap64_small by (unfold int_range, MinInt64, MaxInt64; lia).
  unfold rand.Intn.
  destruct (Z.leb_spec (config.MaxDurationSeconds (config.IdleBreak (config.Stealth cfg))
                        - config.MinDurationSeconds (config.IdleBreak (config.Stealth cfg)))
                       0); [lia|].
  eexists. reflexivity.
Qed.

Lemma goToNextPage_returns (page : Page) (count : Z) :
  idle_break_drawable ->
  short_quad (next_click page) = false ->
  exists b count', goToNextPage cfg page count = Some (b, count').
Proof.
  intros Hidle Hq. unfold goToNextPage.
  destruct (next_button_err page); [eexists _, _; reflexivity|].
  destruct (next_disabled page); [eexists _, _; reflexivity|].
  destruct (HumanClick_cases cfg (next_click page) count Hq) as [(_ & e & ->) | (_ & ->)];
    [eexists _, _; reflexivity|].
  destruct (MaybeIdleBreak_returns (stealth.break_src (next_click page))
                                   (wrap64 (count + 1)) Hidle) as ([c idle] & ->).
  eexists _, _; reflexivity.
Qed.

(** Whether the next page comes up does not depend on the counter. *)
Lemma goToNextPage_same_answer (page : Page) (c1 c2 : Z) (b1 b2 : bool) (c1' c2' : Z) :
  goToNextPage cfg page c1 = Some (b1, c1') ->
  goToNextPage cfg page c2 = Some (b2, c2') ->
  b1 = b2.
Proof.
  unfold goToNextPage, stealth.HumanClick.
  destruct (next_button_err page); [congruence|].
  destruct (next_disabled page); [congruence|].
  destruct (stealth.shape_err (next_click page)); [congruence|].
  destruct (stealth.quads (next_click page)) as [|quad qs]; [congruence|].
  destruct (quad <? 6)%nat; [discriminate|].
  destruct (stealth.click_err (next_click page)); [congruence|].
  destruct (stealth.MaybeIdleBreak cfg _ (wrap64 (c1 + 1))) as [[? ?]|]; [|discriminate].
  destruct (stealth.MaybeIdleBreak cfg _ (wrap64 (c2 + 1))) as [[? ?]|]; [|discriminate].
  congruence.
Qed.

Lemma pages_loop_is_capped (target : SearchTarget) (w : TargetWorld) (limit : nat) :
  0 <= MaxResultsPerSearch scfg ->
  forall n i profiles count result count',
    (i + n = limit)%nat ->
    Z.of_nat (List.length profiles) <= MaxResultsPerSearch scfg ->
    Forall (found_on target w limit) profiles ->
    pages_loop cfg scfg target (pages w) n i profiles count = Some (result, count') ->
    Z.of_nat (List.length result) <= MaxResultsPerSearch scfg
    /\ Forall (found_on target w limit) result.
Proof.
  intros Hmax. induction n as [|n IH]; intros i profiles count result count' Hi Hlen Hall.
  { intros [= <- <-]. split; assumption. }
  cbn [pages_loop].
  destruct (stealth.RandomScroll cfg _); [|discriminate].
  destruct (stealth.RandomDelay cfg "scroll" _); [|discriminate].
  destruct (extractProfilesFromPage target (pages w i)) as [pageProfiles|] eqn:Hpage.
  2:{ intros [= <- <-]. split; assumption. }
  assert (Hall' : Forall (found_on target w limit) (profiles ++ pageProfiles)).
  { apply Forall_app. split; [exact Hall|].
    eapply Forall_impl; [|exact (extractProfilesFromPage_reads_cards _ _ _ Hpage)].
    intros p Hp. exists i. split; [lia | exact Hp]. }
  destruct (Z.leb_spec (MaxResultsPerSearch scfg)
                       (Z.of_nat (List.length (profiles ++ pageProfiles)))) as [Hcap | Hroom].
  - destruct (Z.ltb_spec (MaxResultsPerSearch scfg) 0); [lia|].
    intros [= <- <-]. split.
    + rewrite length_firstn. lia.
    + rewrite <- (firstn_skipn (Z.to_nat (MaxResultsPerSearch scfg))) in Hall'.
      apply Forall_app in Hall'. apply Hall'.
  - destruct (goToNextPage cfg (pages w i) count) as [[[|] count1]|]; [| |discriminate].
    + destruct (stealth.RandomDelay cfg "action" _); [|discriminate].
      apply IH; [lia | lia | exact Hall'].
    + intros [= <- <-]. split; [lia | exact Hall'].
Qed.

Lemma pages_loop_returns (target : SearchTarget) (w : TargetWorld) :
  0 <= MaxResultsPerSearch scfg ->
  drawable "scroll" -> drawable "action" -> idle_break_drawable ->
  clicks_well_shaped w ->
  forall n i profiles count,
  exists result count',
    pages_loop cfg scfg target (pages w) n i profiles count = Some (result, count').
Proof.
  intros Hmax Hscroll Haction Hidle Hshape.
  induction n as [|n IH]; intros i profiles count; cbn [pages_loop].
  { eexists _, _. reflexivity. }
  destruct (RandomScroll_returns (scroll (pages w i)) Hscroll) as (ds & ->).
  destruct (RandomDelay_returns "scroll" (scroll_src (pages w i)) Hscroll) as (d & ->).
  destruct (extractProfilesFromPage target (pages w i)) as [pageProfiles|];
    [|eexists _, _; reflexivity].
  destruct (_ <=? _).
  { destruct (Z.ltb_spec (MaxResultsPerSearch scfg) 0); [lia|]. eexists _, _. reflexivity. }
  destruct (goToNextPage_returns (pages w i) count Hidle (Hshape i)) as (b & count1 & ->).
  destruct b; [|eexists _, _; reflexivity].
  destruct (RandomDelay_returns "action" (action_src (pages w i)) Haction) as (d' & ->).
  apply IH.
Qed.

(** The profiles a search returns do not depend on the counter it starts
    with: the counter only decides on the idle breaks. *)
Lemma pages_loop_same_profiles (target : SearchTarget) (pages : nat -> Page) :
  forall n i profiles c1 c2 r1 c1' r2 c2',
    pages_loop cfg scfg target pages n i profiles c1 = Some (r1, c1') ->
    pages_loop cfg scfg target pages n i profiles c2 = Some (r2, c2') ->
    r1 = r2.
Proof.
  induction n as [|n IH]; intros i profiles c1 c2 r1 c1' r2 c2'; cbn [pages_loop].
  { congruence. }
  destruct (stealth.RandomScroll cfg _); [|discriminate].
  destruct (stealth.RandomDelay cfg "scroll" _); [|discriminate].
  destruct (extractProfilesFromPage target (pages i)) as [pageProfiles|]; [|congruence].
  destruct (_ <=? _).
  { destruct (_ <? 0); congruence. }
  destruct (goToNextPage cfg (pages i) c1) as [[b1 d1]|] eqn:E1; [|discriminate].
  destruct (goToNextPage cfg (pages i) c2) as [[b2 d2]|] eqn:E2;
    [|destruct b1; [destruct (stealth.RandomDelay cfg "action" _)|]; discriminate].
  rewrite (goToNextPage_same_answer _ _ _ _ _ _ _ E1 E2).
  destruct b2; [|congruence].
  destruct (stealth.RandomDelay cfg "action" _); [|discriminate].
  apply IH.
Qed.

Lemma searchTarget_same_profiles (w : TargetWorld) (target : SearchTarget)
      (c1 c2 : Z) (r1 r2 : result (list Profile.t)) (c1' c2' : Z) :
  searchTarget cfg scfg w target c1 = Some (r1, c1') ->
  searchTarget cfg scfg w target c2 = Some (r2, c2') ->
  r1 = r2.
Proof.
  unfold searchTarget.
  destruct (stealth.RandomDelay cfg "think" _); [|discriminate].
  destruct (navigate_err w); [congruence|].
  destruct (pages_loop cfg scfg target (pages w) _ O [] c1) as [[p1 d1]|] eqn:E1;
    [|discriminate].
  destruct (pages_loop cfg scfg target (pages w) _ O [] c2) as [[p2 d2]|] eqn:E2;
    [|discriminate].
  rewrite (pages_loop_same_profiles _ _ _ _ _ _ _ _ _ _ _ E1 E2). congruence.
Qed.

Lemma searchTarget_returns (w : TargetWorld) (target : SearchTarget) (count : Z) :
  0 <= MaxResultsPerSearch scfg ->
  drawable "think" -> drawable "scroll" -> drawable "action" -> idle_break_drawable ->
  clicks_well_shaped w ->
  exists result count', searchTarget cfg scfg w target count = Some (result, count').
Proof.
  intros Hmax Hthink Hscroll Haction Hidle Hshape. unfold searchTarget.
  destruct (RandomDelay_returns "think" (think_src w) Hthink) as (d & ->).
  destruct (navigate_err w); [eexists _, _; reflexivity|].
  destruct (pages_loop_returns target w Hmax Hscroll Haction Hidle Hshape
              (Z.to_nat (PaginationLimit scfg)) O [] count) as (result & count' & ->).
  eexists _, _. reflexivity.
Qed.

(** X22.  One search returns at most [max_results_per_search] profiles.
    With a cap that is not negative, the profiles [searchTarget] returns
    are at most as many as the cap; each was read off a card of one of the
    first [pagination_limit] pages, carries the location and keywords of
    the target and the key [SaveProfile] returned, and its URL is the href
    of the card without its query string.  The search does return, with
    such a cap, when the bands of the think time, the scroll delay and the
    action delay are bands [rand.Intn] can draw from, the idle breaks are
    switched off or have such a band, and the shape of every Next button
    has its six coordinates.  It panics with a negative cap on the first
    page whose cards can be read; with an empty band of the think time
    before it navigates; and with an empty band of the scroll delay on
    its first page. *)
Theorem search_target_is_capped (w : TargetWorld) (target : SearchTarget) (count : Z) :
  (0 <= MaxResultsPerSearch scfg ->
   forall profiles count',
     searchTarget cfg scfg w target count = Some (Ok profiles, count') ->
     Z.of_nat (List.length profiles) <= MaxResultsPerSearch scfg
     /\ Forall (found_on target w (Z.to_nat (PaginationLimit scfg))) profiles)
  /\ (0 <= MaxResultsPerSearch scfg ->
      drawable "think" -> drawable "scroll" -> drawable "action" ->
      idle_break_drawable -> clicks_well_shaped w ->
      exists result count', searchTarget cfg scfg w target count = Some (result, count'))
  /\ (MaxResultsPerSearch scfg < 0 ->
      1 <= PaginationLimit scfg ->
      navigate_err w = None ->
      elements_err (pages w O) = None ->
      searchTarget cfg scfg w target count = None)
  /\ (band_empty "think" -> searchTarget cfg scfg w target count = None)
  /\ (band_empty "scroll" ->
      1 <= PaginationLimit scfg ->
      navigate_err w = None ->
      searchTarget cfg scfg w target count = None).
Proof.
  split; [|split; [|split; [|split]]].
  - intros Hmax profiles count'. unfold searchTarget.
    destruct (stealth.RandomDelay cfg "think" _); [|discriminate].
    destruct (navigate_err w); [discriminate|].
    destruct (pages_loop cfg scfg target (pages w) _ O [] count) as [[found c]|] eqn:Hloop;
      [|discriminate].
    intros [= <- <-].
    exact (pages_loop_is_capped target w (Z.to_nat (PaginationLimit scfg)) Hmax
             (Z.to_nat (PaginationLimit scfg)) O [] count found c
             eq_refl Hmax (Forall_nil _) Hloop).
  - intros Hmax Hthink Hscroll Haction Hidle Hshape.
    now apply searchTarget_returns.
  - intros Hneg Hlimit Hnav Hel. unfold searchTarget. rewrite Hnav.
    destruct (stealth.RandomDelay cfg "think" _); [|reflexivity].
    destruct (Z.to_nat (PaginationLimit scfg)) as [|n] eqn:En; [lia|].
    cbn [pages_loop].
    destruct (stealth.RandomScroll cfg _); [|reflexivity].
    destruct (stealth.RandomDelay cfg "scroll" _); [|reflexivity].
    unfold extractProfilesFromPage. rewrite Hel.
    destruct (Z.leb_spec (MaxResultsPerSearch scfg)
                (Z.of_nat (List.length ([] ++ fold_left
                   (fun profiles card =>
                      match extractProfileFromElement target card with
                      | Err _ => profiles
                      | Ok profile =>
                        match save_err card with
                        | Some _ => profiles
                        | None => profiles ++ [with_ID (saved_id card) profile]
                        end
                      end) (elements (pages w O)) [])))) as [_ | Hlt]; [|lia].
    destruct (Z.ltb_spec (MaxResultsPerSearch scfg) 0); [reflexivity | lia].
  - intros Hthink. unfold searchTarget. now rewrite RandomDelay_panics.
  - intros Hscroll Hlimit Hnav. unfold searchTarget. rewrite Hnav.
    destruct (stealth.RandomDelay cfg "think" _); [|reflexivity].
    destruct (Z.to_nat (PaginationLimit scfg)) as [|n] eqn:En; [lia|].
    cbn [pages_loop].
    destruct (stealth.RandomScroll cfg _); [|reflexivity].
    now rewrite RandomDelay_panics.
Qed.

End SearchResults.

(** ** Deduplication of the search results *)
Section SearchProfilesUnique.
Import storage search.

Variable cfg : config.Config.
Variable scfg : SearchConfig.
Variable w : nat -> TargetWorld.

Definition urls (profiles : list Profile.t) : list string :=
  map Profile.ProfileURL profiles.

(** [seenURLs] holds the URLs of [allProfiles], each of them once. *)
Definition seen_all (seenURLs : list string) (allProfiles : list Profile.t) : Prop :=
  (forall u, In u seenURLs <-> In u (urls allProfiles)) /\ NoDup (urls allProfiles).

Lemma existsb_eqb_In (u : string) (l : list string) :
  existsb (String.eqb u) l = true <-> In u l.
Proof.
  rewrite existsb_exists. split.
  - intros (x & Hx & E). apply String.eqb_eq in E. now subst.
  - intros H. exists u. split; [exact H | apply String.eqb_refl].
Qed.

Lemma deduplicate_keeps_first (profiles : list Profile.t) :
  forall seenURLs allProfiles seenURLs' allProfiles',
    seen_all seenURLs allProfiles ->
    deduplicate profiles seenURLs allProfiles = (seenURLs', allProfiles') ->
    seen_all seenURLs' allProfiles'
    /\ (forall p, In p allProfiles' -> In p allProfiles \/ In p profiles)
    /\ (forall u, In u (urls allProfiles) -> In u (urls allProfiles'))
    /\ (forall p, In p profiles -> In (Profile.ProfileURL p) (urls allProfiles')).
Proof.
  induction profiles as [|profile rest IH]; intros seen all seen' all' Hinv; cbn [deduplicate].
  { intros [= <- <-]. repeat split; try apply Hinv; auto. intros p []. }
  destruct (existsb (String.eqb (Profile.ProfileURL profile)) seen) eqn:Hseen; intros Hrun.
  - apply existsb_eqb_In in Hseen.
    destruct (IH _ _ _ _ Hinv Hrun) as (Hinv' & Hfrom & Hkeep & Hall).
    repeat split; try apply Hinv'.
    + intros p Hp. destruct (Hfrom p Hp); [now left | right; now right].
    + exact Hkeep.
    + intros p [<- | Hp]; [|now apply Hall]. apply Hkeep. now apply Hinv.
  - assert (Hnew : ~ In (Profile.ProfileURL profile) (urls all)).
    { intros Hin. apply Hinv in Hin. apply existsb_eqb_In in Hin. congruence. }
    assert (Hinv1 : seen_all (Profile.ProfileURL profile :: seen) (all ++ [profile])).
    { destruct Hinv as [Hset Hnodup]. unfold seen_all, urls in *. split.
      - intros u. rewrite map_app, in_app_iff. cbn. rewrite Hset. tauto.
      - rewrite map_app. cbn.
        apply NoDup_app; [exact Hnodup | repeat constructor; intros [] |].
        intros u Hu [<- | []]. contradiction. }
    destruct (IH _ _ _ _ Hinv1 Hrun) as (Hinv' & Hfrom & Hkeep & Hall).
    repeat split; try apply Hinv'.
    + intros p Hp. destruct (Hfrom p Hp) as [Hp' | Hp']; [|right; now right].
      apply in_app_iff in Hp'. destruct Hp' as [Hp' | [<- | []]];
        [now left | right; now left].
    + intros u Hu. apply Hkeep. unfold urls. rewrite map_app, in_app_iff. now left.
    + intros p [<- | Hp]; [|now apply Hall].
      apply Hkeep. unfold urls. rewrite map_app, in_app_iff. right. now left.
Qed.

Lemma targets_loop_unique (targets : list SearchTarget) :
  forall i seenURLs allProfiles count profiles,
    seen_all seenURLs allProfiles ->
    targets_loop cfg scfg w i targets seenURLs allProfiles count = Some profiles ->
    NoDup (urls profiles)
    /\ (forall p, In p profiles ->
                  In p allProfiles
                  \/ exists j target found c c',
                      nth_error targets j = Some target
                      /\ searchTarget cfg scfg (w (i + j)%nat) target c = Some (Ok found, c')
                      /\ In p found)
    /\ (forall u, In u (urls allProfiles) -> In u (urls profiles))
    /\ (forall j target found c c' p,
           nth_error targets j = Some target ->
           searchTarget cfg scfg (w (i + j)%nat) target c = Some (Ok found, c') ->
           In p found ->
           In (Profile.ProfileURL p) (urls profiles)).
Proof.
  induction targets as [|target rest IH]; intros i seen all count profiles Hinv;
    cbn [targets_loop].
  { intros [= <-]. split; [apply Hinv|]. split; [now left|]. split; [auto|].
    intros [|j] ? ? ? ? ? Hnth; discriminate Hnth. }
  destruct (searchTarget cfg scfg (w i) target count) as [[[found | e] count1]|] eqn:Hsearch;
    [| |discriminate].
  - destruct (deduplicate found seen all) as [seen1 all1] eqn:Hdedup.
    destruct (stealth.RandomDelay cfg "think" _); [|discriminate]. intros Hrun.
    destruct (deduplicate_keeps_first _ _ _ _ _ Hinv Hdedup) as (Hinv1 & Hfrom1 & Hkeep1 & Hall1).
    destruct (IH _ _ _ _ _ Hinv1 Hrun) as (Hnodup & Hfrom & Hkeep & Hall).
    split; [exact Hnodup|]. split; [|split].
    + intros p Hp. destruct (Hfrom p Hp) as [Hp1 | (j & t & f & c & c' & Hnth & Hs & Hin)].
      * destruct (Hfrom1 p Hp1) as [Hp0 | Hp0]; [now left | right].
        exists O, target, found, count, count1. rewrite Nat.add_0_r.
        repeat split; assumption.
      * right. exists (S j), t, f, c, c'. rewrite Nat.add_succ_r. repeat split; assumption.
    + intros u Hu. apply Hkeep, Hkeep1, Hu.
    + intros [|j] t f c c' p Hnth Hs Hin.
      * injection Hnth as <-. rewrite Nat.add_0_r in Hs.
        pose proof (searchTarget_same_profiles cfg scfg _ _ _ _ _ _ _ _ Hs Hsearch) as E.
        injection E as ->. apply Hkeep, Hall1, Hin.
      * rewrite Nat.add_succ_r in Hs. exact (Hall j t f c c' p Hnth Hs Hin).
  - intros Hrun. destruct (IH _ _ _ _ _ Hinv Hrun) as (Hnodup & Hfrom & Hkeep & Hall).
    split; [exact Hnodup|]. split; [|split].
    + intros p Hp. destruct (Hfrom p Hp) as [Hp1 | (j & t & f & c & c' & Hnth & Hs & Hin)];
        [now left | right].
      exists (S j), t, f, c, c'. rewrite Nat.add_succ_r. repeat split; assumption.
    + exact Hkeep.
    + intros [|j] t f c c' p Hnth Hs Hin.
      * injection Hnth as <-. rewrite Nat.add_0_r in Hs.
        pose proof (searchTarget_same_profiles cfg scfg _ _ _ _ _ _ _ _ Hs Hsearch) as E.
        discriminate E.
      * rewrite Nat.add_succ_r in Hs. exact (Hall j t f c c' p Hnth Hs Hin).
Qed.

Lemma targets_loop_returns (targets : list SearchTarget) :
  0 <= MaxResultsPerSearch scfg ->
  drawable cfg "think" -> drawable cfg "scroll" -> drawable cfg "action" ->
  idle_break_drawable cfg ->
  (forall i, clicks_well_shaped (w i)) ->
  forall i seenURLs allProfiles count,
  exists profiles,
    targets_loop cfg scfg w i targets seenURLs allProfiles count = Some profiles.
Proof.
  intros Hmax Hthink Hscroll Haction Hidle Hshape.
  induction targets as [|target rest IH]; intros i seen all count; cbn [targets_loop].
  { eexists; reflexivity. }
  destruct (searchTarget_returns cfg scfg (w i) target count
              Hmax Hthink Hscroll Haction Hidle (Hshape i)) as (r & count1 & ->).
  destruct r as [found | e]; [|apply IH].
  destruct (deduplicate found seen all).
  destruct (RandomDelay_returns cfg "think" (between_src (w i)) Hthink) as (d & ->).
  apply IH.
Qed.

(** X23.  [SearchProfiles] returns every profile URL once.  Its error is
    always nil.  The profiles it returns have pairwise different URLs,
    each was returned by the search of one of the targets, and every URL
    a target's search returns, whatever the click counter it starts with,
    is among them.  It leaves the connection requests and the messages
    alone and writes at most one event to the activity log: a search with
    outcome success and the number of profiles, also when the search of
    every target failed.  It does return when the cap on the results is
    not negative, the bands of the think time, the scroll delay and the
    action delay are bands [rand.Intn] can draw from, the idle breaks are
    switched off or have such a band, and the shape of every Next button
    has its six coordinates; with an empty band of the think time and a
    target to search for it panics. *)
Theorem search_profiles_are_unique
        (log_now : Z) (log_err : option string) (st : Storage) (count : Z) :
  (0 <= MaxResultsPerSearch scfg ->
   drawable cfg "think" -> drawable cfg "scroll" -> drawable cfg "action" ->
   idle_break_drawable cfg ->
   (forall i, clicks_well_shaped (w i)) ->
   SearchProfiles cfg scfg w log_now log_err st count <> None)
  /\ (forall st' profiles err,
      SearchProfiles cfg scfg w log_now log_err st count = Some (st', profiles, err) ->
      err = None
      /\ NoDup (urls profiles)
      /\ (forall p, In p profiles ->
                    exists i target found c c',
                      nth_error (Targets scfg) i = Some target
                      /\ searchTarget cfg scfg (w i) target c = Some (Ok found, c')
                      /\ In p found)
      /\ (forall i target found c c' p,
             nth_error (Targets scfg) i = Some target ->
             searchTarget cfg scfg (w i) target c = Some (Ok found, c') ->
             In p found ->
             In (Profile.ProfileURL p) (urls profiles))
      /\ connection_requests st' = connection_requests st
      /\ messages st' = messages st
      /\ (activity_log st' = activity_log st
          \/ exists event,
              activity_log st' = activity_log st ++ [event]
              /\ Activity.ActionType event = "search"
              /\ Activity.Outcome event = "success"
              /\ Activity.ErrorMessage event
                 = ("Found " ++ itoa (Z.of_nat (List.length profiles)) ++ " profiles")%string))
  /\ (band_empty cfg "think" -> Targets scfg <> [] ->
      SearchProfiles cfg scfg w log_now log_err st count = None).
Proof.
  unfold SearchProfiles. split; [|split].
  - intros Hmax Hthink Hscroll Haction Hidle Hshape.
    destruct (targets_loop_returns (Targets scfg) Hmax Hthink Hscroll Haction Hidle Hshape
                                   O [] [] count) as (ps & ->).
    unfold LogActivity. destruct log_err; discriminate.
  - intros st' profiles err.
    destruct (targets_loop cfg scfg w O (Targets scfg) [] [] count) as [found|] eqn:Hloop;
      [|discriminate].
    assert (Hinv : seen_all [] []) by (split; [tauto | constructor]).
    destruct (targets_loop_unique _ _ _ _ _ _ Hinv Hloop) as (Hnodup & Hfrom & _ & Hall).
    assert (Hfrom' : forall p, In p found ->
                exists i target found' c c',
                  nth_error (Targets scfg) i = Some target
                  /\ searchTarget cfg scfg (w i) target c = Some (Ok found', c')
                  /\ In p found').
    { intros p Hp. destruct (Hfrom p Hp) as [[] | H]. exact H. }
    unfold LogActivity. destruct log_err as [e|]; intros [= <- <- <-];
      (split; [reflexivity|]); (split; [exact Hnodup|]); (split; [exact Hfrom'|]);
      (split; [exact Hall|]); (split; [reflexivity|]); (split; [reflexivity|]).
    + now left.
    + right. eexists. split; [reflexivity|]. repeat split.
  - intros Hthink Htargets.
    destruct (Targets scfg) as [|target rest]; [now elim Htargets|].
    cbn [targets_loop]. unfold searchTarget.
    now rewrite (RandomDelay_panics cfg "think" _ Hthink).
Qed.

End SearchProfilesUnique.

(** *** The search on an example *)
Section SearchChecks.
Import storage search.

Definition card (url name : string) (id : Z) : Card :=
  {| link_err := None; href_err := None; href := Some url;
     name_text := name; job_title_text := "Engineer"; company_text := "Acme";
     discovered_now := examples.tuesday_10h; saved_id := id; save_err := None |}.

Definition page_of (cards : list Card) (last : bool) : Page :=
  {| scroll := {| stealth.scrolls_src := 5; stealth.scroll_delay_src := fun k => Z.of_nat k |};
     scroll_src := 11;
     elements_err := None; elements := cards; next_button_err := None;
     next_disabled := last; next_click := click_through; action_src := 13 |}.

(** Jane comes up under two links that differ in their query string, on
    both pages of the first target and again for the second target. *)
Definition target_world (i : nat) : TargetWorld :=
  {| think_src := 3;
     navigate_err := None;
     pages := fun k =>
       match i, k with
       | O, O => page_of [card "https://www.linkedin.com/in/jane-doe/?miniProfile=1" "Jane Doe" 1;
                          card "https://www.linkedin.com/in/bob-roe/" "Bob Roe" 2] false
       | O, _ => page_of [card "https://www.linkedin.com/in/jane-doe/?trk=2" "Jane Doe" 1] true
       | _, _ => page_of [card "https://www.linkedin.com/in/jane-doe/" "Jane Doe" 1] true
       end;
     between_src := 17 |}.

Definition engineers : SearchTarget :=
  {| JobTitle := "Engineer"; Location := "Berlin"; Keywords := "golang" |}.

Definition managers : SearchTarget :=
  {| JobTitle := "Manager"; Location := "Berlin"; Keywords := "golang" |}.

Definition scfg_two_targets : SearchConfig :=
  {| Targets := [engineers; managers]; MaxResultsPerSearch := 2; PaginationLimit := 3 |}.

(** The example configuration with the think time set to [band]. *)
Definition with_think_time (band : config.DelayConfig) (c : config.Config) : config.Config :=
  {| config.Browser := config.Browser c;
     config.Stealth :=
       {| config.EnableMouseMovement := config.EnableMouseMovement (config.Stealth c);
          config.EnableRandomScrolling := config.EnableRandomScrolling (config.Stealth c);
          config.EnableHumanTyping := config.EnableHumanTyping (config.Stealth c);
          config.EnableMouseHovering := config.EnableMouseHovering (config.Stealth c);
          config.EnableIdleBreaks := config.EnableIdleBreaks (config.Stealth c);
          config.ActionDelay := config.ActionDelay (config.Stealth c);
          config.ScrollDelay := config.ScrollDelay (config.Stealth c);
          config.TypingDelay := config.TypingDelay (config.Stealth c);
          config.ThinkTime := band;
          config.IdleBreak := config.IdleBreak (config.Stealth c) |};
     config.RateLimits := config.RateLimits c;
     config.Connection := config.Connection c;
     config.Messaging := config.Messaging c;
     config.Scheduling := config.Scheduling c;
     config.Storage := config.Storage c;
     config.LinkedIn := config.LinkedIn c |}.

(** The bands of the example configuration can be drawn from. *)
Lemma cfg0_paces :
  drawable examples.cfg0 "think" /\ drawable examples.cfg0 "scroll"
  /\ drawable examples.cfg0 "action" /\ idle_break_drawable examples.cfg0.
Proof.
  unfold drawable, idle_break_drawable, max_delay_ms. cbn.
  split; [lia|]. split; [lia|]. split; [lia|]. right. lia.
Qed.

Lemma search_target_is_capped_witness :
  (exists profiles count',
      searchTarget examples.cfg0 scfg_two_targets (target_world O) engineers 0
      = Some (Ok profiles, count')
      /\ List.length profiles = 2%nat)
  /\ (forall profiles count',
         searchTarget examples.cfg0 scfg_two_targets (target_world O) engineers 0
         = Some (Ok profiles, count') ->
         Z.of_nat (List.length profiles) <= 2
         /\ Forall (found_on engineers (target_world O) 3) profiles)
  /\ searchTarget (with_think_time (examples.band 8000 3000) examples.cfg0)
                  scfg_two_targets (target_world O) engineers 0 = None.
Proof.
  split; [eexists _, _; split; reflexivity|]. split.
  - apply (proj1 (search_target_is_capped examples.cfg0 scfg_two_targets
                    (target_world O) engineers 0)).
    apply Z.leb_le. reflexivity.
  - apply (proj1 (proj2 (proj2 (proj2
             (search_target_is_capped (with_think_time (examples.band 8000 3000)
                                                       examples.cfg0)
                                      scfg_two_targets (target_world O) engineers 0))))).
    unfold band_empty, max_delay_ms. cbn. lia.
Defined.

Lemma search_profiles_are_unique_witness :
  (exists st' profiles,
      SearchProfiles examples.cfg0 scfg_two_targets target_world examples.tuesday_10h None
                     storage.empty 0
      = Some (st', profiles, None)
      /\ urls profiles = ["https://www.linkedin.com/in/jane-doe/";
                          "https://www.linkedin.com/in/bob-roe/"])
  /\ (forall st' profiles err,
         SearchProfiles examples.cfg0 scfg_two_targets target_world examples.tuesday_10h None
                        storage.empty 0
         = Some (st', profiles, err) ->
         err = None /\ NoDup (urls profiles))
  /\ SearchProfiles examples.cfg0 scfg_two_targets target_world examples.tuesday_10h None
                    storage.empty 0 <> None.
Proof.
  split; [eexists _, _; split; reflexivity|]. split.
  - intros st' profiles err Hrun.
    destruct (proj1 (proj2 (search_profiles_are_unique
                              examples.cfg0 scfg_two_targets target_world
                              examples.tuesday_10h None storage.empty 0))
                    st' profiles err Hrun)
      as (Herr & Hnodup & _).
    split; assumption.
  - destruct cfg0_paces as (Hthink & Hscroll & Haction & Hidle).
    apply (proj1 (search_profiles_are_unique
                    examples.cfg0 scfg_two_targets target_world
                    examples.tuesday_10h None storage.empty 0));
      try assumption.
    + apply Z.leb_le. reflexivity.
    + intros [|i] [|[|k]]; reflexivity.
Defined.

End SearchChecks.

(** ** The workflow and the loop of main *)
Section Workflow.
Import config storage main.

Variable cfg : Config.
Variable scfg : search.SearchConfig.

Lemma connect_rounds_error (w : nat -> connect.World) (total : Z)
      (profiles : list Profile.t) :
  forall i s sent s' sent' e,
    connect.rounds cfg w total i profiles s sent = (s', sent', Some e) ->
    e = "context canceled".
Proof.
  induction profiles as [|profile rest IH]; intros i s sent s' sent' e;
    cbn [connect.rounds]; [discriminate|].
  destruct (connect.round cfg (w i) total profile s sent) as [[s1 sent1] fl] eqn:Hround.
  apply round_cases in Hround.
  destruct Hround; try (apply IH); try discriminate.
  now intros [= _ _ <-].
Qed.

Lemma message_rounds_error (w : nat -> message.World) (total : Z)
      (connections : list ConnectionRequest.t) :
  forall i s sent s' sent' e,
    message.rounds cfg w total i connections s sent = (s', sent', Some e) ->
    e = "context canceled".
Proof.
  induction connections as [|conn rest IH]; intros i s sent s' sent' e;
    cbn [message.rounds]; [discriminate|].
  destruct (message.round cfg (w i) total conn s sent) as [[s1 sent1] fl] eqn:Hround.
  assert (Hfl : fl = message.Continue \/ fl = message.Break
                \/ fl = message.Return "context canceled").
  { revert Hround. unfold message.round, message.send_and_count.
    destruct (message.ctx_done (w i)); [intros [= _ _ <-]; auto|].
    destruct (message.canSendMessage _ _ _ _); cbn [negb]; [|intros [= _ _ <-]; auto].
    destruct (ConnectionRequest.AcceptedAt conn) as [t|];
      [destruct (message.accepted_too_recently cfg _ t); [intros [= _ _ <-]; auto|]|];
      destruct (message.sendMessage (w i) conn s) as [s2 [e2|]];
      try destruct (LogActivity _ _ _ _ _ _ _); intros [= _ _ <-]; auto. }
  destruct Hfl as [-> | [-> | ->]]; [apply IH | discriminate | now intros [= _ _ <-]].
Qed.

Lemma SearchProfiles_store (w : nat -> search.TargetWorld) (log_now : Z)
      (log_err : option string) (st : Storage) (count : Z) (st' : Storage)
      (profiles : list Profile.t) (e : option string) :
  search.SearchProfiles cfg scfg w log_now log_err st count = Some (st', profiles, e) ->
  e = None
  /\ connection_requests st' = connection_requests st
  /\ messages st' = messages st
  /\ exists events, activity_log st' = activity_log st ++ events.
Proof.
  unfold search.SearchProfiles.
  destruct (search.targets_loop cfg scfg w O (search.Targets scfg) [] [] count);
    [|discriminate].
  unfold LogActivity. destruct log_err; intros [= <- <- <-]; repeat split.
  - exists []. now rewrite app_nil_r.
  - eexists. reflexivity.
Qed.

(** A message to a connection that was in the store, accepted and without
    a message, before the run. *)
Definition follows_up (st : Storage) (m : Message.t) : Prop :=
  Message.Status m = "sent"
  /\ (exists conn,
         In conn (connection_requests st)
         /\ ConnectionRequest.Status conn = "accepted"
         /\ Message.ProfileURL m = ConnectionRequest.ProfileURL conn)
  /\ forall m0, In m0 (messages st) -> Message.ProfileURL m0 <> Message.ProfileURL m.

Lemma SendMessages_follows_up (get_err : option string) (w : nat -> message.World)
      (st0 : Storage) (s s' : message.State) (n : Z) (e : option string) :
  messages (message.store s) = messages st0 ->
  (forall c, In c (connection_requests (message.store s)) ->
             ConnectionRequest.Status c = "accepted" ->
             In c (connection_requests st0)) ->
  message.SendMessages cfg get_err w s = (s', n, e) ->
  connection_requests (message.store s') = connection_requests (message.store s)
  /\ (exists new,
         messages (message.store s') = messages st0 ++ new
         /\ Z.of_nat (List.length new) = n
         /\ Forall (follows_up st0) new)
  /\ (exists events,
         activity_log (message.store s') = activity_log (message.store s) ++ events)
  /\ (e = None
      \/ e = Some "context canceled"
      \/ exists e0, get_err = Some e0 /\ n = 0
                    /\ e = Some (wrap_err "failed to get accepted connections" e0)).
Proof.
  intros Hmsgs Hold. unfold message.SendMessages.
  assert (Hsame : forall s1 : message.State,
             message.store s1 = message.store s ->
             forall e1,
               (e1 = None \/ e1 = Some "context canceled"
                \/ exists e0, get_err = Some e0 /\ 0 = 0
                     /\ e1 = Some (wrap_err "failed to get accepted connections" e0)) ->
             (s1, 0, e1) = (s', n, e) ->
             connection_requests (message.store s') = connection_requests (message.store s)
             /\ (exists new,
                    messages (message.store s') = messages st0 ++ new
                    /\ Z.of_nat (List.length new) = n
                    /\ Forall (follows_up st0) new)
             /\ (exists events,
                    activity_log (message.store s')
                    = activity_log (message.store s) ++ events)
             /\ (e = None \/ e = Some "context canceled"
                 \/ exists e0, get_err = Some e0 /\ n = 0
                      /\ e = Some (wrap_err "failed to get accepted connections" e0))).
  { intros s1 Hs1 e1 He1 [= <- <- <-]. rewrite Hs1. split; [reflexivity|]. split.
    - exists []. rewrite app_nil_r. repeat split; [exact Hmsgs | constructor].
    - split; [exists []; now rewrite app_nil_r | exact He1]. }
  destruct (Enabled (Messaging cfg)); cbn [negb].
  2:{ apply Hsame; [reflexivity | now left]. }
  destruct get_err as [e0|]; cbn [GetAcceptedConnections].
  { apply Hsame; [reflexivity|]. right. right. exists e0. repeat split. }
  fold (accepted_connections (message.store (message.write_log message.LogStarting s))).
  set (conns := accepted_connections
                  (message.store (message.write_log message.LogStarting s))).
  destruct (Nat.eqb_spec (List.length conns) 0).
  { apply Hsame; [reflexivity | now left]. }
  intros Hrun.
  destruct (rounds_add_messages _ _ _ _ _ _ _ _ _ _ Hrun)
    as (new & (Hm & Hn & Hf & Hr & ev & Ha & _) & _).
  cbn [message.store message.write_log] in Hm, Hr, Ha.
  split; [exact Hr|]. split; [|split].
  - exists new. rewrite Hm, Hmsgs. split; [reflexivity|]. split; [lia|].
    eapply Forall_impl; [|exact Hf]. cbn. intros m (Hs & c & i & Hin & Hu & _).
    subst conns. apply In_accepted_connections in Hin.
    cbn [message.store message.write_log] in Hin. destruct Hin as (Hin & Hacc & Hno).
    split; [exact Hs|]. split.
    + exists c. repeat split; [now apply Hold | exact Hacc | exact Hu].
    + intros m0 Hm0. rewrite Hu. apply Hno. now rewrite Hmsgs.
  - exists ev. exact Ha.
  - destruct e as [e1|]; [|now left]. right. left.
    now rewrite (message_rounds_error _ _ _ _ _ _ _ _ _ Hrun).
Qed.

(** X24.  What one run of the workflow leaves behind.  The run only
    appends to the three tables.  The requests it adds are as many as it
    reports as sent and are pending; the messages it adds are as many as
    it reports, and each goes to a connection that was in the store,
    accepted and without a message, before the run: nobody is sent a
    request and a message by the same run.  Its error is never the one of
    the search: it is nil, the cancellation of one of the two phases, or
    the failed query for the accepted connections; once the connection
    phase is cancelled no message is sent. *)
Theorem workflow_run_adds_what_it_reports (w : WorkflowWorld) (st : Storage) (run : Run) :
  runWorkflow cfg scfg w st = Some run ->
  (exists requests,
      connection_requests (store run) = connection_requests st ++ requests
      /\ Z.of_nat (List.length requests) = sent run
      /\ Forall (fun r => ConnectionRequest.Status r = "pending") requests)
  /\ (exists new,
         messages (store run) = messages st ++ new
         /\ Z.of_nat (List.length new) = messaged run
         /\ Forall (follows_up st) new)
  /\ (exists events, activity_log (store run) = activity_log st ++ events)
  /\ (err run = None
      \/ (err run = Some "connection requests failed: context canceled"
          /\ messaged run = 0)
      \/ err run = Some "messaging failed: context canceled"
      \/ exists e, get_accepted_err w = Some e /\ messaged run = 0
                   /\ err run = Some (wrap_err "messaging failed"
                                        (wrap_err "failed to get accepted connections" e))).
Proof.
  unfold runWorkflow.
  destruct (search.SearchProfiles cfg scfg (search_world w) (search_log_now w)
                                  (search_log_err w) st (action_count w))
    as [[[st1 profiles] e]|] eqn:Hsearch; [|discriminate].
  destruct (SearchProfiles_store _ _ _ _ _ _ _ _ Hsearch) as (-> & Hr1 & Hm1 & ev1 & Ha1).
  destruct (connect.SendConnectionRequests cfg (connect_world w) profiles
              {| connect.store := st1; connect.log := [] |})
    as [[s2 sent2] e2] eqn:Hconnect.
  pose proof Hconnect as Hadds. unfold connect.SendConnectionRequests in Hadds.
  destruct (rounds_add_requests _ _ _ _ _ _ _ _ _ _ Hadds)
    as (requests & Hr2 & Hn2 & Hf2 & _ & Hm2 & ev2 & Ha2 & _).
  cbn [connect.store connect.write_log] in Hr2, Hm2, Ha2. rewrite Z.sub_0_r in Hn2.
  assert (Hpending : Forall (fun r => ConnectionRequest.Status r = "pending") requests).
  { eapply Forall_impl; [|exact Hf2]. cbn. tauto. }
  destruct e2 as [e2|].
  { intros [= <-]. cbn [store sent messaged err].
    split; [exists requests; rewrite Hr2, Hr1; auto|].
    split; [exists []; rewrite app_nil_r, Hm2, Hm1; repeat split; constructor|].
    split; [exists (ev1 ++ ev2); now rewrite Ha2, Ha1, app_assoc|].
    right. left. split; [|reflexivity].
    now rewrite (connect_rounds_error _ _ _ _ _ _ _ _ _ Hadds). }
  destruct (message.SendMessages cfg (get_accepted_err w) (message_world w)
              {| message.store := connect.store s2; message.log := [] |})
    as [[s3 n3] e3] eqn:Hmessage.
  assert (Hold : forall c,
             In c (connection_requests (connect.store s2)) ->
             ConnectionRequest.Status c = "accepted" ->
             In c (connection_requests st)).
  { intros c Hin Hacc. rewrite Hr2, Hr1 in Hin. apply in_app_iff in Hin.
    destruct Hin as [Hin | Hin]; [exact Hin|].
    rewrite Forall_forall in Hpending. rewrite (Hpending c Hin) in Hacc. discriminate. }
  assert (Hm0 : messages (message.store {| message.store := connect.store s2;
                                           message.log := [] |}) = messages st)
    by (cbn [message.store]; now rewrite Hm2, Hm1).
  destruct (SendMessages_follows_up (get_accepted_err w) (message_world w) st _ _ _ _
              Hm0 Hold Hmessage)
    as (Hr3 & Hnew & (ev3 & Ha3) & He3).
  cbn [message.store] in Hr3, Ha3.
  assert (Hrun : forall e,
             (e = None
              \/ (e = Some "connection requests failed: context canceled" /\ n3 = 0)
              \/ e = Some "messaging failed: context canceled"
              \/ exists e0, get_accepted_err w = Some e0 /\ n3 = 0
                   /\ e = Some (wrap_err "messaging failed"
                                  (wrap_err "failed to get accepted connections" e0))) ->
             forall r, r = {| store := message.store s3; sent := sent2;
                              messaged := n3; err := e |} ->
             (exists requests,
                 connection_requests (store r) = connection_requests st ++ requests
                 /\ Z.of_nat (List.length requests) = sent r
                 /\ Forall (fun r => ConnectionRequest.Status r = "pending") requests)
             /\ (exists new,
                    messages (store r) = messages st ++ new
                    /\ Z.of_nat (List.length new) = messaged r
                    /\ Forall (follows_up st) new)
             /\ (exists events, activity_log (store r) = activity_log st ++ events)
             /\ (err r = None
                 \/ (err r = Some "connection requests failed: context canceled"
                     /\ messaged r = 0)
                 \/ err r = Some "messaging failed: context canceled"
                 \/ exists e0, get_accepted_err w = Some e0 /\ messaged r = 0
                      /\ err r = Some (wrap_err "messaging failed"
                                        (wrap_err "failed to get accepted connections" e0)))).
  { intros e He r ->. cbn [store sent messaged err].
    split; [exists requests; rewrite Hr3, Hr2, Hr1; auto|].
    split; [exact Hnew|].
    split; [exists ((ev1 ++ ev2) ++ ev3); now rewrite Ha3, Ha2, Ha1, !app_assoc|].
    exact He. }
  destruct e3 as [e3|]; intros [= <-].
  - apply (Hrun (Some (wrap_err "messaging failed" e3))); [|reflexivity].
    destruct He3 as [He3 | [[= ->] | (e0 & Hget & Hn & [= ->])]]; [discriminate| |].
    + right. right. now left.
    + right. right. right. exists e0. repeat split; assumption.
  - apply (Hrun None); [now left | reflexivity].
Qed.

End Workflow.

Section LoopRound.
Import config storage main.

Variable cfg : Config.
Variable scfg : search.SearchConfig.

(** X25.  A round of the loop of [main] acts only inside the schedule and
    while the daily counts it is given are below the daily caps.  [main]
    returns exactly when the context is done.  A round that changes the
    store found [ShouldRun] true and both counts of [GetTodayStats], of
    the connections and of the messages, below their daily caps; outside
    the schedule the round sleeps 30 minutes, and once one of the two
    counts has reached its cap it sleeps an hour with the store as it was:
    a reached daily cap of messages stops the connection requests too, and
    the other way round.  The hourly caps are left to the phases.  (The
    counts are those the queries deliver: the rows whose UTC date is the
    date on the wall clock of the host, and 0 when the query fails; see
    [loop_round_runs_at_the_cap_on_a_failed_query].) *)
Theorem loop_round_acts_inside_schedule_and_caps
        (w : LoopWorld) (st st' : Storage) (step : Step) :
  iteration cfg scfg w st = Some (st', step) ->
  (step = Shutdown <-> ctx_done w = true)
  /\ (st' <> st ->
      ctx_done w = false
      /\ scheduler.ShouldRun cfg (now_schedule w) = true
      /\ connections_today st (now_stats w) < PerDay (Connections (RateLimits cfg))
      /\ messages_today st (now_stats w) < PerDay (Messages (RateLimits cfg)))
  /\ (ctx_done w = false ->
      scheduler.ShouldRun cfg (now_schedule w) = false ->
      st' = st /\ step = SleepThenLoop (30 * gotime.Minute))
  /\ (ctx_done w = false ->
      scheduler.ShouldRun cfg (now_schedule w) = true ->
      PerDay (Connections (RateLimits cfg)) <= connections_today st (now_stats w)
      \/ PerDay (Messages (RateLimits cfg)) <= messages_today st (now_stats w) ->
      st' = st /\ step = SleepThenLoop gotime.Hour).
Proof.
  unfold iteration, canProceed.
  change (ConnectionsSent (GetTodayStats st (now_stats w)))
    with (connections_today st (now_stats w)).
  change (MessagesSent (GetTodayStats st (now_stats w)))
    with (messages_today st (now_stats w)).
  destruct (ctx_done w).
  { intros [= <- <-]. repeat split; intros; congruence. }
  destruct (scheduler.ShouldRun cfg (now_schedule w)); cbn [negb].
  2:{ intros [= <- <-]. repeat split; intros; congruence. }
  destruct (Z.leb_spec (PerDay (Connections (RateLimits cfg)))
                       (connections_today st (now_stats w))) as [Hc | Hc]; cbn [negb].
  { intros [= <- <-]. repeat split; intros; congruence. }
  destruct (Z.leb_spec (PerDay (Messages (RateLimits cfg)))
                       (messages_today st (now_stats w))) as [Hm | Hm]; cbn [negb].
  { intros [= <- <-]. repeat split; intros; congruence. }
  destruct (runWorkflow cfg scfg (workflow w) st) as [run|]; [|discriminate].
  destruct (err run); intros [= <- <-]; repeat split; intros; try congruence; lia.
Qed.

End LoopRound.

(** *** A run of the workflow on an example *)
Section WorkflowChecks.
Import config storage main.

Definition url_carol : string := "https://www.linkedin.com/in/carol-poe/".

(** Carol accepted two days ago; nobody else is in the store. *)
Definition store_carol_accepted : Storage :=
  {| connection_requests :=
       [examples.request 1 url_carol "accepted"
                         (examples.tuesday_10h - 3 * gotime.Day)
                         (Some (examples.tuesday_10h - 2 * gotime.Day))];
     messages := []; activity_log := [] |}.

Definition workflow_quiet : WorkflowWorld :=
  {| action_count := 0;
     search_world := target_world;
     search_log_now := examples.tuesday_10h; search_log_err := None;
     connect_world := fun _ => examples.world_quiet;
     get_accepted_err := None;
     message_world := fun _ => examples.message_world examples.tuesday_10h |}.

Definition loop_quiet : LoopWorld :=
  {| ctx_done := false; now_schedule := examples.tuesday_10h;
     now_stats := examples.on_utc_host examples.tuesday_10h;
     workflow := workflow_quiet |}.

(** The same round with the count queries of [canProceed] failing. *)
Definition loop_locked_database : LoopWorld :=
  {| ctx_done := false; now_schedule := examples.tuesday_10h;
     now_stats := on_locked_database examples.tuesday_10h;
     workflow := workflow_quiet |}.

(** A store with one message of today and no connection request. *)
Definition store_one_message : Storage :=
  {| connection_requests := [];
     messages := [examples.message_at 1 url_carol examples.tuesday_10h];
     activity_log := [] |}.

(** The example configuration with a daily cap of one message. *)
Definition cfg_one_message_a_day : Config := examples.cfg (examples.limits 10 20 10 1).

Lemma workflow_run_adds_what_it_reports_witness :
  (exists run,
      runWorkflow examples.cfg0 scfg_two_targets workflow_quiet store_carol_accepted
      = Some run
      /\ sent run = 2 /\ messaged run = 1 /\ err run = None)
  /\ forall run,
      runWorkflow examples.cfg0 scfg_two_targets workflow_quiet store_carol_accepted
      = Some run ->
      exists new,
        messages (store run) = messages store_carol_accepted ++ new
        /\ Z.of_nat (List.length new) = messaged run
        /\ Forall (follows_up store_carol_accepted) new.
Proof.
  split.
  - eexists. split; [vm_compute; reflexivity|]. repeat split.
  - intros run Hrun.
    exact (proj1 (proj2 (workflow_run_adds_what_it_reports
                           examples.cfg0 scfg_two_targets workflow_quiet
                           store_carol_accepted run Hrun))).
Defined.

Lemma loop_round_acts_inside_schedule_and_caps_witness :
  connect.canSendConnection cfg_one_message_a_day store_one_message
                            (examples.on_utc_host examples.tuesday_10h)
                            (examples.on_utc_host examples.tuesday_10h) = true
  /\ iteration cfg_one_message_a_day scfg_two_targets loop_quiet store_one_message
     = Some (store_one_message, SleepThenLoop gotime.Hour)
  /\ (SleepThenLoop gotime.Hour = Shutdown <-> ctx_done loop_quiet = true).
Proof.
  split; [reflexivity|]. split; [reflexivity|].
  apply (loop_round_acts_inside_schedule_and_caps
           cfg_one_message_a_day scfg_two_targets loop_quiet
           store_one_message store_one_message (SleepThenLoop gotime.Hour)).
  reflexivity.
Defined.

(** With the daily cap of messages reached and the count queries failing,
    the round does not sleep the hour: it runs the workflow, which sends
    two requests. *)
Example loop_round_runs_at_the_cap_on_a_failed_query :
  spec_today (map Message.SentAt (messages store_one_message)) 0 examples.tuesday_10h
  = PerDay (Messages (RateLimits cfg_one_message_a_day))
  /\ exists st',
      iteration cfg_one_message_a_day scfg_two_targets loop_locked_database
                store_one_message
      = Some (st', SleepThenLoop (60 * gotime.Second))
      /\ List.length (connection_requests st') = 2%nat.
Proof. split; [reflexivity|]. eexists. split; vm_compute; reflexivity. Qed.

End WorkflowChecks.

(** ** Custom messages *)
Section CustomMessages.
Import config storage message.

Variable cfg : Config.

(** The profile of a custom message is at hand: it was found, or created. *)
Definition profile_at_hand (get_profile : result (option Profile.t))
           (save_profile : Z * option string) : bool :=
  match get_profile with
  | Err _ => false
  | Ok (Some _) => true
  | Ok None => match snd save_profile with Some _ => false | None => true end
  end.

(** X26.  A custom message is sent whatever the quota and the history say.
    Whether [SendMessageToProfile] succeeds depends only on the profile
    lookup, the browser and the INSERT, not on the store or the
    configuration: neither the caps of [canSendMessage] nor an earlier
    message to the URL stop it.  On success it appends one message with
    status 'sent', the given URL and content.  A later daily count of
    messages whose query is answered counts it exactly when the date of
    the call on the wall clock of the host is the UTC date of the insert,
    and it then uses up the daily cap of the message phase.  On
    failure it leaves the store as it was: unlike a failed send of the
    message phase, a failed custom message leaves no activity event. *)
Theorem custom_message_bypasses_caps_and_history
        (w : World) (get_profile : result (option Profile.t))
        (save_profile : Z * option string) (profileURL content : string)
        (st st' : Storage) (err : option string) :
  SendMessageToProfile w get_profile save_profile profileURL content st = (st', err) ->
  (err = None
   <-> profile_at_hand get_profile save_profile = true
       /\ message_browser_err w = None
       /\ save_err w = None)
  /\ (err = None ->
      connection_requests st' = connection_requests st
      /\ (exists row,
             messages st' = messages st ++ [row]
             /\ Message.ProfileURL row = profileURL
             /\ Message.Content row = content
             /\ Message.Status row = "sent"
             /\ Message.SentAt row = CURRENT_TIMESTAMP (save_now w))
      /\ (forall c,
             messages_scan_err c = None ->
             messages_today st' c
             = messages_today st c
               + (if gotime.same_date (CURRENT_TIMESTAMP (save_now w))
                                      (at_instant c + zone_offset c)
                  then 1 else 0))
      /\ (forall now_today now_hour,
             messages_scan_err now_today = None ->
             gotime.same_date (CURRENT_TIMESTAMP (save_now w))
                              (at_instant now_today + zone_offset now_today) = true ->
             PerDay (Messages (RateLimits cfg)) <= messages_today st now_today + 1 ->
             canSendMessage cfg st' now_today now_hour = false))
  /\ (err <> None -> st' = st).
Proof.
  unfold SendMessageToProfile, profile_at_hand.
  fold (message_browser_err w). rewrite message_browser_send_eq.
  assert (Hfail : forall e (P Q : Prop),
             (st, Some e) = (st', err) ->
             (P -> False) ->
             (err = None <-> P) /\ (err = None -> Q) /\ (err <> None -> st' = st)).
  { intros e P Q [= <- <-] HP. split; [split; [discriminate | intros H; elim (HP H)]|].
    split; [discriminate | reflexivity]. }
  assert (Hsent : forall profileID,
             (and_then
                (and_then (st, message_browser_err w)
                   (fun st0 =>
                      let '(st1, err0) :=
                        SaveMessage st0
                          {| Message.ID := 0; Message.ProfileID := profileID;
                             Message.ProfileURL := profileURL;
                             Message.Content := content;
                             Message.SentAt := send_now w;
                             Message.Status := "sent" |} (save_now w) (save_err w) in
                      (st1, or_fail err0 "failed to save message")))
                (fun st0 =>
                   let '(st1, _) := LogActivity st0 "message" profileURL "success" ""
                                                (log_now w) (log_err w) in
                   (st1, None))) = (st', err) ->
             (err = None <-> true = true /\ message_browser_err w = None
                             /\ save_err w = None)
             /\ (err = None ->
                 connection_requests st' = connection_requests st
                 /\ (exists row,
                        messages st' = messages st ++ [row]
                        /\ Message.ProfileURL row = profileURL
                        /\ Message.Content row = content
                        /\ Message.Status row = "sent"
                        /\ Message.SentAt row = CURRENT_TIMESTAMP (save_now w))
                 /\ (forall c,
                        messages_scan_err c = None ->
                        messages_today st' c
                        = messages_today st c
                          + (if gotime.same_date (CURRENT_TIMESTAMP (save_now w))
                                                 (at_instant c + zone_offset c)
                             then 1 else 0))
                 /\ (forall now_today now_hour,
                        messages_scan_err now_today = None ->
                        gotime.same_date (CURRENT_TIMESTAMP (save_now w))
                                         (at_instant now_today + zone_offset now_today)
                        = true ->
                        PerDay (Messages (RateLimits cfg))
                        <= messages_today st now_today + 1 ->
                        canSendMessage cfg st' now_today now_hour = false))
             /\ (err <> None -> st' = st)).
  { intros profileID. destruct (message_browser_err w) as [e|]; cbn [and_then].
    { intros Heq; apply (Hfail _ _ _ Heq). intros (_ & H & _). discriminate H. }
    unfold SaveMessage. destruct (save_err w) as [e|]; cbn [and_then or_fail option_map].
    { intros Heq; apply (Hfail _ _ _ Heq). intros (_ & _ & H). discriminate H. }
    assert (Hcount : forall (st1 : Storage) row c,
               messages st1 = messages st ++ [row] ->
               Message.SentAt row = CURRENT_TIMESTAMP (save_now w) ->
               messages_scan_err c = None ->
               messages_today st1 c
               = messages_today st c
                 + (if gotime.same_date (CURRENT_TIMESTAMP (save_now w))
                                        (at_instant c + zone_offset c)
                    then 1 else 0)).
    { intros st1 row c Hm Hs Hscan. unfold messages_today, count_if.
      rewrite Hscan. cbn [scanned].
      rewrite Hm, filter_app, length_app, Nat2Z.inj_add. cbn [filter].
      unfold on_local_date, local_time. rewrite Hs.
      destruct (gotime.same_date (CURRENT_TIMESTAMP (save_now w)) _); reflexivity. }
    unfold LogActivity. destruct (log_err w); intros [= <- <-];
      (split; [split; [intros _; repeat split | reflexivity]|]);
      (split; [|intros H; now elim H]); intros _; cbn [connection_requests messages];
      (split; [reflexivity|]);
      (split; [eexists; split; [reflexivity|]; repeat split|]);
      (split; [intros c Hscan; eapply Hcount; [reflexivity | reflexivity | exact Hscan]|]);
      intros t t' Hscan Hsame Hcap;
      (destruct (canSendMessage cfg _ t t') eqn:Hcan; [|reflexivity]);
      apply canSendMessage_true_iff in Hcan; destruct Hcan as [_ Hcan];
      erewrite Hcount in Hcan by (reflexivity || exact Hscan);
      rewrite Hsame in Hcan; lia. }
  destruct get_profile as [[profile|]|e].
  - apply Hsent.
  - destruct save_profile as [profileID [e|]]; cbn [snd].
    + intros Heq; apply (Hfail _ _ _ Heq). intros (H & _). discriminate H.
    + apply Hsent.
  - intros Heq; apply (Hfail _ _ _ Heq). intros (H & _). discriminate H.
Qed.

End CustomMessages.

(** *** A custom message past the daily cap *)
Section CustomMessageChecks.
Import config storage message.

Lemma custom_message_bypasses_caps_and_history_witness :
  canSendMessage cfg_one_message_a_day store_one_message
                 (examples.on_utc_host examples.tuesday_10h)
                 (examples.on_utc_host examples.tuesday_10h) = false
  /\ IsMessageSent store_one_message url_carol None = (true, None)
  /\ snd (SendMessageToProfile (examples.message_world examples.tuesday_10h)
                               (Ok None) (7, None) url_carol "Hello again"
                               store_one_message) = None
  /\ exists row,
      messages (fst (SendMessageToProfile (examples.message_world examples.tuesday_10h)
                                          (Ok None) (7, None) url_carol "Hello again"
                                          store_one_message))
      = messages store_one_message ++ [row]
      /\ Message.ProfileURL row = url_carol
      /\ Message.Content row = "Hello again"
      /\ Message.Status row = "sent"
      /\ Message.SentAt row = CURRENT_TIMESTAMP examples.tuesday_10h.
Proof.
  split; [reflexivity|]. split; [reflexivity|]. split; [reflexivity|].
  destruct (custom_message_bypasses_caps_and_history
              cfg_one_message_a_day (examples.message_world examples.tuesday_10h)
              (Ok None) (7, None) url_carol "Hello again" store_one_message _ _
              (surjective_pairing _)) as (_ & H & _).
  destruct (H eq_refl) as (_ & Hrow & _). exact Hrow.
Defined.

End CustomMessageChecks.

(** ** The connection note *)
Section ConnectionNote.
Import config storage connect.

Variable cfg : Config.

(** The template [generateNote] draws. *)
Definition drawn_template (src : Z) : string :=
  nth (Z.to_nat (src mod Z.of_nat (List.length (NoteTemplates (Connection cfg)))))
      (NoteTemplates (Connection cfg)) EmptyString.

Lemma length_substring_0 (n : nat) (s : string) :
  (n <= String.length s)%nat -> String.length (String.substring 0 n s) = n.
Proof.
  revert s. induction n as [|n IH]; intros s Hn.
  - destruct s; reflexivity.
  - destruct s as [|c s]; cbn in *; [lia|]. rewrite IH; [reflexivity | lia].
Qed.

Lemma string_length_app (a b : string) :
  String.length (a ++ b) = (String.length a + String.length b)%nat.
Proof. induction a as [|c a IH]; cbn; [reflexivity | now rewrite IH]. Qed.

Lemma drawn_template_listed (src : Z) :
  NoteTemplates (Connection cfg) <> [] ->
  In (drawn_template src) (NoteTemplates (Connection cfg)).
Proof.
  intros Hne. unfold drawn_template. apply nth_In.
  assert (0 < Z.of_nat (List.length (NoteTemplates (Connection cfg)))).
  { destruct (NoteTemplates (Connection cfg)); [congruence | cbn; lia]. }
  pose proof (Z.mod_pos_bound src _ H). lia.
Qed.

Lemma generateNote_drawn (src : Z) (profile : Profile.t) :
  NoteTemplates (Connection cfg) <> [] ->
  generateNote cfg src profile
  = let note := fill_note (drawn_template src) profile in
    if NoteMaxLength (Connection cfg) <? Z.of_nat (String.length note) then
      let cut := wrap64 (NoteMaxLength (Connection cfg) - 3) in
      if (cut <? 0) || (Z.of_nat (String.length note) <? cut) then None
      else Some (String.substring 0 (Z.to_nat cut) note ++ "...")%string
    else Some note.
Proof.
  intros Hne. unfold generateNote, drawn_template, rand.Intn.
  destruct (NoteTemplates (Connection cfg)) as [|t ts] eqn:E; [congruence|].
  destruct (Z.leb_spec (Z.of_nat (List.length (t :: ts))) 0) as [H|H]; [cbn in H; lia|].
  reflexivity.
Qed.

(** X27.  The connection note fits the configured length, or the call
    panics.  With templates and a maximum length of at least 3 the note
    is the drawn template with its placeholders replaced when that fits,
    and otherwise its first max-3 bytes followed by three dots, max bytes
    in all.  With a maximum length below 3 a note that does not fit makes
    the slice expression panic.  Without templates the default note of 24
    bytes is returned whatever the maximum length is. *)
Theorem generated_note_fits_or_panics (src : Z) (profile : Profile.t) :
  (NoteTemplates (Connection cfg) = [] ->
   generateNote cfg src profile = Some "Hi, I'd love to connect!")
  /\ (NoteTemplates (Connection cfg) <> [] ->
      3 <= NoteMaxLength (Connection cfg) <= MaxInt64 ->
      In (drawn_template src) (NoteTemplates (Connection cfg))
      /\ exists note,
          generateNote cfg src profile = Some note
          /\ Z.of_nat (String.length note) <= NoteMaxLength (Connection cfg)
          /\ (Z.of_nat (String.length (fill_note (drawn_template src) profile))
              <= NoteMaxLength (Connection cfg) ->
              note = fill_note (drawn_template src) profile)
          /\ (NoteMaxLength (Connection cfg)
              < Z.of_nat (String.length (fill_note (drawn_template src) profile)) ->
              note = (String.substring 0 (Z.to_nat (NoteMaxLength (Connection cfg) - 3))
                                       (fill_note (drawn_template src) profile)
                      ++ "...")%string
              /\ Z.of_nat (String.length note) = NoteMaxLength (Connection cfg)))
  /\ (NoteTemplates (Connection cfg) <> [] ->
      MinInt64 + 3 <= NoteMaxLength (Connection cfg) < 3 ->
      NoteMaxLength (Connection cfg)
      < Z.of_nat (String.length (fill_note (drawn_template src) profile)) ->
      generateNote cfg src profile = None).
Proof.
  split; [|split].
  - intros E. unfold generateNote. now rewrite E.
  - intros Hne Hmax. split; [now apply drawn_template_listed|].
    rewrite (generateNote_drawn src profile Hne). cbv zeta.
    set (note := fill_note (drawn_template src) profile).
    set (limit := NoteMaxLength (Connection cfg)) in *.
    rewrite (wrap64_small (limit - 3))
      by (unfold int_range, MinInt64, MaxInt64 in *; lia).
    destruct (Z.ltb_spec limit (Z.of_nat (String.length note))) as [Hlong | Hfits].
    + destruct (Z.ltb_spec (limit - 3) 0); [lia|].
      destruct (Z.ltb_spec (Z.of_nat (String.length note)) (limit - 3)); [lia|].
      cbn [orb]. eexists. split; [reflexivity|].
      assert (Hlen : Z.of_nat (String.length
                       (String.substring 0 (Z.to_nat (limit - 3)) note ++ "...")) = limit).
      { rewrite string_length_app, length_substring_0 by lia. cbn. lia. }
      split; [lia|]. split; [lia|]. intros _. split; [reflexivity | exact Hlen].
    + exists note. split; [reflexivity|]. split; [lia|]. split; [reflexivity | lia].
  - intros Hne Hmax Hlong. rewrite (generateNote_drawn src profile Hne). cbv zeta.
    rewrite (wrap64_small (NoteMaxLength (Connection cfg) - 3))
      by (unfold int_range, MinInt64, MaxInt64 in *; lia).
    destruct (Z.ltb_spec (NoteMaxLength (Connection cfg))
                (Z.of_nat (String.length (fill_note (drawn_template src) profile))));
      [|lia].
    destruct (Z.ltb_spec (NoteMaxLength (Connection cfg) - 3) 0); [reflexivity | lia].
Qed.

End ConnectionNote.

(** *** The note on an example *)
Section ConnectionNoteChecks.
Import config storage connect.

(** [cfg] with other note settings. *)
Definition with_notes (templates : list string) (maxLength : Z) (cfg : Config) : Config :=
  {| Browser := Browser cfg; Stealth := Stealth cfg; RateLimits := RateLimits cfg;
     Connection := {| SendNote := true; NoteTemplates := templates;
                      NoteMaxLength := maxLength |};
     Messaging := Messaging cfg; Scheduling := Scheduling cfg;
     config.Storage := config.Storage cfg; LinkedIn := LinkedIn cfg |}.

Definition note_templates : list string :=
  ["Hi {{FirstName}}, I work on {{Field}} too and would like to connect.";
   "Hello {{FirstName}}, your work as {{Topic}} at {{Company}} caught my eye."].

Lemma generated_note_fits_or_panics_witness :
  generateNote (with_notes note_templates 40 examples.cfg0) 1 examples.jane
  = Some "Hello Jane, your work as Engineer at ..."
  /\ generateNote (with_notes note_templates 2 examples.cfg0) 1 examples.jane = None
  /\ exists note,
      generateNote (with_notes note_templates 40 examples.cfg0) 1 examples.jane = Some note
      /\ Z.of_nat (String.length note) <= 40.
Proof.
  split; [reflexivity|]. split.
  - apply (proj2 (proj2 (generated_note_fits_or_panics
                           (with_notes note_templates 2 examples.cfg0) 1 examples.jane))).
    + intros H; discriminate H.
    + split; [apply Z.leb_le | apply Z.ltb_lt]; reflexivity.
    + apply Z.ltb_lt. reflexivity.
  - assert (Hne : NoteTemplates (Connection (with_notes note_templates 40 examples.cfg0))
                  <> []) by (intros H; discriminate H).
    assert (Hmax : 3 <= NoteMaxLength (Connection (with_notes note_templates 40
                                                                examples.cfg0))
                   <= MaxInt64) by (split; apply Z.leb_le; reflexivity).
    destruct (proj1 (proj2 (generated_note_fits_or_panics
                              (with_notes note_templates 40 examples.cfg0) 1 examples.jane))
                Hne Hmax) as (_ & note & Hnote & Hlen & _).
    exists note. split; assumption.
Defined.

End ConnectionNoteChecks.

(** ** First names and messaging URLs *)
Section FirstNames.
Import connect.

(** One of the six white space characters of ASCII. *)
Definition ascii_space (c : ascii) : bool :=
  let b := nat_of_ascii c in
  ((9 <=? b) && (b <=? 13) || (b =? 32))%nat.

(** No byte of [s] is ASCII white space. *)
Definition spaceless (s : string) : Prop :=
  Forall (fun c => ascii_space c = false) (list_ascii_of_string s).

Lemma space_width_0_head (c : ascii) (rest : string) :
  strings.space_width (String c rest) = O -> ascii_space c = false.
Proof.
  unfold strings.space_width, ascii_space.
  destruct ((9 <=? nat_of_ascii c) && (nat_of_ascii c <=? 13)
            || (nat_of_ascii c =? 32))%nat; [discriminate | reflexivity].
Qed.

Lemma list_ascii_app (a b : string) :
  list_ascii_of_string (a ++ b) = list_ascii_of_string a ++ list_ascii_of_string b.
Proof. induction a as [|c a IH]; cbn; [reflexivity | now rewrite IH]. Qed.

Lemma flush_fields (word : string) :
  spaceless word ->
  Forall (fun field => field <> EmptyString /\ spaceless field) (strings.flush word).
Proof.
  intros Hw. destruct word; cbn; constructor; [|constructor].
  split; [discriminate | exact Hw].
Qed.

Lemma fields_from_spaceless (s : string) :
  forall skip word,
    spaceless word ->
    Forall (fun field => field <> EmptyString /\ spaceless field)
           (strings.fields_from skip word s).
Proof.
  induction s as [|c rest IH]; intros skip word Hw; cbn [strings.fields_from].
  { now apply flush_fields. }
  destruct skip as [|k]; [|now apply IH].
  destruct (strings.space_width (String c rest)) as [|k] eqn:Hsp.
  - apply IH. unfold spaceless. rewrite list_ascii_app. apply Forall_app.
    split; [exact Hw|]. cbn. constructor; [|constructor].
    exact (space_width_0_head c rest Hsp).
  - apply Forall_app. split; [now apply flush_fields | apply IH; constructor].
Qed.

Lemma string_app_assoc (a b c : string) : ((a ++ b) ++ c = a ++ (b ++ c))%string.
Proof. induction a as [|x a IH]; cbn; [reflexivity | now rewrite IH]. Qed.

Lemma string_app_nil_r (a : string) : (a ++ "" = a)%string.
Proof. induction a as [|x a IH]; cbn; [reflexivity | now rewrite IH]. Qed.

Lemma fields_from_first (s : string) :
  forall skip word first others,
    strings.fields_from skip word s = first :: others ->
    (word <> EmptyString -> skip = O ->
     exists middle after, first = (word ++ middle)%string /\ s = (middle ++ after)%string)
    /\ (word = EmptyString ->
        exists before after, s = (before ++ first ++ after)%string).
Proof.
  induction s as [|c rest IH]; intros skip word first others; cbn [strings.fields_from].
  { destruct word as [|w ws]; cbn; [discriminate|]. intros [= <- <-]. split.
    - intros _ _. exists EmptyString, EmptyString. now rewrite string_app_nil_r.
    - discriminate. }
  destruct skip as [|k].
  2:{ intros Hrun. destruct (IH _ _ _ _ Hrun) as [_ Hempty]. split; [discriminate|].
      intros Hw. destruct (Hempty Hw) as (before & after & ->).
      now exists (String c before), after. }
  destruct (strings.space_width (String c rest)) as [|k] eqn:Hsp.
  - intros Hrun. destruct (IH _ _ _ _ Hrun) as [Hword _].
    destruct Hword as (middle & after & -> & ->);
      [destruct word; discriminate | reflexivity|].
    split.
    + intros _ _. exists (String c middle), after.
      now rewrite string_app_assoc.
    + intros ->. now exists EmptyString, after.
  - destruct word as [|w ws]; cbn [strings.flush app].
    + intros Hrun. destruct (IH _ _ _ _ Hrun) as [_ Hempty]. split; [congruence|].
      intros _. destruct (Hempty eq_refl) as (before & after & ->).
      now exists (String c before), after.
    + intros [= <- <-]. split; [|discriminate].
      intros _ _. exists EmptyString, (String c rest). now rewrite string_app_nil_r.
Qed.

(** X28.  The first name put into a connection note is never empty and
    holds no white space of ASCII.  It is "there" when [strings.Fields]
    finds no field in the full name, and otherwise the first field, which
    is a part of the full name. *)
Theorem first_name_is_first_field_or_there (fullName : string) :
  extractFirstName fullName <> EmptyString
  /\ spaceless (extractFirstName fullName)
  /\ (strings.Fields fullName = [] -> extractFirstName fullName = "there")
  /\ (strings.Fields fullName <> [] ->
      exists before after,
        fullName = (before ++ extractFirstName fullName ++ after)%string
        /\ In (extractFirstName fullName) (strings.Fields fullName)).
Proof.
  unfold extractFirstName, strings.Fields.
  pose proof (fields_from_spaceless fullName O EmptyString (Forall_nil _)) as Hall.
  destruct (strings.fields_from 0 "" fullName) as [|first others] eqn:Hfields.
  - split; [discriminate|]. split; [repeat constructor|]. split; [reflexivity|].
    congruence.
  - inversion Hall as [|? ? [Hne Hsp] _]; subst.
    split; [exact Hne|]. split; [exact Hsp|]. split; [discriminate|].
    intros _. destruct (fields_from_first _ _ _ _ _ Hfields) as [_ Hempty].
    destruct (Hempty eq_refl) as (before & after & E).
    exists before, after. split; [exact E | now left].
Qed.

End FirstNames.

Section MessagingURLs.
Import message.

Definition messaging_base : string :=
  "https://www.linkedin.com/messaging/thread/new/?recipient=".

Definition bytes (s : string) : list ascii := list_ascii_of_string s.

Lemma Split_not_nil (s : string) (sep : ascii) : strings.Split s sep <> [].
Proof.
  destruct s as [|c rest]; cbn; [discriminate|].
  destruct (Ascii.eqb c sep); [discriminate|].
  destruct (strings.Split rest sep); discriminate.
Qed.

Lemma Split_no_sep (s : string) (sep : ascii) :
  ~ In sep (bytes s) -> strings.Split s sep = [s].
Proof.
  induction s as [|c rest IH]; cbn; [reflexivity|]. intros Hno.
  destruct (Ascii.eqb_spec c sep) as [-> | _]; [elim Hno; now left|].
  rewrite IH; [reflexivity | intros H; apply Hno; now right].
Qed.

Lemma Split_app_sep (a b : string) (sep : ascii) :
  strings.Split (a ++ String sep b) sep = strings.Split a sep ++ strings.Split b sep.
Proof.
  induction a as [|c a IH]; cbn.
  { now rewrite Ascii.eqb_refl. }
  destruct (Ascii.eqb c sep); rewrite IH; [reflexivity|].
  pose proof (Split_not_nil a sep).
  destruct (strings.Split a sep); [congruence | reflexivity].
Qed.

Lemma nth_last_part (parts : list string) :
  nth (List.length parts - 1) parts EmptyString = last parts EmptyString.
Proof.
  induction parts as [|p parts IH]; [reflexivity|].
  destruct parts as [|q parts]; [reflexivity|].
  cbn [List.length last] in *. rewrite <- IH.
  replace (S (S (List.length parts)) - 1)%nat with (S (S (List.length parts) - 1))%nat by lia.
  reflexivity.
Qed.

Lemma last_Split (s : string) (sep : ascii) :
  ~ In sep (bytes (last (strings.Split s sep) EmptyString))
  /\ exists before,
      s = (before ++ last (strings.Split s sep) EmptyString)%string
      /\ (before = EmptyString
          \/ exists stem, before = (stem ++ String sep EmptyString)%string).
Proof.
  induction s as [|c rest [IHno (before & IHs & IHb)]]; cbn [strings.Split].
  { split; [intros []|]. exists EmptyString. split; [reflexivity | now left]. }
  pose proof (Split_not_nil rest sep) as Hne.
  destruct (Ascii.eqb_spec c sep) as [-> | Hc].
  - destruct (strings.Split rest sep) as [|p ps] eqn:E; [congruence|].
    change (last (EmptyString :: p :: ps) EmptyString) with (last (p :: ps) EmptyString).
    split; [exact IHno|].
    exists (String sep before). split; [cbn [String.append]; now rewrite <- IHs|].
    right. destruct IHb as [-> | (stem & ->)].
    + now exists EmptyString.
    + now exists (String sep stem).
  - destruct (strings.Split rest sep) as [|p ps] eqn:E; [congruence|].
    destruct ps as [|q ps].
    + cbn [last] in *. split.
      * intros [E' | Hin]; [now elim Hc | now apply IHno].
      * exists EmptyString. split; [|now left]. cbn.
        assert (Hrest : strings.Split rest sep = [rest]).
        { apply Split_no_sep. intros Hin.
          destruct IHb as [-> | (stem & ->)].
          - cbn in IHs. subst rest. now apply IHno.
          - pose proof (Split_app_sep stem p sep) as Happ.
            rewrite string_app_assoc in IHs. cbn in IHs. rewrite <- IHs, E in Happ.
            pose proof (Split_not_nil stem sep). pose proof (Split_not_nil p sep).
            destruct (strings.Split stem sep), (strings.Split p sep);
              try congruence; destruct l; discriminate. }
        rewrite E in Hrest. now injection Hrest as ->.
    + change (last (String c p :: q :: ps) EmptyString)
        with (last (p :: q :: ps) EmptyString).
      split; [exact IHno|].
      exists (String c before). split; [cbn [String.append]; now rewrite <- IHs|].
      destruct IHb as [-> | (stem & ->)].
      * exfalso. cbn in IHs.
        assert (Hrest : strings.Split rest sep = [rest])
          by (apply Split_no_sep; rewrite IHs; exact IHno).
        rewrite E in Hrest. discriminate.
      * right. now exists (String c stem).
Qed.

Lemma TrimSuffix_app_last (a : string) (d c : ascii) :
  strings.TrimSuffix (a ++ String d EmptyString) c
  = if Ascii.eqb d c then a else (a ++ String d EmptyString)%string.
Proof.
  induction a as [|x a IH].
  { cbn. destruct (Ascii.eqb d c); reflexivity. }
  change ((String x a ++ String d "")%string) with (String x (a ++ String d "")%string).
  assert (Hstep : strings.TrimSuffix (String x (a ++ String d "")) c
                  = String x (strings.TrimSuffix (a ++ String d "") c)).
  { destruct a; reflexivity. }
  rewrite Hstep, IH. destruct (Ascii.eqb d c); reflexivity.
Qed.

Lemma string_last_byte (s : string) :
  s <> EmptyString ->
  exists a d, s = (a ++ String d EmptyString)%string /\ In d (bytes s).
Proof.
  induction s as [|c s IH]; [congruence|]. intros _.
  destruct s as [|c' s'].
  - exists EmptyString, c. split; [reflexivity | now left].
  - destruct IH as (a & d & E & Hin); [discriminate|].
    exists (String c a), d. split; [cbn; now rewrite <- E | now right].
Qed.

Lemma getMessagingURL_last (profileURL : string) :
  getMessagingURL profileURL
  = (messaging_base
     ++ last (strings.Split (strings.TrimSuffix profileURL "/") "/") EmptyString)%string.
Proof.
  unfold getMessagingURL.
  pose proof (Split_not_nil (strings.TrimSuffix profileURL "/") "/") as Hne.
  rewrite nth_last_part.
  destruct (strings.Split (strings.TrimSuffix profileURL "/") "/"); [congruence|].
  reflexivity.
Qed.

(** X29.  The messaging URL always addresses the last segment of the
    profile URL.  [getMessagingURL] never falls back to the profile URL:
    its result is the thread URL followed by what stands after the last
    slash of the profile URL, one trailing slash apart, and that recipient
    holds no slash.  For a profile URL that ends in /user/ or in /user the
    recipient is user. *)
Theorem messaging_url_addresses_last_segment (profileURL : string) :
  (exists username before,
      getMessagingURL profileURL = (messaging_base ++ username)%string
      /\ strings.TrimSuffix profileURL "/" = (before ++ username)%string
      /\ ~ In "/"%char (bytes username)
      /\ (before = EmptyString
          \/ exists stem, before = (stem ++ "/")%string))
  /\ (forall stem user,
         ~ In "/"%char (bytes user) ->
         profileURL = (stem ++ "/" ++ user ++ "/")%string ->
         getMessagingURL profileURL = (messaging_base ++ user)%string)
  /\ (forall stem user,
         ~ In "/"%char (bytes user) ->
         user <> EmptyString ->
         profileURL = (stem ++ "/" ++ user)%string ->
         getMessagingURL profileURL = (messaging_base ++ user)%string).
Proof.
  rewrite getMessagingURL_last. split; [|split].
  - destruct (last_Split (strings.TrimSuffix profileURL "/") "/")
      as (Hno & before & Hs & Hb).
    eexists _, before. split; [reflexivity|]. split; [exact Hs|]. split; assumption.
  - intros stem user Hno ->.
    replace (stem ++ "/" ++ user ++ "/")%string
      with ((stem ++ String "/" user) ++ String "/" EmptyString)%string
      by (rewrite string_app_assoc; reflexivity).
    rewrite TrimSuffix_app_last, Ascii.eqb_refl, Split_app_sep.
    rewrite (Split_no_sep user "/" Hno).
    pose proof (Split_not_nil stem "/").
    rewrite last_last. reflexivity.
  - intros stem user Hno Hne ->.
    destruct (string_last_byte user Hne) as (a & d & -> & Hd).
    assert (E : (stem ++ "/" ++ a ++ String d "")%string
                = ((stem ++ String "/" a) ++ String d "")%string)
      by (rewrite string_app_assoc; reflexivity).
    rewrite E, TrimSuffix_app_last.
    destruct (Ascii.eqb_spec d "/") as [-> | _]; [contradiction|].
    rewrite <- E.
    change (stem ++ "/" ++ a ++ String d "")%string
      with (stem ++ String "/" (a ++ String d ""))%string.
    rewrite Split_app_sep, (Split_no_sep _ "/" Hno), last_last. reflexivity.
Qed.

End MessagingURLs.

(** *** The messaging URL of an example *)
Section MessagingURLChecks.
Import message.

Lemma messaging_url_addresses_last_segment_witness :
  getMessagingURL examples.url_jane
  = "https://www.linkedin.com/messaging/thread/new/?recipient=jane-doe"
  /\ getMessagingURL "https://www.linkedin.com/in/jane-doe"
     = (messaging_base ++ "jane-doe")%string.
Proof.
  split; [reflexivity|].
  apply (proj2 (proj2 (messaging_url_addresses_last_segment
                         "https://www.linkedin.com/in/jane-doe"))
           "https://www.linkedin.com/in" "jane-doe").
  - cbn. intros H. repeat (destruct H as [H | H]; [discriminate H|]). exact H.
  - intros H; discriminate H.
  - reflexivity.
Defined.

End MessagingURLChecks.

(** ** Logging in *)
Section LoggingIn.
Import config storage auth.

Variable cfg : Config.

(** An activity event of a login. *)
Definition login_event (outcome : string) (a : Activity.t) : Prop :=
  Activity.ActionType a = "login"
  /\ Activity.TargetURL a = "https://www.linkedin.com"
  /\ Activity.Outcome a = outcome.

(** The store [st'] is [st] with at most one more activity event, a login
    with the given outcome; the event is missing only when its INSERT
    failed. *)
Definition logs_login (log_err : option string) (outcome : string) (st st' : Storage) : Prop :=
  connection_requests st' = connection_requests st
  /\ messages st' = messages st
  /\ match log_err with
     | Some _ => activity_log st' = activity_log st
     | None => exists a, activity_log st' = activity_log st ++ [a] /\ login_event outcome a
     end.

Lemma LogActivity_logs_login (st : Storage) (outcome message : string) (t : Z)
      (log_err : option string) :
  logs_login log_err outcome st
             (fst (LogActivity st "login" "https://www.linkedin.com" outcome message
                               t log_err)).
Proof.
  unfold logs_login, LogActivity. destruct log_err; cbn; repeat split.
  eexists. split; [reflexivity|]. repeat split.
Qed.

(** The page shows one of the issues [checkLoginIssues] looks for. *)
Definition issue_found (i : Issues) : option (string * string) :=
  if captcha i then Some ("captcha", "CAPTCHA detected - manual intervention required")
  else if pin i then Some ("2fa", "2FA verification required - manual intervention needed")
  else if challenge i then
    Some ("challenge", "security challenge detected - manual intervention required")
  else
    match issue_url i with
    | Some currentURL =>
      if (String.eqb currentURL "https://www.linkedin.com/login"
          || String.eqb currentURL "https://www.linkedin.com/uas/login-submit")
         && form_error i
      then Some ("failed", "login failed - invalid credentials")
      else None
    | None => None
    end.

Lemma checkLoginIssues_cases (i : Issues) (t : Z) (log_err : option string)
      (st st' : Storage) (e : option string) :
  checkLoginIssues i t log_err st = Some (st', e) ->
  match issue_found i with
  | Some (outcome, message) => e = Some message /\ logs_login log_err outcome st st'
  | None => e = None /\ st' = st
  end.
Proof.
  unfold checkLoginIssues, issue_found.
  destruct (captcha i).
  { pose proof (LogActivity_logs_login st "captcha" "CAPTCHA detected" t log_err) as H.
    destruct (LogActivity _ _ _ _ _ _ _). intros [= <- <-]. now split. }
  destruct (pin i).
  { pose proof (LogActivity_logs_login st "2fa" "2FA verification required" t log_err) as H.
    destruct (LogActivity _ _ _ _ _ _ _). intros [= <- <-]. now split. }
  destruct (challenge i).
  { pose proof (LogActivity_logs_login st "challenge" "Security challenge detected"
                                       t log_err) as H.
    destruct (LogActivity _ _ _ _ _ _ _). intros [= <- <-]. now split. }
  destruct (issue_url i) as [url|]; [|discriminate].
  destruct ((String.eqb url "https://www.linkedin.com/login"
             || String.eqb url "https://www.linkedin.com/uas/login-submit")
            && form_error i).
  { pose proof (LogActivity_logs_login st "failed" "Invalid credentials" t log_err) as H.
    destruct (LogActivity _ _ _ _ _ _ _). intros [= <- <-]. now split. }
  intros [= <- <-]. now split.
Qed.

(** The browser lets the fresh login through to the check of the page. *)
Definition form_submitted (w : World) : bool :=
  match login_navigate_err w, username_err w, email_type_err w, password_err w,
        password_type_err w, login_button_err w, login_click_err w with
  | None, None, None, None, None, None, None => true
  | _, _, _, _, _, _, _ => false
  end.

Lemma fresh_login_cases (w : World) (st : Storage) (out : Outcome) :
  fresh_login cfg w st = Some out ->
  (form_submitted w = false
   /\ store out = st /\ err out <> None
   /\ (typed out = [] \/ typed out = [Email (LinkedIn cfg)]
       \/ typed out = [Email (LinkedIn cfg); Password (LinkedIn cfg)]))
  \/ (form_submitted w = true
      /\ typed out = [Email (LinkedIn cfg); Password (LinkedIn cfg)]
      /\ match issue_found (issues w) with
         | Some (outcome, message) =>
           err out = Some message /\ logs_login (log_err w) outcome st (store out)
         | None =>
           match isLoggedIn (landed w) with
           | Some true => err out = None /\ logs_login (log_err w) "success" st (store out)
           | _ => err out = Some "login verification failed" /\ store out = st
           end
         end).
Proof.
  unfold fresh_login, form_submitted, failed.
  destruct (login_navigate_err w);
    [intros [= <-]; left; cbn; repeat split; try discriminate; auto|].
  destruct (username_err w);
    [intros [= <-]; left; cbn; repeat split; try discriminate; auto|].
  destruct (email_type_err w);
    [intros [= <-]; left; cbn; repeat split; try discriminate; auto|].
  destruct (password_err w);
    [intros [= <-]; left; cbn; repeat split; try discriminate; auto|].
  destruct (password_type_err w);
    [intros [= <-]; left; cbn; repeat split; try discriminate; auto|].
  destruct (login_button_err w);
    [intros [= <-]; left; cbn; repeat split; try discriminate; auto|].
  destruct (login_click_err w);
    [intros [= <-]; left; cbn; repeat split; try discriminate; auto|].
  destruct (checkLoginIssues (issues w) (log_now w) (log_err w) st) as [[st1 e]|] eqn:Hcheck;
    [|discriminate].
  apply checkLoginIssues_cases in Hcheck.
  destruct (issue_found (issues w)) as [[outcome message]|].
  { destruct Hcheck as [-> Hlog]. intros [= <-]. right. cbn.
    split; [reflexivity|]. split; [reflexivity|]. split; [reflexivity | exact Hlog]. }
  destruct Hcheck as [-> ->].
  destruct (isLoggedIn (landed w)) as [[|]|]; [| |discriminate].
  - pose proof (LogActivity_logs_login st "success" "" (log_now w) (log_err w)) as H.
    destruct (LogActivity _ _ _ _ _ _ _). intros [= <-]. right. cbn.
    split; [reflexivity|]. split; [reflexivity|]. split; [reflexivity | exact H].
  - intros [= <-]. right. cbn. repeat split.
Qed.

(** X30.  What a login types and what it records.  [Login] first checks
    the session on the feed page; when that finds the user logged in,
    nothing is typed, nothing is recorded and the error is nil.  Otherwise
    the password is typed only after the email, each at most once.  Once
    the form is submitted, an issue on the page is reported in the order
    CAPTCHA, 2FA, security challenge, invalid credentials, and recorded as
    a login event with that outcome; without an issue the login succeeds,
    and is recorded as a success, exactly when the page then shows the
    user logged in; a failed verification is not recorded.  A login that
    fails before the form is submitted records nothing.  The connection
    requests and the messages are never touched. *)
Theorem login_types_credentials_once_and_records_outcome
        (w : World) (st : Storage) (out : Outcome) :
  Login cfg w st = Some out ->
  connection_requests (store out) = connection_requests st
  /\ messages (store out) = messages st
  /\ (typed out = [] \/ typed out = [Email (LinkedIn cfg)]
      \/ typed out = [Email (LinkedIn cfg); Password (LinkedIn cfg)])
  /\ (feed_navigate_err w = None -> isLoggedIn (session w) = Some true ->
      typed out = [] /\ err out = None /\ store out = st)
  /\ ((feed_navigate_err w <> None \/ isLoggedIn (session w) = Some false) ->
      (form_submitted w = false -> store out = st /\ err out <> None)
      /\ (form_submitted w = true ->
          typed out = [Email (LinkedIn cfg); Password (LinkedIn cfg)]
          /\ match issue_found (issues w) with
             | Some (outcome, message) =>
               err out = Some message /\ logs_login (log_err w) outcome st (store out)
             | None =>
               match isLoggedIn (landed w) with
               | Some true =>
                 err out = None /\ logs_login (log_err w) "success" st (store out)
               | _ => err out = Some "login verification failed" /\ store out = st
               end
             end)).
Proof.
  unfold Login, LoadCookies.
  assert (Hfresh : fresh_login cfg w st = Some out ->
            connection_requests (store out) = connection_requests st
            /\ messages (store out) = messages st
            /\ (typed out = [] \/ typed out = [Email (LinkedIn cfg)]
                \/ typed out = [Email (LinkedIn cfg); Password (LinkedIn cfg)])
            /\ (form_submitted w = false -> store out = st /\ err out <> None)
            /\ (form_submitted w = true ->
                typed out = [Email (LinkedIn cfg); Password (LinkedIn cfg)]
                /\ match issue_found (issues w) with
                   | Some (outcome, message) =>
                     err out = Some message
                     /\ logs_login (log_err w) outcome st (store out)
                   | None =>
                     match isLoggedIn (landed w) with
                     | Some true =>
                       err out = None /\ logs_login (log_err w) "success" st (store out)
                     | _ => err out = Some "login verification failed" /\ store out = st
                     end
                   end)).
  { intros Hrun. apply fresh_login_cases in Hrun.
    destruct Hrun as [(Hsub & Hst & Herr & Htyped) | (Hsub & Htyped & Hrest)].
    - rewrite Hst, Hsub. repeat split; try assumption; try congruence; discriminate.
    - assert (Htables : connection_requests (store out) = connection_requests st
                        /\ messages (store out) = messages st).
      { destruct (issue_found (issues w)) as [[o m]|].
        - destruct Hrest as (_ & (H1 & H2 & _)). now split.
        - destruct (isLoggedIn (landed w)) as [[|]|]; destruct Hrest as (_ & H);
            try (rewrite H; now split).
          destruct H as (H1 & H2 & _). now split. }
      destruct Htables as [H1 H2]. rewrite Hsub.
      split; [exact H1|]. split; [exact H2|]. split; [now right; right|].
      split; [discriminate|]. intros _. split; [exact Htyped | exact Hrest]. }
  destruct (feed_navigate_err w) as [e|].
  { intros Hrun. destruct (Hfresh Hrun) as (H1 & H2 & H3 & H4 & H5).
    split; [exact H1|]. split; [exact H2|]. split; [exact H3|].
    split; [discriminate|]. intros _. split; assumption. }
  destruct (isLoggedIn (session w)) as [[|]|]; [| |discriminate].
  - intros [= <-]. cbn. split; [reflexivity|]. split; [reflexivity|].
    split; [now left|]. split; [now repeat split|].
    intros [H | H]; [now elim H | discriminate H].
  - intros Hrun. destruct (Hfresh Hrun) as (H1 & H2 & H3 & H4 & H5).
    split; [exact H1|]. split; [exact H2|]. split; [exact H3|].
    split; [discriminate|]. intros _. split; assumption.
Qed.

End LoggingIn.

(** *** A login stopped by a verification code *)
Section LoggingInChecks.
Import config storage auth.

Definition logged_out : Presence :=
  {| global_nav := false; feed_identity_module := false;
     current_url := Some "https://www.linkedin.com/login" |}.

(** No session, the form goes through, and the page asks for a code; a
    CAPTCHA is not shown. *)
Definition login_world_2fa : World :=
  {| feed_navigate_err := None; session := logged_out;
     login_navigate_err := None; username_err := None; email_type_err := None;
     password_err := None; password_type_err := None; login_button_err := None;
     login_click_err := None;
     issues := {| captcha := false; pin := true; challenge := true;
                  issue_url := Some "https://www.linkedin.com/checkpoint/challenge";
                  form_error := false |};
     landed := logged_out;
     log_now := examples.tuesday_10h; log_err := None |}.

Lemma login_types_credentials_once_and_records_outcome_witness :
  (exists out,
      Login examples.cfg0 login_world_2fa storage.empty = Some out
      /\ err out = Some "2FA verification required - manual intervention needed"
      /\ typed out = ["user@example.com"; "secret"]
      /\ map Activity.Outcome (activity_log (store out)) = ["2fa"])
  /\ forall out,
      Login examples.cfg0 login_world_2fa storage.empty = Some out ->
      connection_requests (store out) = [] /\ messages (store out) = [].
Proof.
  split.
  - eexists. split; [reflexivity|]. repeat split.
  - intros out Hrun.
    destruct (login_types_credentials_once_and_records_outcome
                examples.cfg0 login_world_2fa storage.empty out Hrun) as (H1 & H2 & _).
    split; assumption.
Defined.

End LoggingInChecks.
